(** * Pattern-Check front end: the order workflow views

    A shallow embedding of the React components of [frontend/src]
    (Dashboard, Orders, AdminPanel, Login, NewDashboard, OrderDetail):
    the values the components receive from the REST API, their state
    slots and asynchronous handlers, the element trees they render and
    the client-side filters, followed by the properties of the order
    workflow that hold of them. *)

From Stdlib Require Import ZArith List String Bool Lia QArith.
Import ListNotations.
Local Open Scope string_scope.
Local Open Scope Z_scope.
Local Open Scope list_scope.

Set Implicit Arguments.
Set Warnings "-register-all".

(* ================================================================== *)
(** ** JavaScript values *)

(** The values that reach the components through JSON responses and
    component state.  Numbers are the integral ones ([VNum]); a string
    is kept as the bytes of its UTF-8 form; [VObj] stands for any
    object or array, of which only the truthiness is observed. *)
Inductive value : Type :=
| VUndefined
| VNull
| VBool (b : bool)
| VNum (n : Z)
| VStr (s : string)
| VObj.

(** [ToBoolean]: the test made by [!v], [v && e], [v || e] and [v ? a : b]. *)
Definition truthy (v : value) : bool :=
  match v with
  | VUndefined | VNull => false
  | VBool b => b
  | VNum n => negb (n =? 0)
  | VStr s => negb (s =? "")%string
  | VObj => true
  end.

(** A field is absent when reading it gives [undefined] or [null]. *)
Definition absent (v : value) : bool :=
  match v with
  | VUndefined | VNull => true
  | _ => false
  end.

Definition present (v : value) : bool := negb (absent v).

(** [v === 'lit'] against a string literal. *)
Definition seq_str (v : value) (lit : string) : bool :=
  match v with
  | VStr s => (s =? lit)%string
  | _ => false
  end.

(** [v === n] against a number literal. *)
Definition seq_num (v : value) (n : Z) : bool :=
  match v with
  | VNum m => m =? n
  | _ => false
  end.

(** [a || b] *)
Definition js_or (a b : value) : value := if truthy a then a else b.

(** ** API records *)

Record Order : Type := {
  order_id : value;
  order_number : value;
  google_sheet_link : value;
  created_at : value;
  initial_pattern_status : value;
  initial_pattern_date : value;
  second_pattern_status : value;
  second_pattern_date : value;
  approved_pattern_status : value;
  approved_pattern_date : value
}.

Record User : Type := {
  user_id : value;
  user_name : value;
  user_email : value;
  role : value;
  is_approved : value;
  user_created_at : value
}.

Record Pattern : Type := {
  pattern_id : value;
  stage : value;
  slot : value;
  filename : value;
  uploaded_at : value
}.

Record Chat : Type := {
  chat_id : value;
  chat_user_id : value;
  chat_user_name : value;
  message : value;
  image_id : value;
  quoted_message_text : value;
  quoted_user_name : value;
  chat_created_at : value
}.

(** [user?.f]: [undefined] when the context holds no user. *)
Definition opt_field {A : Type} (f : A -> value) (o : option A) : value :=
  match o with
  | Some x => f x
  | None => VUndefined
  end.

(* ================================================================== *)
(** ** HTTP calls, their outcomes and the handlers' observable effects *)

Inductive http_method : Type := GET | POST | PATCH | DELETE.

(** A URL is the list of the segments of its template string, the
    [${API}] prefix left out. *)
Definition url : Type := list value.

(** [error.response]: the status and [data?.detail] of an error answer. *)
Record error_response : Type := {
  status : value;
  detail : value
}.

(** The error a rejected axios promise carries; [response] is missing
    when the request never got an answer. *)
Record axios_error : Type := {
  response : option error_response
}.

(** The settlement of an awaited axios promise. *)
Inductive api_result (A : Type) : Type :=
| Resolved (data : A)
| Rejected (error : axios_error).
Arguments Resolved {A} data.
Arguments Rejected {A} error.

(** What a handler does besides setting component state. *)
Inductive effect : Type :=
| Request (m : http_method) (u : url)
| ToastError (msg : value)
| ToastSuccess (msg : value)
| Call (fn : string)
| Navigate (path : string)
| ContextLogin
| DomEffect (what : string).

Definition is_request (e : effect) : bool :=
  match e with Request _ _ => true | _ => false end.

Definition is_call (e : effect) : bool :=
  match e with Call _ => true | _ => false end.

Definition is_toast_error (e : effect) : bool :=
  match e with ToastError _ => true | _ => false end.

Definition is_toast (e : effect) : bool :=
  match e with ToastError _ | ToastSuccess _ => true | _ => false end.

(** [error.response?.status === n] *)
Definition status_is (error : axios_error) (n : Z) : bool :=
  seq_num (opt_field status (response error)) n.

(** [error.response?.data?.detail || fallback] *)
Definition detail_or (error : axios_error) (fallback : string) : value :=
  js_or (opt_field detail (response error)) (VStr fallback).

(** *** Handlers as state transformers with a trace

    An asynchronous handler is run against the settlement of the call
    it awaits: it maps the component state to a new state and the list
    of effects it performed, in order.  The [e.preventDefault()] that
    opens the submit handlers is left out. *)
Definition handler (S A : Type) : Type := S -> A * S * list effect.

Definition ret {S A : Type} (a : A) : handler S A := fun s => (a, s, []).

Definition bind {S A B : Type} (m : handler S A) (k : A -> handler S B)
  : handler S B :=
  fun s =>
    let '(a, s1, t1) := m s in
    let '(b, s2, t2) := k a s1 in
    (b, s2, t1 ++ t2).

Definition emit {S : Type} (e : effect) : handler S unit :=
  fun s => (tt, s, [e]).

Definition modify {S : Type} (f : S -> S) : handler S unit :=
  fun s => (tt, f s, []).

Definition skip {S : Type} : handler S unit := ret tt.

Notation "c1 ;; c2" := (bind c1 (fun _ => c2))
  (at level 61, right associativity).

(** [try { const response = await call; k response.data } catch (error) { h error }] *)
Definition try_catch {S A B : Type} (r : api_result A)
  (k : A -> handler S B) (h : axios_error -> handler S B) : handler S B :=
  match r with
  | Resolved data => k data
  | Rejected error => h error
  end.

Definition toast_error {S : Type} (msg : value) : handler S unit :=
  emit (ToastError msg).

Definition toast_success {S : Type} (msg : string) : handler S unit :=
  emit (ToastSuccess (VStr msg)).

Definition axios {S : Type} (m : http_method) (u : url) : handler S unit :=
  emit (Request m u).

Definition state_after {S A : Type} (m : handler S A) (s : S) : S :=
  snd (fst (m s)).

Definition trace {S A : Type} (m : handler S A) (s : S) : list effect :=
  snd (m s).

(* ================================================================== *)
(** ** Rendered element trees *)

(** An event-handler prop: the function the handler calls, with the
    arguments written at the call. *)
Record listener : Type := {
  l_fn : string;
  l_args : list value
}.

Inductive prop : Type :=
| TestId (id : list value)
| Disabled (b : bool)
| On (event : string) (l : listener)
| Variant (v : string)
| Attr (name : string) (v : value).

(** JSX elements.  A lower-case tag is a host element; a capitalised
    tag is an identifier looked up in the scope of the module.  [Txt]
    is an expression child ([{e}]); React shows strings and numbers
    and nothing for booleans, [null] and [undefined].  A date shown
    through [toLocaleDateString] or [toLocaleTimeString] is kept as
    the value it is computed from.  Styling props ([className],
    [size], [style]) and [key] are left out. *)
Inductive element : Type :=
| Host (tag : string) (props : list prop) (children : list element)
| Comp (ident : string) (props : list prop) (children : list element)
| Txt (v : value).

(** [cond && <element/>] *)
Definition js_and (cond : value) (e : element) : element :=
  if truthy cond then e else Txt cond.

(** The same with a condition computed by [===], [||], [!]: a boolean. *)
Definition when (cond : bool) (e : element) : element :=
  js_and (VBool cond) e.

Definition text (s : string) : element := Txt (VStr s).

(** An interactive control: an element that carries an event listener. *)
Record control : Type := {
  c_testid : option (list value);
  c_event : string;
  c_listener : listener;
  c_disabled : bool
}.

Definition testid_of (ps : list prop) : option (list value) :=
  match filter (fun p => match p with TestId _ => true | _ => false end) ps with
  | TestId id :: _ => Some id
  | _ => None
  end.

Definition disabled_of (ps : list prop) : bool :=
  existsb (fun p => match p with Disabled b => b | _ => false end) ps.

Definition listeners_of (ps : list prop) : list control :=
  flat_map (fun p =>
    match p with
    | On ev l => [ {| c_testid := testid_of ps; c_event := ev;
                      c_listener := l; c_disabled := disabled_of ps |} ]
    | _ => []
    end) ps.

(** All the controls of a tree, in document order. *)
Fixpoint controls (e : element) : list control :=
  match e with
  | Host _ ps children => listeners_of ps ++ flat_map controls children
  | Comp _ ps children => listeners_of ps ++ flat_map controls children
  | Txt _ => []
  end.

(** The badges of a tree: [<Badge variant=...>child</Badge>] as the
    pair of its variant and its first child. *)
Definition variant_of (ps : list prop) : option string :=
  match filter (fun p => match p with Variant _ => true | _ => false end) ps with
  | Variant v :: _ => Some v
  | _ => None
  end.

(** *** Evaluating a tree in the scope of a module

    Evaluating [<Ident ...>] reads the binding of [Ident]; an identifier
    with no binding throws a ReferenceError, and the render is
    abandoned at the first one met (element type first, then the
    children from left to right). *)
Fixpoint first_unbound (scope : list string) (e : element) : option string :=
  let fix go (l : list element) : option string :=
    match l with
    | [] => None
    | x :: t =>
        match first_unbound scope x with
        | Some i => Some i
        | None => go t
        end
    end in
  match e with
  | Host _ _ children => go children
  | Comp ident _ children =>
      if existsb (String.eqb ident) scope then go children else Some ident
  | Txt _ => None
  end.

Inductive render_result : Type :=
| Rendered (tree : element)
| ReferenceError (ident : string).

Definition evaluate (scope : list string) (tree : element) : render_result :=
  match first_unbound scope tree with
  | Some ident => ReferenceError ident
  | None => Rendered tree
  end.

(* ================================================================== *)
(** ** The host's [Date] *)

(** What the browser supplies to [Date]: the parser of date strings and
    the offset of local time from UTC, in milliseconds, at a time value
    ([is_utc]) or at a local time. *)
Record host : Type := {
  date_parse : string -> option Z;
  local_tza : Z -> bool -> Z
}.

Module JsDate.

(** A time value: milliseconds since the epoch, [None] for [NaN]
    (an invalid date). *)
Definition time : Type := option Z.

Definition msPerDay : Z := 86400000.

Definition Day (t : Z) : Z := t / msPerDay.

Definition TimeWithinDay (t : Z) : Z := t mod msPerDay.

(** Year, month (1 to 12) and day of the month of a day number. *)
Definition civil_from_days (days : Z) : Z * Z * Z :=
  let z := days + 719468 in
  let era := z / 146097 in
  let doe := z - era * 146097 in
  let yoe := (doe - doe / 1460 + doe / 36524 - doe / 146096) / 365 in
  let doy := doe - (365 * yoe + yoe / 4 - yoe / 100) in
  let mp := (5 * doy + 2) / 153 in
  let d := doy - (153 * mp + 2) / 5 + 1 in
  let m := if mp <? 10 then mp + 3 else mp - 9 in
  let y := yoe + era * 400 + (if m <=? 2 then 1 else 0) in
  (y, m, d).

(** The day number of a year, month (1 to 12) and day of the month;
    the day may lie outside the month. *)
Definition days_from_civil (y m d : Z) : Z :=
  let y' := if m <=? 2 then y - 1 else y in
  let era := y' / 400 in
  let yoe := y' - era * 400 in
  let doy := (153 * (if 2 <? m then m - 3 else m + 9) + 2) / 5 + d - 1 in
  let doe := yoe * 365 + yoe / 4 - yoe / 100 + doy in
  era * 146097 + doe - 719468.

Definition YearFromTime (t : Z) : Z := fst (fst (civil_from_days (Day t))).

(** 0 for January to 11 for December. *)
Definition MonthFromTime (t : Z) : Z := snd (fst (civil_from_days (Day t))) - 1.

Definition DateFromTime (t : Z) : Z := snd (civil_from_days (Day t)).

Definition MakeDay (year month date : Z) : Z :=
  let ym := year + month / 12 in
  let mn := month mod 12 in
  days_from_civil ym (mn + 1) 1 + date - 1.

Definition MakeDate (day tm : Z) : Z := day * msPerDay + tm.

Definition TimeClip (t : Z) : time :=
  if 8640000000000000 <? Z.abs t then None else Some t.

Definition LocalTime (h : host) (t : Z) : Z := t + local_tza h t true.

Definition UTC (h : host) (t : Z) : Z := t - local_tza h t false.

(** [new Date(v)] for a value out of a JSON document. *)
Definition of_value (h : host) (v : value) : time :=
  match v with
  | VStr s => date_parse h s
  | VNum n => TimeClip n
  | VNull => Some 0
  | VBool b => Some (if b then 1 else 0)
  | VUndefined | VObj => None
  end.

(** [d.getDate()] of a valid date. *)
Definition getDate (h : host) (t : Z) : Z := DateFromTime (LocalTime h t).

(** [d.setDate(dt)] on a valid date: the new time value. *)
Definition setDate (h : host) (t : Z) (dt : Z) : time :=
  let lt := LocalTime h t in
  let newDate :=
    MakeDate (MakeDay (YearFromTime lt) (MonthFromTime lt) dt) (TimeWithinDay lt) in
  TimeClip (UTC h newDate).

(** [a >= b] on dates: the comparison of their time values, false as
    soon as one is [NaN]. *)
Definition ge (a b : time) : bool :=
  match a, b with
  | Some x, Some y => y <=? x
  | _, _ => false
  end.

End JsDate.

(** A host in the UTC zone whose parser knows the date strings of a table. *)
Definition utc_host (table : list (string * Z)) : host := {|
  date_parse := fun s =>
    match find (fun e => (fst e =? s)%string) table with
    | Some e => Some (snd e)
    | None => None
    end;
  local_tza := fun _ _ => 0
|}.

(* ================================================================== *)
(** ** Role tables shared by the pages

    [getRoleLabel] is defined alike in Dashboard, NewDashboard and
    AdminPanel: [labels[role] || role]. *)

Definition role_labels : list (string * string) :=
  [ ("admin", "Admin");
    ("order_uploader", "Order Uploader");
    ("pattern_maker", "Pattern Maker");
    ("pattern_checker", "Pattern Checker");
    ("general_user", "General User") ].

(** [table[key]] on an object literal with string values. *)
Definition lookup (table : list (string * string)) (key : value) : value :=
  match key with
  | VStr k =>
      match find (fun e => (fst e =? k)%string) table with
      | Some e => VStr (snd e)
      | None => VUndefined
      end
  | _ => VUndefined
  end.

Definition getRoleLabel (r : value) : value := js_or (lookup role_labels r) r.

(** [user?.role === 'name'] *)
Definition role_is (user : option User) (name : string) : bool :=
  seq_str (opt_field role user) name.

(** The listener [() => f(args)]. *)
Definition call (f : string) (args : list value) : listener :=
  {| l_fn := f; l_args := args |}.

(** The form of a new order: [{ order_number, google_sheet_link }]. *)
Record order_form : Type := {
  form_order_number : string;
  form_google_sheet_link : string
}.

Definition empty_order_form : order_form :=
  {| form_order_number := ""; form_google_sheet_link := "" |}.

(** The three status lines of an order card, the same in Dashboard and
    Orders. *)
Definition card_variant (s : value) : string :=
  if seq_str s "approved" then "default"
  else if seq_str s "rejected" then "destructive"
  else "secondary".

Definition order_card_statuses (order : Order) : element :=
  Host "div" []
    [ Host "div" []
        [ Host "span" [] [text "Initial Pattern:"];
          Comp "Badge" [Variant (card_variant (initial_pattern_status order))]
            [ Txt (js_or (initial_pattern_status order)
                     (if truthy (initial_pattern_date order)
                      then VStr "Uploaded" else VStr "Pending")) ] ];
      Host "div" []
        [ Host "span" [] [text "Second Review:"];
          Comp "Badge" [Variant (card_variant (second_pattern_status order))]
            [ Txt (js_or (second_pattern_status order) (VStr "Pending")) ] ];
      Host "div" []
        [ Host "span" [] [text "Final Status:"];
          Comp "Badge" [Variant (card_variant (approved_pattern_status order))]
            [ Txt (js_or (approved_pattern_status order) (VStr "Pending")) ] ] ].

Definition order_card (order : Order) : element :=
  Comp "Card"
    [ TestId [VStr "order-card-"; order_id order];
      On "onClick" (call "navigate" [VStr "/order/"; order_id order]) ]
    [ Comp "CardHeader" []
        [ Comp "CardTitle" [] [Txt (order_number order)];
          Host "div" [] [Comp "Calendar" [] []; Txt (created_at order)] ];
      Comp "CardContent" []
        [ order_card_statuses order;
          Comp "Button"
            [ TestId [VStr "view-order-"; order_id order];
              Variant "outline";
              On "onClick" (call "navigate" [VStr "/order/"; order_id order]) ]
            [text "View Details"] ] ].

(** The dialog with the form of a new order,
    [<Dialog open={dialogOpen} onOpenChange={setDialogOpen}>]: a
    trigger and the content, which holds the form. *)
Definition create_order_dialog (dialogOpen : bool) (label : string) : element :=
  Comp "Dialog"
    [Attr "open" (VBool dialogOpen); On "onOpenChange" (call "setDialogOpen" [])]
    [ Comp "DialogTrigger" []
        [ Comp "Button" [TestId [VStr "create-order-button"]]
            [Comp "Plus" [] []; text "Create Order"] ];
      Comp "DialogContent" []
        [ Comp "DialogHeader" [] [Comp "DialogTitle" [] [text "Create New Order"]];
          Host "form" [On "onSubmit" (call "createOrder" [])]
            [ Host "div" []
                [ Comp "Label" [] [text "Order Number"];
                  Comp "Input"
                    [ TestId [VStr "order-number-input"];
                      On "onChange" (call "setFormData" []) ] [] ];
              Host "div" []
                [ Comp "Label" [] [text label];
                  Comp "Input"
                    [ TestId [VStr "google-sheet-link-input"];
                      On "onChange" (call "setFormData" []) ] [] ];
              Comp "Button"
                [TestId [VStr "submit-create-order"]; Attr "type" (VStr "submit")]
                [text "Create Order"] ] ] ].

(* ================================================================== *)
(** ** pages/Dashboard.jsx *)

Module Dashboard.

(** The identifiers the module binds: its imports and the component. *)
Definition scope : list string :=
  [ "React"; "useState"; "useEffect"; "useContext";
    "useNavigate";
    "AuthContext"; "API";
    "axios";
    "Button";
    "Input";
    "Label";
    "Card"; "CardContent"; "CardHeader"; "CardTitle";
    "Dialog"; "DialogContent"; "DialogHeader"; "DialogTitle"; "DialogTrigger";
    "Badge";
    "toast";
    "Plus"; "LogOut"; "Settings"; "FileText"; "Calendar";
    "Dashboard" ].

Record state : Type := {
  orders : list Order;
  loading : bool;
  dialogOpen : bool;
  formData : order_form
}.

(** The [useState] initial values. *)
Definition initial : state :=
  {| orders := []; loading := true; dialogOpen := false;
     formData := empty_order_form |}.

Definition setOrders (v : list Order) : handler state unit :=
  modify (fun s => {| orders := v; loading := loading s;
                      dialogOpen := dialogOpen s; formData := formData s |}).

Definition setLoading (v : bool) : handler state unit :=
  modify (fun s => {| orders := orders s; loading := v;
                      dialogOpen := dialogOpen s; formData := formData s |}).

Definition setDialogOpen (v : bool) : handler state unit :=
  modify (fun s => {| orders := orders s; loading := loading s;
                      dialogOpen := v; formData := formData s |}).

Definition setFormData (v : order_form) : handler state unit :=
  modify (fun s => {| orders := orders s; loading := loading s;
                      dialogOpen := dialogOpen s; formData := v |}).

Definition fetchOrders (r : api_result (list Order)) : handler state unit :=
  axios GET [VStr "/orders"] ;;
  try_catch r
    (fun data => setOrders data)
    (fun error =>
       if status_is error 403
       then setOrders []
       else toast_error (VStr "Failed to fetch orders")) ;;
  setLoading false.

Definition createOrder (r : api_result unit) : handler state unit :=
  axios POST [VStr "/orders"] ;;
  try_catch r
    (fun _ =>
       toast_success "Order created successfully!" ;;
       setDialogOpen false ;;
       setFormData empty_order_form ;;
       emit (Call "fetchOrders"))
    (fun error => toast_error (detail_or error "Failed to create order")).

Definition canCreateOrder (user : option User) : bool :=
  role_is user "admin" || role_is user "order_uploader".

Definition header (user : option User) : element :=
  Host "header" []
    [ Host "div" []
        [ Host "div" []
            [ Host "div" []
                [ Host "h1" [] [text "Pattern "; Host "span" [] [text "Manager"]];
                  Host "p" [] [text "Welcome, "; Txt (opt_field user_name user)] ];
              Host "div" []
                [ Comp "Badge" [] [Txt (getRoleLabel (opt_field role user))];
                  when (role_is user "admin")
                    (Comp "Button"
                       [ TestId [VStr "admin-panel-button"]; Variant "outline";
                         On "onClick" (call "navigate" [VStr "/admin"]) ]
                       [Comp "Settings" [] []; text "Admin Panel"]);
                  Comp "Button"
                    [ TestId [VStr "logout-button"]; Variant "outline";
                      On "onClick" (call "logout" []) ]
                    [Comp "LogOut" [] []; text "Logout"] ] ] ] ].

(** The card shown when the list of orders is empty. *)
Definition empty_card (user : option User) : element :=
  Comp "Card" []
    (if negb (truthy (opt_field is_approved user)) && negb (role_is user "admin")
     then
       [ Comp "Shield" [] [];
         Host "h3" [] [text "Account Pending Approval"];
         Host "p" [] [text "Your account is awaiting admin approval."];
         Host "p" [] [text "You'll be able to access orders once your account is approved."] ]
     else
       [ Comp "FileText" [] [];
         Host "h3" [] [text "No orders yet"];
         Host "p" [] [text "Get started by creating your first order"];
         when (canCreateOrder user)
           (Comp "Button" [On "onClick" (call "setDialogOpen" [VBool true])]
              [Comp "Plus" [] []; text "Create First Order"]) ]).

(** The JSX the component returns. *)
Definition view (user : option User) (st : state) : element :=
  Host "div" []
    [ header user;
      Host "main" []
        [ Host "div" []
            [ Host "div" []
                [ Host "h2" [] [text "Orders"];
                  Host "p" [] [text "Manage and track pattern orders"] ];
              when (canCreateOrder user)
                (create_order_dialog (dialogOpen st) "Google Sheet Link") ];
          if loading st then
            Host "div" [] (map (fun _ : Z => Comp "Card" [] []) [1; 2; 3; 4; 5; 6])
          else if (Z.of_nat (List.length (orders st)) =? 0) then
            empty_card user
          else
            Host "div" [] (map order_card (orders st)) ] ].

(** Rendering: the evaluation of the JSX in the scope of the module. *)
Definition render (user : option User) (st : state) : render_result :=
  evaluate scope (view user st).

End Dashboard.

(* ================================================================== *)
(** ** The Orders page *)

Module Orders.

Record state : Type := {
  allOrders : list Order;
  filteredOrders : list Order;
  loading : bool;
  dialogOpen : bool;
  statusFilter : string;
  dateFilter : Z;
  formData : order_form
}.

Definition initial : state :=
  {| allOrders := []; filteredOrders := []; loading := true;
     dialogOpen := false; statusFilter := "all"; dateFilter := 30;
     formData := empty_order_form |}.

Definition statusFilters : list (string * string) :=
  [ ("All Orders", "all");
    ("Approved", "approved");
    ("Rejected", "rejected");
    ("No Action", "no_action") ].

Definition dateFilters : list (string * Z) :=
  [ ("Today", 1);
    ("Last 3 Days", 3);
    ("Last Week", 7);
    ("Last Month", 30);
    ("Last 3 Months", 90) ].

Definition setAllOrders (v : list Order) : handler state unit :=
  modify (fun s =>
    {| allOrders := v; filteredOrders := filteredOrders s;
       loading := loading s; dialogOpen := dialogOpen s;
       statusFilter := statusFilter s; dateFilter := dateFilter s;
       formData := formData s |}).

Definition setFilteredOrders (v : list Order) : handler state unit :=
  modify (fun s =>
    {| allOrders := allOrders s; filteredOrders := v;
       loading := loading s; dialogOpen := dialogOpen s;
       statusFilter := statusFilter s; dateFilter := dateFilter s;
       formData := formData s |}).

Definition setLoading (v : bool) : handler state unit :=
  modify (fun s =>
    {| allOrders := allOrders s; filteredOrders := filteredOrders s;
       loading := v; dialogOpen := dialogOpen s;
       statusFilter := statusFilter s; dateFilter := dateFilter s;
       formData := formData s |}).

Definition setDialogOpen (v : bool) : handler state unit :=
  modify (fun s =>
    {| allOrders := allOrders s; filteredOrders := filteredOrders s;
       loading := loading s; dialogOpen := v;
       statusFilter := statusFilter s; dateFilter := dateFilter s;
       formData := formData s |}).

Definition setStatusFilter (v : string) : handler state unit :=
  modify (fun s =>
    {| allOrders := allOrders s; filteredOrders := filteredOrders s;
       loading := loading s; dialogOpen := dialogOpen s;
       statusFilter := v; dateFilter := dateFilter s;
       formData := formData s |}).

Definition setDateFilter (v : Z) : handler state unit :=
  modify (fun s =>
    {| allOrders := allOrders s; filteredOrders := filteredOrders s;
       loading := loading s; dialogOpen := dialogOpen s;
       statusFilter := statusFilter s; dateFilter := v;
       formData := formData s |}).

Definition setFormData (v : order_form) : handler state unit :=
  modify (fun s =>
    {| allOrders := allOrders s; filteredOrders := filteredOrders s;
       loading := loading s; dialogOpen := dialogOpen s;
       statusFilter := statusFilter s; dateFilter := dateFilter s;
       formData := v |}).

Definition fetchOrders (r : api_result (list Order)) : handler state unit :=
  axios GET [VStr "/orders"] ;;
  try_catch r
    (fun data => setAllOrders data)
    (fun error =>
       if status_is error 403
       then setAllOrders []
       else toast_error (VStr "Failed to fetch orders")) ;;
  setLoading false.

(** The date [applyFilters] compares with:
    [const cutoffDate = new Date();
     cutoffDate.setDate(cutoffDate.getDate() - dateFilter)],
    [now] being the time value of [new Date()]. *)
Definition cutoffDate (h : host) (now : Z) (days : Z) : JsDate.time :=
  JsDate.setDate h now (JsDate.getDate h now - days).

(** [applyFilters], [now] being the time value of its [new Date()]. *)
Definition applyFilters (h : host) (now : Z) : handler state unit :=
  fun st =>
    let filtered := allOrders st in
    (* Date filter *)
    let cutoff := cutoffDate h now (dateFilter st) in
    let filtered :=
      filter (fun order =>
        let orderDate := JsDate.of_value h (created_at order) in
        JsDate.ge orderDate cutoff) filtered in
    (* Status filter *)
    let filtered :=
      if (statusFilter st =? "approved")%string then
        filter (fun order => seq_str (approved_pattern_status order) "approved")
          filtered
      else if (statusFilter st =? "rejected")%string then
        filter (fun order =>
          seq_str (initial_pattern_status order) "rejected"
          || seq_str (second_pattern_status order) "rejected"
          || seq_str (approved_pattern_status order) "rejected") filtered
      else if (statusFilter st =? "no_action")%string then
        filter (fun order =>
          negb (truthy (initial_pattern_status order))
          && negb (truthy (second_pattern_status order))
          && negb (truthy (approved_pattern_status order))) filtered
      else filtered in
    setFilteredOrders filtered st.

Definition createOrder (r : api_result unit) : handler state unit :=
  axios POST [VStr "/orders"] ;;
  try_catch r
    (fun _ =>
       toast_success "Order created successfully!" ;;
       setDialogOpen false ;;
       setFormData empty_order_form ;;
       emit (Call "fetchOrders"))
    (fun error => toast_error (detail_or error "Failed to create order")).

Definition canCreateOrder (user : option User) : bool :=
  role_is user "admin" || role_is user "order_uploader".

Definition view (user : option User) (st : state) : element :=
  Host "div" []
    [ Host "header" []
        [ Host "div" []
            [ Host "div" []
                [ Host "div" []
                    [ Comp "Button"
                        [ TestId [VStr "back-to-dashboard"]; Variant "ghost";
                          On "onClick" (call "navigate" [VStr "/"]) ]
                        [Comp "ArrowLeft" [] []; text "Dashboard"];
                      Host "div" [] [Host "h1" [] [text "All Orders"]] ];
                  when (canCreateOrder user)
                    (create_order_dialog (dialogOpen st) "Order Sheet Link") ] ] ];
      Host "main" []
        [ Host "div" []
            [ Comp "Tabs" [On "onValueChange" (call "setStatusFilter" [])]
                [ Comp "TabsList" []
                    (map (fun f => Comp "TabsTrigger" [Attr "value" (VStr (snd f))]
                                     [text (fst f)]) statusFilters) ];
              Comp "Tabs" [On "onValueChange" (call "setDateFilter" [])]
                [ Comp "TabsList" []
                    (map (fun f => Comp "TabsTrigger" [Attr "value" (VNum (snd f))]
                                     [text (fst f)]) dateFilters) ];
              Host "div" []
                [ text "Showing ";
                  Txt (VNum (Z.of_nat (List.length (filteredOrders st))));
                  text " of ";
                  Txt (VNum (Z.of_nat (List.length (allOrders st))));
                  text " orders" ] ];
          if loading st then
            Host "div" [] (map (fun _ : Z => Comp "Card" [] []) [1; 2; 3; 4; 5; 6])
          else if (Z.of_nat (List.length (filteredOrders st)) =? 0) then
            Comp "Card" []
              [ Host "h3" [] [text "No orders found"];
                Host "p" [] [text "Try adjusting your filters or create a new order"] ]
          else
            Host "div" [] (map order_card (filteredOrders st)) ] ].

(** The identifiers the module binds: its imports and the component. *)
Definition scope : list string :=
  [ "React"; "useState"; "useEffect"; "useContext";
    "useNavigate";
    "AuthContext"; "API";
    "axios";
    "Button";
    "Input";
    "Label";
    "Card"; "CardContent"; "CardHeader"; "CardTitle";
    "Dialog"; "DialogContent"; "DialogHeader"; "DialogTitle"; "DialogTrigger";
    "Badge";
    "Tabs"; "TabsList"; "TabsTrigger";
    "toast";
    "Plus"; "Calendar"; "ArrowLeft";
    "Orders" ].

Definition render (user : option User) (st : state) : render_result :=
  evaluate scope (view user st).

End Orders.

(* ================================================================== *)
(** ** pages/AdminPanel.jsx: the handlers *)

Module AdminPanel.

Record state : Type := {
  users : list User;
  loading : bool
}.

Definition initial : state := {| users := []; loading := true |}.

Definition setUsers (v : list User) : handler state unit :=
  modify (fun s => {| users := v; loading := loading s |}).

Definition setLoading (v : bool) : handler state unit :=
  modify (fun s => {| users := users s; loading := v |}).

Definition fetchUsers (r : api_result (list User)) : handler state unit :=
  axios GET [VStr "/users"] ;;
  try_catch r
    (fun data => setUsers data)
    (fun _ => toast_error (VStr "Failed to fetch users")) ;;
  setLoading false.

Definition updateRole (userId newRole : value) (r : api_result unit)
  : handler state unit :=
  axios PATCH [VStr "/users/"; userId; VStr "/role"] ;;
  try_catch r
    (fun _ =>
       toast_success "Role updated successfully!" ;;
       emit (Call "fetchUsers"))
    (fun error => toast_error (detail_or error "Failed to update role")).

Definition approveUser (userId : value) (r : api_result unit)
  : handler state unit :=
  axios PATCH [VStr "/users/"; userId; VStr "/approve"] ;;
  try_catch r
    (fun _ =>
       toast_success "User approved successfully!" ;;
       emit (Call "fetchUsers"))
    (fun error => toast_error (detail_or error "Failed to approve user")).

(** The identifiers the module binds: its imports and the component. *)
Definition scope : list string :=
  [ "React"; "useState"; "useEffect";
    "useNavigate";
    "axios";
    "API";
    "Button";
    "Card"; "CardContent"; "CardHeader"; "CardTitle"; "CardDescription";
    "Select"; "SelectContent"; "SelectItem"; "SelectTrigger"; "SelectValue";
    "Badge";
    "toast";
    "ArrowLeft"; "Users"; "Shield"; "Trash2"; "Power"; "PowerOff";
    "AdminPanel" ].

(** The row of a user in the list. *)
Definition user_row (u : User) : element :=
  Comp "Card" []
    [ Comp "CardContent" []
        [ Host "div" []
            [ Host "div" []
                [ Host "div" [] [Txt (user_name u)];
                  Host "div" [] [Txt (user_email u)];
                  Host "div" [] [text "Joined "; Txt (user_created_at u)] ];
              Host "div" []
                [ when (negb (truthy (is_approved u)))
                    (Comp "Badge" [] [text "Pending Approval"]);
                  Comp "Badge" [] [Txt (getRoleLabel (role u))];
                  when (negb (truthy (is_approved u)))
                    (Comp "Button"
                       [ TestId [VStr "approve-user-"; user_id u];
                         On "onClick" (call "approveUser" [user_id u]) ]
                       [text "Approve"]);
                  Comp "Select"
                    [ Attr "value" (role u);
                      On "onValueChange" (call "updateRole" [user_id u]) ]
                    [ Comp "SelectTrigger"
                        [TestId [VStr "role-select-"; user_id u]]
                        [Comp "SelectValue" [] []];
                      Comp "SelectContent" []
                        (map (fun r =>
                                Comp "SelectItem" [Attr "value" (VStr (fst r))]
                                  [text (snd r)]) role_labels) ] ] ] ] ].

Definition role_descriptions : list (string * string) :=
  [ ("Admin", "Full access to all features including user management");
    ("Order Uploader", "Can create and edit order information");
    ("Pattern Maker", "Can upload initial patterns and participate in chat");
    ("Pattern Checker",
     "Can review, approve/reject patterns, and upload corrections");
    ("General User", "View-only access to orders and chat") ].

(** The JSX the component returns. *)
Definition view (st : state) : element :=
  Host "div" []
    [ Host "header" []
        [ Host "div" []
            [ Host "div" []
                [ Comp "Button"
                    [ TestId [VStr "back-to-dashboard"]; Variant "ghost";
                      On "onClick" (call "navigate" [VStr "/"]) ]
                    [Comp "ArrowLeft" [] []; text "Back to Dashboard"];
                  Host "div" []
                    [ Host "h1" []
                        [text "Admin "; Host "span" [] [text "Panel"]] ] ] ] ];
      Host "main" []
        [ Comp "Card" []
            [ Comp "CardHeader" []
                [ Host "div" []
                    [ Comp "Shield" [] [];
                      Host "div" []
                        [ Comp "CardTitle" [] [text "User Management"];
                          Comp "CardDescription" []
                            [text "Assign roles and manage user permissions"] ] ] ];
              Comp "CardContent" []
                [ if loading st then
                    Host "div" [] [text "Loading users..."]
                  else if (Z.of_nat (List.length (users st)) =? 0) then
                    Host "div" []
                      [ Comp "Users" [] [];
                        Host "p" [] [text "No users found"] ]
                  else
                    Host "div" [] (map user_row (users st)) ] ];
          Comp "Card" []
            [ Comp "CardHeader" []
                [Comp "CardTitle" [] [text "Role Permissions"]];
              Comp "CardContent" []
                [ Host "div" []
                    (map (fun d =>
                            Host "div" []
                              [ Host "div" [] [text (fst d)];
                                Host "p" [] [text (snd d)] ])
                       role_descriptions) ] ] ] ].

Definition render (st : state) : render_result :=
  evaluate scope (view st).

End AdminPanel.

(* ================================================================== *)
(** ** pages/Login.jsx: the handler *)

Module Login.

Record login_form : Type := {
  email : string;
  password : string;
  name : string
}.

Record state : Type := {
  isLogin : bool;
  formData : login_form;
  loading : bool
}.

Definition initial : state :=
  {| isLogin := true;
     formData := {| email := ""; password := ""; name := "" |};
     loading := false |}.

Definition setLoading (v : bool) : handler state unit :=
  modify (fun s => {| isLogin := isLogin s; formData := formData s;
                      loading := v |}).

(** The answer of the two authentication endpoints. *)
Record session : Type := {
  access_token : value;
  user : value
}.

Definition handleSubmit (r : api_result session) : handler state unit :=
  fun st =>
    (setLoading true ;;
     let endpoint := if isLogin st then "/auth/login" else "/auth/register" in
     axios POST [VStr endpoint] ;;
     try_catch r
       (fun _ =>
          emit ContextLogin ;;
          toast_success (if isLogin st then "Logged in successfully!"
                         else "Account created successfully!"))
       (fun error => toast_error (detail_or error "An error occurred")) ;;
     setLoading false) st.

End Login.

(* ================================================================== *)
(** ** pages/NewDashboard.jsx: the handler and the derived metrics *)

Module NewDashboard.

(** The metrics document.  Its numbers are taken as exact rationals;
    the rounding of the quotients to binary floating point is not
    part of the model. *)
Record Metrics : Type := {
  total_orders : Q;
  total_patterns : Q;
  approved_patterns : Q;
  avg_pattern_making_time_hours : Q;
  avg_approval_time_hours : Q;
  date_range_start : value;
  date_range_end : value;
  date_range_days : Q
}.

Record state : Type := {
  metrics : option Metrics;
  loading : bool;
  timeFilter : Z
}.

Definition initial : state :=
  {| metrics := None; loading := true; timeFilter := 30 |}.

Definition setMetrics (v : option Metrics) : handler state unit :=
  modify (fun s => {| metrics := v; loading := loading s;
                      timeFilter := timeFilter s |}).

Definition setLoading (v : bool) : handler state unit :=
  modify (fun s => {| metrics := metrics s; loading := v;
                      timeFilter := timeFilter s |}).

Definition fetchMetrics (r : api_result Metrics) : handler state unit :=
  fun st =>
    (setLoading true ;;
     axios GET [VStr "/dashboard/metrics?days="; VNum (timeFilter st)] ;;
     try_catch r
       (fun data => setMetrics (Some data))
       (fun _ => toast_error (VStr "Failed to fetch metrics")) ;;
     setLoading false) st.

(** A number or text as it is put on the page. *)
Inductive shown : Type :=
| Lit (s : string)
| Rounded (q : Q) (suffix : string)
| Fixed1 (q : Q) (suffix : string).

(** [a / b], with a division by zero told apart from a quotient. *)
Definition div (a b : Q) : option Q :=
  if Qeq_bool b 0 then None else Some (a / b)%Q.

(** [0 < q] *)
Definition positive (q : Q) : bool := negb (Qle_bool q 0).

(** [a < b] *)
Definition lt (a b : Q) : bool := negb (Qle_bool b a).

Definition formatTime (hours : Q) : option shown :=
  if lt hours 1 then
    Some (Rounded (hours * 60)%Q " mins")
  else if lt hours 24 then
    Some (Fixed1 hours " hrs")
  else
    match div hours 24 with
    | Some q => Some (Fixed1 q " days")
    | None => None
    end.

(** The line under the count of approved patterns. *)
Definition approval_rate (m : Metrics) : option shown :=
  if positive (total_orders m) then
    match div (approved_patterns m) (total_orders m) with
    | Some q => Some (Rounded (q * 100)%Q "% approval rate")
    | None => None
    end
  else Some (Lit "No orders yet").

(** The "Patterns per Order" cell of the period summary. *)
Definition patterns_per_order (m : Metrics) : option shown :=
  if positive (total_orders m) then
    match div (total_patterns m) (total_orders m) with
    | Some q => Some (Fixed1 q "")
    | None => None
    end
  else Some (Lit "0").

(** All of [l], or [None] when one of them is. *)
Fixpoint all_some {A : Type} (l : list (option A)) : option (list A) :=
  match l with
  | [] => Some []
  | None :: _ => None
  | Some x :: t =>
      match all_some t with
      | Some t' => Some (x :: t')
      | None => None
      end
  end.

(** The derived numbers of the metric cards, shown once loading is
    over and a metrics document is there. *)
Definition cards (st : state) : list (option shown) :=
  if loading st then []
  else
    match metrics st with
    | Some m =>
        [ approval_rate m;
          formatTime (avg_pattern_making_time_hours m);
          formatTime (avg_approval_time_hours m) ]
    | None => []
    end.

(** The derived numbers of the period summary ([metrics && ...]). *)
Definition summary (st : state) : list (option shown) :=
  match metrics st with
  | Some m =>
      [ patterns_per_order m;
        formatTime (avg_pattern_making_time_hours m
                    + avg_approval_time_hours m)%Q ]
  | None => []
  end.

(** Every number a render derives, [None] if a division by zero
    occurs on the way. *)
Definition derived (st : state) : option (list shown) :=
  all_some (cards st ++ summary st).

End NewDashboard.

(* ================================================================== *)
(** ** The window's interval timers *)

Module Browser.

(** An interval timer: the function it calls, its period and the time
    of its next call, in milliseconds. *)
Record timer : Type := {
  timer_id : Z;
  callback : string;
  delay : Z;
  due : Z
}.

(** What a component sees of the window: the clock, the timers that
    are set, and the requests sent and not answered yet. *)
Record window : Type := {
  clock : Z;
  next_id : Z;
  timers : list timer;
  in_flight : list (http_method * url)
}.

(** [setInterval(callback, delay)]: the id of the new timer. *)
Definition setInterval (callback : string) (delay : Z) (w : window)
  : Z * window :=
  (next_id w,
   {| clock := clock w;
      next_id := next_id w + 1;
      timers := timers w ++ [ {| timer_id := next_id w; callback := callback;
                                 delay := delay; due := clock w + delay |} ];
      in_flight := in_flight w |}).

(** [clearInterval(id)] *)
Definition clearInterval (id : Z) (w : window) : window :=
  {| clock := clock w;
     next_id := next_id w;
     timers := filter (fun t => negb (timer_id t =? id)) (timers w);
     in_flight := in_flight w |}.

(** An axios call leaves: the request is in flight. *)
Definition send (m : http_method) (u : url) (w : window) : window :=
  {| clock := clock w;
     next_id := next_id w;
     timers := timers w;
     in_flight := in_flight w ++ [(m, u)] |}.

Definition reschedule (now : Z) (t : timer) : timer :=
  if due t <=? now
  then {| timer_id := timer_id t; callback := callback t; delay := delay t;
          due := due t + delay t |}
  else t.

(** One millisecond passes: the timers that are due call their
    function, [run] giving what a function does to the window, and
    are set again one period later. *)
Definition tick (run : string -> window -> window) (w : window) : window :=
  let now := clock w + 1 in
  let due_now := filter (fun t => due t <=? now) (timers w) in
  fold_left (fun acc t => run (callback t) acc) due_now
    {| clock := now;
       next_id := next_id w;
       timers := map (reschedule now) (timers w);
       in_flight := in_flight w |}.

(** [n] milliseconds pass. *)
Fixpoint advance (run : string -> window -> window) (n : nat) (w : window)
  : window :=
  match n with
  | O => w
  | S k => advance run k (tick run w)
  end.

End Browser.

(* ================================================================== *)
(** ** The order view (the [OrderDetail] component) *)

Module OrderDetail.

(** [patterns]: the patterns of the order by stage. *)
Record buckets : Type := {
  initial : list Pattern;
  second : list Pattern;
  approved : list Pattern
}.

(** [quotedMessage]: [{ id, text, user }]. *)
Record quoted : Type := {
  quoted_id : value;
  quoted_text : value;
  quoted_user : value
}.

(** The state slots the handlers set and the view reads.  The keys of
    [selectedFiles], written [`${stage}-${slot}`], are kept as the pair
    of the stage and the slot; a chosen file is kept by its name. *)
Record state : Type := {
  order : option Order;
  patterns : buckets;
  chats : list Chat;
  loading : bool;
  chatMessage : string;
  chatImage : option string;
  selectedFiles : list (string * Z * string);
  quotedMessage : option quoted;
  chatImagePreview : value
}.

Definition initial_state : state :=
  {| order := None;
     patterns := {| initial := []; second := []; approved := [] |};
     chats := []; loading := true; chatMessage := ""; chatImage := None;
     selectedFiles := []; quotedMessage := None; chatImagePreview := VNull |}.

Definition setOrder (v : option Order) : handler state unit :=
  modify (fun s =>
    {| order := v; patterns := patterns s; chats := chats s;
       loading := loading s; chatMessage := chatMessage s;
       chatImage := chatImage s; selectedFiles := selectedFiles s;
       quotedMessage := quotedMessage s;
       chatImagePreview := chatImagePreview s |}).

Definition setPatterns (v : buckets) : handler state unit :=
  modify (fun s =>
    {| order := order s; patterns := v; chats := chats s;
       loading := loading s; chatMessage := chatMessage s;
       chatImage := chatImage s; selectedFiles := selectedFiles s;
       quotedMessage := quotedMessage s;
       chatImagePreview := chatImagePreview s |}).

Definition setChats (v : list Chat) : handler state unit :=
  modify (fun s =>
    {| order := order s; patterns := patterns s; chats := v;
       loading := loading s; chatMessage := chatMessage s;
       chatImage := chatImage s; selectedFiles := selectedFiles s;
       quotedMessage := quotedMessage s;
       chatImagePreview := chatImagePreview s |}).

Definition setLoading (v : bool) : handler state unit :=
  modify (fun s =>
    {| order := order s; patterns := patterns s; chats := chats s;
       loading := v; chatMessage := chatMessage s;
       chatImage := chatImage s; selectedFiles := selectedFiles s;
       quotedMessage := quotedMessage s;
       chatImagePreview := chatImagePreview s |}).

Definition setChatMessage (v : string) : handler state unit :=
  modify (fun s =>
    {| order := order s; patterns := patterns s; chats := chats s;
       loading := loading s; chatMessage := v;
       chatImage := chatImage s; selectedFiles := selectedFiles s;
       quotedMessage := quotedMessage s;
       chatImagePreview := chatImagePreview s |}).

Definition setChatImage (v : option string) : handler state unit :=
  modify (fun s =>
    {| order := order s; patterns := patterns s; chats := chats s;
       loading := loading s; chatMessage := chatMessage s;
       chatImage := v; selectedFiles := selectedFiles s;
       quotedMessage := quotedMessage s;
       chatImagePreview := chatImagePreview s |}).

Definition setSelectedFiles
  (f : list (string * Z * string) -> list (string * Z * string))
  : handler state unit :=
  modify (fun s =>
    {| order := order s; patterns := patterns s; chats := chats s;
       loading := loading s; chatMessage := chatMessage s;
       chatImage := chatImage s; selectedFiles := f (selectedFiles s);
       quotedMessage := quotedMessage s;
       chatImagePreview := chatImagePreview s |}).

Definition setQuotedMessage (v : option quoted) : handler state unit :=
  modify (fun s =>
    {| order := order s; patterns := patterns s; chats := chats s;
       loading := loading s; chatMessage := chatMessage s;
       chatImage := chatImage s; selectedFiles := selectedFiles s;
       quotedMessage := v;
       chatImagePreview := chatImagePreview s |}).

Definition setChatImagePreview (v : value) : handler state unit :=
  modify (fun s =>
    {| order := order s; patterns := patterns s; chats := chats s;
       loading := loading s; chatMessage := chatMessage s;
       chatImage := chatImage s; selectedFiles := selectedFiles s;
       quotedMessage := quotedMessage s;
       chatImagePreview := v |}).

(** *** The [selectedFiles] object *)

Definition same_key (stage : string) (slot : Z) (e : string * Z * string)
  : bool :=
  (fst (fst e) =? stage)%string && (snd (fst e) =? slot).

(** [selectedFiles[`${stage}-${slot}`]] *)
Definition selected (files : list (string * Z * string))
  (stage : string) (slot : Z) : value :=
  match find (same_key stage slot) files with
  | Some e => VStr (snd e)
  | None => VUndefined
  end.

(** [delete updated[`${stage}-${slot}`]] on a copy *)
Definition unselect (stage : string) (slot : Z)
  (files : list (string * Z * string)) : list (string * Z * string) :=
  filter (fun e => negb (same_key stage slot e)) files.

(** [{ ...prev, [`${stage}-${slot}`]: name }] *)
Definition select (stage : string) (slot : Z) (name : string)
  (files : list (string * Z * string)) : list (string * Z * string) :=
  if existsb (same_key stage slot) files
  then map (fun e => if same_key stage slot e then (stage, slot, name) else e)
         files
  else files ++ [(stage, slot, name)].

(** *** Handlers *)

(** The three lists of [patternsByStage]. *)
Definition patternsByStage (data : list Pattern) : buckets :=
  {| initial := filter (fun p => seq_str (stage p) "initial") data;
     second := filter (fun p => seq_str (stage p) "second") data;
     approved := filter (fun p => seq_str (stage p) "approved") data |}.

(** [fetchOrderData], run against the settlement of the [Promise.all]
    of its three requests. *)
Definition fetchOrderData (orderId : value)
  (r : api_result (Order * list Pattern * list Chat)) : handler state unit :=
  axios GET [VStr "/orders/"; orderId] ;;
  axios GET [VStr "/orders/"; orderId; VStr "/patterns"] ;;
  axios GET [VStr "/orders/"; orderId; VStr "/chat"] ;;
  try_catch r
    (fun data =>
       let '(orderRes, patternsRes, chatsRes) := data in
       setOrder (Some orderRes) ;;
       setChats chatsRes ;;
       setPatterns (patternsByStage patternsRes))
    (fun _ => toast_error (VStr "Failed to fetch order data")) ;;
  setLoading false.

Definition fetchChats (orderId : value) (r : api_result (list Chat))
  : handler state unit :=
  axios GET [VStr "/orders/"; orderId; VStr "/chat"] ;;
  try_catch r
    (fun data => setChats data)
    (fun _ => (* Silently fail for polling *) skip).

(** [file] is the file chosen in the input of the slot, if any. *)
Definition handleFileUpload (orderId : value) (file : option string)
  (stage : string) (slot : Z) (r : api_result unit) : handler state unit :=
  match file with
  | None => toast_error (VStr "Please select a file")
  | Some _ =>
      axios POST [VStr "/orders/"; orderId; VStr "/patterns"] ;;
      try_catch r
        (fun _ =>
           toast_success "Pattern uploaded successfully!" ;;
           setSelectedFiles (unselect stage slot) ;;
           emit (Call "fetchOrderData"))
        (fun error => toast_error (detail_or error "Upload failed"))
  end.

Definition handleFileSelect (file : option string) (stage : string) (slot : Z)
  : handler state unit :=
  match file with
  | Some name => setSelectedFiles (select stage slot name)
  | None => skip
  end.

(** [confirmed] is the answer of [window.confirm]. *)
Definition handleDeletePattern (confirmed : bool) (patternId : value)
  (r : api_result unit) : handler state unit :=
  if negb confirmed then skip
  else
    axios DELETE [VStr "/patterns/"; patternId] ;;
    try_catch r
      (fun _ =>
         toast_success "Pattern deleted successfully!" ;;
         emit (Call "fetchOrderData"))
      (fun error => toast_error (detail_or error "Delete failed")).

Definition handleDownload (patternId : value) (r : api_result unit)
  : handler state unit :=
  axios GET [VStr "/patterns/"; patternId; VStr "/download"] ;;
  try_catch r
    (fun _ =>
       emit (DomEffect "link.click") ;;
       toast_success "Download started")
    (fun _ => toast_error (VStr "Download failed")).

Definition handleApproval (orderId : value) (confirmed : bool)
  (stage status : string) (r : api_result unit) : handler state unit :=
  if negb confirmed then skip
  else
    axios POST [VStr "/orders/"; orderId; VStr "/approve"] ;;
    try_catch r
      (fun _ =>
         toast_success ("Order " ++ status ++ " successfully!")%string ;;
         emit (Call "fetchOrderData"))
      (fun error => toast_error (detail_or error "Action failed")).

(** The code points [String.prototype.trim] removes: the WhiteSpace of
    ECMAScript (TAB, VT, FF, ZWNBSP and the space separators of
    Unicode: SP, NBSP, U+1680, U+2000 to U+200A, U+202F, U+205F,
    U+3000) and its LineTerminator (LF, CR, LS, PS). *)
Definition white_space : list N :=
  [ 9; 11; 12; 65279;
    32; 160; 5760;
    8192; 8193; 8194; 8195; 8196; 8197; 8198; 8199; 8200; 8201; 8202;
    8239; 8287; 12288;
    10; 13; 8232; 8233 ]%N.

(** A string is kept as the bytes of its UTF-8 form.  The bytes of a
    code point below U+10000. *)
Definition utf8 (c : N) : string :=
  (if c <? 128 then String (Ascii.ascii_of_N c) ""
   else if c <? 2048 then
     String (Ascii.ascii_of_N (192 + c / 64))
       (String (Ascii.ascii_of_N (128 + c mod 64)) "")
   else
     String (Ascii.ascii_of_N (224 + c / 4096))
       (String (Ascii.ascii_of_N (128 + (c / 64) mod 64))
          (String (Ascii.ascii_of_N (128 + c mod 64)) "")))%N.

(** [s] without the [spaces] it starts with; [skip] counts the bytes
    still to drop of the space being removed. *)
Fixpoint strip (spaces : list string) (skip : nat) (s : string) : string :=
  match s with
  | EmptyString => EmptyString
  | String _ t =>
      match skip with
      | S k => strip spaces k t
      | O =>
          match find (fun w => String.prefix w s) spaces with
          | Some w => strip spaces (Nat.pred (String.length w)) t
          | None => s
          end
      end
  end.

Definition reversed (s : string) : string :=
  string_of_list_ascii (rev (list_ascii_of_string s)).

Definition trimStart (s : string) : string :=
  strip (map utf8 white_space) 0 s.

Definition trimEnd (s : string) : string :=
  reversed (strip (map (fun c => reversed (utf8 c)) white_space) 0 (reversed s)).

(** [s.trim()] *)
Definition trim (s : string) : string := trimEnd (trimStart s).

(** [!s.trim()]: the empty string is the one string that is falsy. *)
Definition blank (s : string) : bool := (trim s =? "")%string.

Definition handleSendMessage (orderId : value) (r : api_result unit)
  : handler state unit :=
  fun st =>
    (if blank (chatMessage st)
        && match chatImage st with None => true | Some _ => false end
     then skip
     else
       axios POST [VStr "/orders/"; orderId; VStr "/chat"] ;;
       try_catch r
         (fun _ =>
            setChatMessage "" ;;
            setChatImage None ;;
            setChatImagePreview VNull ;;
            setQuotedMessage None ;;
            emit (DomEffect "chat-image-input.value = ''") ;;
            emit (Call "fetchChats"))
         (fun error => toast_error (detail_or error "Failed to send message")))
      st.

Definition handleChatImageSelect (file : option string) : handler state unit :=
  match file with
  | Some name => setChatImage (Some name) ;; setChatImagePreview (VStr name)
  | None => skip
  end.

Definition handleDeleteOrder (orderId : value) (confirmed : bool)
  (r : api_result unit) : handler state unit :=
  if negb confirmed then skip
  else
    axios DELETE [VStr "/orders/"; orderId] ;;
    try_catch r
      (fun _ =>
         toast_success "Order deleted successfully!" ;;
         emit (Navigate "/"))
      (fun error => toast_error (detail_or error "Failed to delete order")).

(** The HTTP method of the request a listener's function sends, for
    the functions the view attaches to its controls; [None] for those
    that only touch local state or navigate. *)
Definition request_of (fn : string) : option http_method :=
  if (fn =? "handleFileUpload")%string then Some POST
  else if (fn =? "handleDeletePattern")%string then Some DELETE
  else if (fn =? "handleDownload")%string then Some GET
  else if (fn =? "handleApproval")%string then Some POST
  else if (fn =? "handleSendMessage")%string then Some POST
  else if (fn =? "handleDeleteOrder")%string then Some DELETE
  else None.

(** A control mutates the server's data when its listener sends a
    request other than a GET. *)
Definition mutating (c : control) : bool :=
  match request_of (l_fn (c_listener c)) with
  | Some GET | None => false
  | Some _ => true
  end.

(** *** The view *)

Definition canUploadInitial (user : option User) : bool :=
  role_is user "admin" || role_is user "pattern_maker".

Definition canUploadSecondApproved (user : option User) : bool :=
  role_is user "admin" || role_is user "pattern_checker".

Definition canApprove (user : option User) : bool :=
  role_is user "admin" || role_is user "pattern_checker".

Definition canUploadChatImage (user : option User) : bool :=
  role_is user "admin" || role_is user "pattern_maker"
  || role_is user "pattern_checker".

Definition isAdmin (user : option User) : bool := role_is user "admin".

(** [<>...</>] *)
Definition fragment (children : list element) : element :=
  Host "<>" [] children.

(** [p => p.slot === slot] *)
Definition in_slot (n : Z) (p : Pattern) : bool := seq_num (slot p) n.

(** One slot of [renderPatternSlots]. *)
Definition pattern_slot (user : option User) (st : state)
  (stage : string) (stagePatterns : list Pattern) (canUpload : bool)
  (slot : Z) : element :=
  let pattern := find (in_slot slot) stagePatterns in
  let selectedFileName := selected (selectedFiles st) stage slot in
  Comp "Card" []
    [ Comp "CardHeader" []
        [Comp "CardTitle" [] [text "Pattern "; Txt (VNum slot)]];
      Comp "CardContent" []
        [ match pattern with
          | Some pattern =>
              Host "div" []
                [ Host "div" []
                    [ Comp "FileText" [] [];
                      Host "span" [] [Txt (filename pattern)] ];
                  Host "div" [] [Txt (uploaded_at pattern)];
                  Comp "Button"
                    [ TestId [VStr "download-"; VStr stage; VStr "-"; VNum slot];
                      On "onClick"
                        (call "handleDownload"
                           [pattern_id pattern; filename pattern]) ]
                    [Comp "Download" [] []; text "Download"];
                  when (isAdmin user)
                    (Comp "Button"
                       [ TestId [VStr "delete-"; VStr stage; VStr "-"; VNum slot];
                         On "onClick"
                           (call "handleDeletePattern"
                              [pattern_id pattern; VStr stage; VNum slot]) ]
                       [Comp "X" [] []; text "Delete"]) ]
          | None =>
              Host "div" []
                [ if canUpload then
                    fragment
                      [ Comp "Label" [] [text "File"];
                        Comp "Input"
                          [ TestId [VStr "upload-input-"; VStr stage; VStr "-"; VNum slot];
                            Attr "type" (VStr "file");
                            On "onChange"
                              (call "handleFileSelect" [VStr stage; VNum slot]) ]
                          [];
                        js_and selectedFileName
                          (Host "div" [] [Txt selectedFileName]);
                        Comp "Button"
                          [ TestId [VStr "upload-"; VStr stage; VStr "-"; VNum slot];
                            On "onClick"
                              (call "handleFileUpload" [VStr stage; VNum slot]) ]
                          [Comp "Upload" [] []; text "Upload"] ]
                  else
                    Host "div" [] [text "No file uploaded"] ]
          end ] ].

Definition renderPatternSlots (user : option User) (st : state)
  (stage : string) (stagePatterns : list Pattern) (canUpload : bool)
  : element :=
  Host "div" []
    (map (pattern_slot user st stage stagePatterns canUpload) [1; 2; 3; 4; 5]).

(** The badges in the header of the card of the initial patterns. *)
Definition initial_badges (st : state) : list element :=
  [ js_and (opt_field initial_pattern_date (order st))
      (Comp "Badge" [Variant "secondary"]
         [Txt (opt_field initial_pattern_date (order st))]);
    js_and (opt_field initial_pattern_status (order st))
      (Comp "Badge"
         [Variant (if seq_str (opt_field initial_pattern_status (order st))
                        "approved"
                   then "default" else "destructive")]
         [Txt (opt_field initial_pattern_status (order st))]) ].

Definition initial_card (user : option User) (st : state) : element :=
  Comp "Card" []
    [ Comp "CardHeader" []
        [ Host "div" []
            [ Host "div" []
                [ Comp "CardTitle" [] [text "Initial Patterns"];
                  Comp "CardDescription" []
                    [text "Pattern Maker uploads initial patterns"] ];
              Host "div" [] (initial_badges st) ] ];
      Comp "CardContent" []
        [ renderPatternSlots user st "initial" (initial (patterns st))
            (canUploadInitial user);
          when (canApprove user
                && negb (truthy (opt_field initial_pattern_status (order st))))
            (Host "div" []
               [ Comp "Button"
                   [ TestId [VStr "approve-initial"];
                     On "onClick"
                       (call "handleApproval" [VStr "initial"; VStr "approved"]) ]
                   [Comp "Check" [] []; text "Approve"];
                 Comp "Button"
                   [ TestId [VStr "reject-initial"];
                     On "onClick"
                       (call "handleApproval" [VStr "initial"; VStr "rejected"]) ]
                   [Comp "X" [] []; text "Reject"] ]) ] ].

(** The badges in the header of the card of the second review. *)
Definition second_badges (st : state) : list element :=
  [ js_and (opt_field second_pattern_date (order st))
      (Comp "Badge" [Variant "secondary"]
         [Txt (opt_field second_pattern_date (order st))]);
    js_and (opt_field second_pattern_status (order st))
      (Comp "Badge"
         [Variant (if seq_str (opt_field second_pattern_status (order st))
                        "approved"
                   then "default" else "destructive")]
         [Txt (opt_field second_pattern_status (order st))]) ].

Definition second_card (user : option User) (st : state) : element :=
  Comp "Card" []
    [ Comp "CardHeader" []
        [ Host "div" []
            [ Host "div" []
                [ Comp "CardTitle" [] [text "Second Pattern Review"];
                  Comp "CardDescription" []
                    [text "Pattern Checker reviews and uploads corrections"] ];
              Host "div" [] (second_badges st) ] ];
      Comp "CardContent" []
        [ renderPatternSlots user st "second" (second (patterns st))
            (canUploadSecondApproved user);
          when (canApprove user
                && negb (truthy (opt_field second_pattern_status (order st))))
            (Host "div" []
               [ Comp "Button"
                   [ TestId [VStr "approve-second"];
                     Disabled
                       (negb (seq_str (opt_field initial_pattern_status (order st))
                                "rejected"));
                     On "onClick"
                       (call "handleApproval" [VStr "second"; VStr "approved"]) ]
                   [Comp "Check" [] []; text "Approve"];
                 Comp "Button"
                   [ TestId [VStr "reject-second"];
                     Disabled
                       (negb (seq_str (opt_field initial_pattern_status (order st))
                                "rejected"));
                     On "onClick"
                       (call "handleApproval" [VStr "second"; VStr "rejected"]) ]
                   [Comp "X" [] []; text "Reject"] ]) ] ].

(** The badges in the header of the card of the final patterns. *)
Definition approved_badges (st : state) : list element :=
  [ js_and (opt_field approved_pattern_date (order st))
      (Comp "Badge" [Variant "secondary"]
         [Txt (opt_field approved_pattern_date (order st))]);
    js_and (opt_field approved_pattern_status (order st))
      (Comp "Badge"
         [Variant (if seq_str (opt_field approved_pattern_status (order st))
                        "approved"
                   then "default" else "destructive")]
         [Txt (opt_field approved_pattern_status (order st))]) ].

Definition approved_card (user : option User) (st : state) : element :=
  Comp "Card" []
    [ Comp "CardHeader" []
        [ Host "div" []
            [ Host "div" []
                [ Comp "CardTitle" [] [text "Final Approved Patterns"];
                  Comp "CardDescription" [] [text "Final patterns after approval"] ];
              Host "div" [] (approved_badges st) ] ];
      Comp "CardContent" []
        [ renderPatternSlots user st "approved" (approved (patterns st))
            (canUploadSecondApproved user) ] ].

(** A message of the thread. *)
Definition chat_bubble (user : option User) (chat : Chat) : element :=
  Host "div" [TestId [VStr "chat-message-"; chat_id chat]]
    [ Host "div" [] [Txt (chat_user_name chat)];
      Host "div" []
        [ js_and (quoted_message_text chat)
            (Host "div" []
               [ Host "div" [] [Txt (quoted_user_name chat)];
                 Host "div" [] [Txt (quoted_message_text chat)] ]);
          Host "p" [] [Txt (message chat)];
          js_and (image_id chat)
            (Host "img" [Attr "src" (image_id chat)] []);
          Host "button"
            [ On "onClick"
                (call "setQuotedMessage"
                   [chat_id chat; message chat; chat_user_name chat]) ]
            [Comp "Reply" [] []] ];
      Host "div" []
        [ Txt (match chat_created_at chat with
               | VStr s => VStr s
               | _ => VStr "Just now"
               end) ] ].

Definition chat_form (user : option User) (st : state) : element :=
  Host "form" [On "onSubmit" (call "handleSendMessage" [])]
    [ match quotedMessage st with
      | Some q =>
          Host "div" []
            [ Host "div" []
                [ Host "div" [] [text "Replying to "; Txt (quoted_user q)];
                  Host "div" [] [Txt (quoted_text q)] ];
              Host "button"
                [ Attr "type" (VStr "button");
                  On "onClick" (call "setQuotedMessage" [VNull]) ]
                [Comp "X" [] []] ]
      | None => Txt VNull
      end;
      Comp "Textarea"
        [ TestId [VStr "chat-input"];
          On "onChange" (call "setChatMessage" []) ] [];
      Host "div" []
        [ when (canUploadChatImage user)
            (Host "div" []
               [ Comp "Input"
                   [ Attr "id" (VStr "chat-image-input");
                     Attr "type" (VStr "file");
                     On "onChange" (call "handleChatImageSelect" []) ] [];
                 js_and (chatImagePreview st)
                   (Host "div" []
                      [ Host "span" [] [Txt (chatImagePreview st)];
                        Host "button"
                          [ Attr "type" (VStr "button");
                            On "onClick" (call "setChatImage" [VNull]) ]
                          [Comp "X" [] []] ]) ]);
          Comp "Button"
            [Attr "type" (VStr "submit"); TestId [VStr "send-message"]]
            [Comp "Send" [] []] ] ].

Definition chat_card (user : option User) (st : state) : element :=
  Comp "Card" []
    [ Comp "CardHeader" []
        [Comp "CardTitle" [] [Comp "MessageSquare" [] []; text "Order Chat"]];
      Comp "CardContent" []
        [ Comp "ScrollArea" []
            [Host "div" [] (map (chat_bubble user) (chats st))];
          Host "div" [] [chat_form user st] ] ].

Definition header (user : option User) (st : state) : element :=
  Host "header" []
    [ Host "div" []
        [ Host "div" []
            [ Comp "Button"
                [ TestId [VStr "back-button"]; Variant "ghost";
                  On "onClick" (call "navigate" [VStr "/"]) ]
                [Comp "ArrowLeft" [] []; text "Back"];
              Host "div" []
                [ Host "h1" [] [Txt (opt_field order_number (order st))];
                  Host "a"
                    [Attr "href" (opt_field google_sheet_link (order st))]
                    [text "View Google Sheet "; Comp "ExternalLink" [] []] ];
              when (isAdmin user)
                (Comp "Button"
                   [ TestId [VStr "delete-order-button"]; Variant "outline";
                     On "onClick" (call "handleDeleteOrder" []) ]
                   [Comp "X" [] []; text "Delete Order"]) ] ] ].

(** The JSX the component returns. *)
Definition view (user : option User) (st : state) : element :=
  if loading st then
    Host "div" [] [Host "div" [] [text "Loading..."]]
  else
    Host "div" []
      [ header user st;
        Host "main" []
          [ Host "div" []
              [ Host "div" []
                  [ initial_card user st;
                    second_card user st;
                    approved_card user st ];
                Host "div" [] [chat_card user st] ] ] ].

(** *** The effect run when the component mounts

    [useEffect(() => { fetchOrderData();
                       const interval = setInterval(fetchChats, 3000);
                       return () => clearInterval(interval); }, [orderId])] *)

(** What the functions given to timers do to the window: [fetchChats]
    sends its request. *)
Definition run_callback (orderId : value) (fn : string) (w : Browser.window)
  : Browser.window :=
  if (fn =? "fetchChats")%string
  then Browser.send GET [VStr "/orders/"; orderId; VStr "/chat"] w
  else w.

(** The body of the effect; its result is [interval]. *)
Definition mount (orderId : value) (w : Browser.window) : Z * Browser.window :=
  let w :=
    Browser.send GET [VStr "/orders/"; orderId; VStr "/chat"]
      (Browser.send GET [VStr "/orders/"; orderId; VStr "/patterns"]
         (Browser.send GET [VStr "/orders/"; orderId] w)) in
  Browser.setInterval "fetchChats" 3000 w.

(** The function the effect returns. *)
Definition cleanup (interval : Z) (w : Browser.window) : Browser.window :=
  Browser.clearInterval interval w.

(** The identifiers the module binds: its imports and the component. *)
Definition scope : list string :=
  [ "React"; "useState"; "useEffect"; "useContext";
    "useParams"; "useNavigate";
    "AuthContext"; "API";
    "axios";
    "Button";
    "Input";
    "Label";
    "Textarea";
    "Card"; "CardContent"; "CardHeader"; "CardTitle"; "CardDescription";
    "Badge";
    "Tabs"; "TabsContent"; "TabsList"; "TabsTrigger";
    "Dialog"; "DialogContent"; "DialogHeader"; "DialogTitle"; "DialogTrigger";
    "ScrollArea";
    "toast";
    "ArrowLeft"; "Upload"; "Download"; "MessageSquare"; "Check"; "X";
    "ExternalLink"; "ImageIcon"; "Send"; "FileText"; "Reply";
    "OrderDetail" ].

Definition render (user : option User) (st : state) : render_result :=
  evaluate scope (view user st).

(** The effect runs again when [orderId] changes: the cleanup of the
    last run, then the body with the new id. *)
Definition remount (orderId : value) (interval : Z) (w : Browser.window)
  : Z * Browser.window :=
  mount orderId (cleanup interval w).

End OrderDetail.

(* ================================================================== *)
(** ** index.js: the suppression of ResizeObserver errors

    The three versions of the entry file: the first ([Plain], with
    the override of [console.error] only), the one that adds the two
    window listeners ([Listeners]) and the comprehensive one
    ([Comprehensive]). *)

Module Index.

(** [pat] occurs in [s]. *)
Fixpoint contains (pat s : string) : bool :=
  String.prefix pat s
  || match s with
     | EmptyString => false
     | String _ t => contains pat t
     end.

(** The canonical form of a character under the [i] flag: its upper
    case, for the letters of ASCII. *)
Definition canonical (c : Ascii.ascii) : Ascii.ascii :=
  let n := Ascii.nat_of_ascii c in
  if ((97 <=? n) && (n <=? 122))%nat then Ascii.ascii_of_nat (n - 32) else c.

Fixpoint canonicalize (s : string) : string :=
  match s with
  | EmptyString => EmptyString
  | String c t => String (canonical c) (canonicalize t)
  end.

Definition loop : string := "ResizeObserver loop".

Definition undelivered : string :=
  "ResizeObserver loop completed with undelivered notifications".

(** What is thrown, rejected with or logged: a string, or another
    value with the [message] it carries when that is a string. *)
Inductive thrown : Type :=
| TStr (s : string)
| TObj (message : option string).

(** [x?.message] *)
Definition message_of (x : option thrown) : option string :=
  match x with
  | Some (TObj m) => m
  | _ => None
  end.

(** [m && regex.test(m)], and [regex.test(m)] alike, since
    ['undefined'] and the empty string match neither pattern. *)
Definition tested (test : string -> bool) (m : option string) : bool :=
  match m with
  | Some s => test s
  | None => false
  end.

(** [typeof x === 'string' && regex.test(x)] *)
Definition tested_string (test : string -> bool) (x : option thrown) : bool :=
  match x with
  | Some (TStr s) => test s
  | _ => false
  end.

(** An [error] event: its [message] and its [error]. *)
Record error_event : Type := {
  ev_message : option string;
  ev_error : option thrown
}.

Module Plain.

(** [/ResizeObserver loop/.test(s)] *)
Definition resizeObserverError (s : string) : bool := contains loop s.

(** The override of [console.error]: the arguments handed on to the
    original, or [None] when the call returns without logging. *)
Definition console_error (args : list thrown) : option (list thrown) :=
  if tested_string resizeObserverError (hd_error args) then None
  else Some args.

End Plain.

Module Listeners.

Definition resizeObserverError (s : string) : bool := contains loop s.

Definition console_error (args : list thrown) : option (list thrown) :=
  if tested_string resizeObserverError (hd_error args) then None
  else Some args.

(** The listener of [error]: whether it stops the propagation and
    prevents the default. *)
Definition on_error (e : error_event) : bool :=
  tested resizeObserverError (ev_message e).

(** The listener of [unhandledrejection], given [e.reason]. *)
Definition on_unhandledrejection (reason : option thrown) : bool :=
  tested resizeObserverError (message_of reason).

End Listeners.

Module Comprehensive.

(** [/ResizeObserver loop|ResizeObserver loop completed with
     undelivered notifications/i.test(s)] *)
Definition resizeObserverError (s : string) : bool :=
  contains (canonicalize loop) (canonicalize s)
  || contains (canonicalize undelivered) (canonicalize s).

(** 1. Suppress console errors *)
Definition console_error (args : list thrown) : option (list thrown) :=
  let firstArg := hd_error args in
  if tested_string resizeObserverError firstArg
     || tested resizeObserverError (message_of firstArg)
  then None
  else Some args.

(** 2. Suppress window errors: the boolean [window.onerror] returns,
    [original] being what the earlier handler, if there was one,
    returns for the same arguments. *)
Definition onerror (message : thrown) (error : option thrown)
  (original : option bool) : bool :=
  if tested_string resizeObserverError (Some message)
     || tested resizeObserverError (message_of error)
  then true
  else match original with
       | Some answer => answer
       | None => false
       end.

(** 3. Suppress error events *)
Definition on_error (e : error_event) : bool :=
  tested resizeObserverError (ev_message e)
  || tested resizeObserverError (message_of (ev_error e)).

(** 4. Suppress unhandled rejections *)
Definition on_unhandledrejection (reason : option thrown) : bool :=
  tested resizeObserverError (message_of reason).

(** 5. The callback of an overridden [ResizeObserver]: what it throws,
    given what the callback it wraps throws (a [throw] of [null] or
    [undefined] aside). *)
Definition observer_callback (outcome : option thrown) : option thrown :=
  match outcome with
  | None => None
  | Some e =>
      if negb (tested resizeObserverError (message_of (Some e)))
      then Some e
      else None
  end.

(** 6. The [onErrored] of the React DevTools hook: the error handed
    on to the original [onErrored], if there is one. *)
Definition onErrored (error : option thrown) (has_original : bool)
  : option (option thrown) :=
  if tested resizeObserverError (message_of error) then None
  else if has_original then Some error else None.

End Comprehensive.

End Index.

(* ================================================================== *)
(** * What the properties are stated with *)

(** ** Trees *)

(** The first of the options that is there. *)
Fixpoint first_some {A : Type} (l : list (option A)) : option A :=
  match l with
  | [] => None
  | Some x :: _ => Some x
  | None :: t => first_some t
  end.

(** [P] holds of every control of a tree. *)
Definition every (P : control -> Prop) (e : element) : Prop :=
  forall c, In c (controls e) -> P c.

(** The [Badge] elements of a tree, in document order. *)
Fixpoint badges (e : element) : list element :=
  match e with
  | Host _ _ children => flat_map badges children
  | Comp ident ps children =>
      (if (ident =? "Badge")%string then [Comp ident ps children] else [])
      ++ flat_map badges children
  | Txt _ => []
  end.

(** A date badge has the variant 'secondary'; a status badge has
    'default' (approved) or 'destructive'. *)
Definition is_date_badge (e : element) : bool :=
  match e with
  | Comp ident ps _ =>
      (ident =? "Badge")%string
      && match variant_of ps with
         | Some v => (v =? "secondary")%string
         | None => false
         end
  | _ => false
  end.

Definition is_status_badge (e : element) : bool :=
  match e with
  | Comp ident ps _ =>
      (ident =? "Badge")%string
      && match variant_of ps with
         | Some v => (v =? "default")%string || (v =? "destructive")%string
         | None => false
         end
  | _ => false
  end.

(** The badges a stage shows for a date and a status. *)
Definition stage_badges (date status : value) : list element :=
  (if truthy date
   then [Comp "Badge" [Variant "secondary"] [Txt date]] else [])
  ++ (if truthy status
      then [Comp "Badge"
              [Variant (if seq_str status "approved"
                        then "default" else "destructive")]
              [Txt status]]
      else []).

(** The [Dialog] elements of a tree, in document order. *)
Fixpoint dialogs (e : element) : list element :=
  match e with
  | Host _ _ children => flat_map dialogs children
  | Comp ident ps children =>
      (if (ident =? "Dialog")%string then [Comp ident ps children] else [])
      ++ flat_map dialogs children
  | Txt _ => []
  end.

(** The form of a new order: its [onSubmit] creates the order. *)
Definition create_form : control :=
  {| c_testid := None; c_event := "onSubmit";
     c_listener := call "createOrder" []; c_disabled := false |}.

(** ** The fields of a stage

    The status of a stage is written by an approval, which posts
    'approved' or 'rejected' ([handleApproval] is called with these two
    literals only); until then the field is absent.  The date of a
    stage is absent or a timestamp, a string that is not empty. *)
Definition stage_status (v : value) : bool :=
  absent v || seq_str v "approved" || seq_str v "rejected".

Definition stage_date (v : value) : bool :=
  match v with
  | VUndefined | VNull => true
  | VStr s => negb (s =? "")%string
  | _ => false
  end.

Definition stage_statuses (o : Order) : bool :=
  stage_status (initial_pattern_status o)
  && stage_status (second_pattern_status o)
  && stage_status (approved_pattern_status o).

Definition stage_dates (o : Order) : bool :=
  stage_date (initial_pattern_date o)
  && stage_date (second_pattern_date o)
  && stage_date (approved_pattern_date o).

(** ** The controls of the order view *)

Section Placement.

Variable user : option User.
Variable st : OrderDetail.state.

(** Where the view puts a listener: the condition under which a
    control calling [fn] with [args] is in the tree, and its
    [disabled] flag there. *)
Definition upload_placed (args : list value) : bool :=
  match args with
  | [VStr stage; VNum _] =>
      if (stage =? "initial")%string then OrderDetail.canUploadInitial user
      else if (stage =? "second")%string || (stage =? "approved")%string
      then OrderDetail.canUploadSecondApproved user
      else false
  | _ => false
  end.

Definition approval_placed (args : list value) (disabled : bool) : bool :=
  match args with
  | [VStr stage; VStr _] =>
      if (stage =? "initial")%string then
        OrderDetail.canApprove user
        && negb (truthy (opt_field initial_pattern_status (OrderDetail.order st)))
        && negb disabled
      else if (stage =? "second")%string then
        OrderDetail.canApprove user
        && negb (truthy (opt_field second_pattern_status (OrderDetail.order st)))
        && Bool.eqb disabled
             (negb (seq_str (opt_field initial_pattern_status (OrderDetail.order st))
                      "rejected"))
      else false
  | _ => false
  end.

Definition placed (c : control) : bool :=
  let fn := l_fn (c_listener c) in
  let args := l_args (c_listener c) in
  if (fn =? "handleDeleteOrder")%string then OrderDetail.isAdmin user
  else if (fn =? "handleDeletePattern")%string then OrderDetail.isAdmin user
  else if (fn =? "handleFileUpload")%string || (fn =? "handleFileSelect")%string
  then upload_placed args
  else if (fn =? "handleApproval")%string
  then approval_placed args (c_disabled c)
  else if (fn =? "handleChatImageSelect")%string then OrderDetail.canUploadChatImage user
  else true.

End Placement.

(** The form of the chat: its [onSubmit] sends the message. *)
Definition send_message_control : control :=
  {| c_testid := None; c_event := "onSubmit";
     c_listener := call "handleSendMessage" []; c_disabled := false |}.

(** ** Rejected API calls *)

(** A handler that awaits axios calls, run against a rejection: its
    name, the inputs of a run besides the error, the number of calls
    one run sends, and the trace of the run. *)
Record api_handler : Type := {
  h_name : string;
  h_input : Type;
  h_calls : nat;
  h_rejected : axios_error -> h_input -> list effect
}.

Section ApiHandlers.

(** The arguments the handlers are called with. *)
Variables orderId userId newRole patternId : value.
Variables stage status : string.
Variable slot : Z.

(** Every handler of the six page components that sends a request,
    nineteen axios calls in all ([fetchOrderData] sends three). *)
Definition api_handlers : list api_handler :=
  [ {| h_name := "Dashboard.fetchOrders"; h_calls := 1;
       h_rejected := fun e st => trace (Dashboard.fetchOrders (Rejected e)) st |};
    {| h_name := "Dashboard.createOrder"; h_calls := 1;
       h_rejected := fun e st => trace (Dashboard.createOrder (Rejected e)) st |};
    {| h_name := "NewDashboard.fetchMetrics"; h_calls := 1;
       h_rejected := fun e st => trace (NewDashboard.fetchMetrics (Rejected e)) st |};
    {| h_name := "AdminPanel.fetchUsers"; h_calls := 1;
       h_rejected := fun e st => trace (AdminPanel.fetchUsers (Rejected e)) st |};
    {| h_name := "AdminPanel.updateRole"; h_calls := 1;
       h_rejected := fun e st =>
         trace (AdminPanel.updateRole userId newRole (Rejected e)) st |};
    {| h_name := "AdminPanel.approveUser"; h_calls := 1;
       h_rejected := fun e st =>
         trace (AdminPanel.approveUser userId (Rejected e)) st |};
    {| h_name := "Orders.fetchOrders"; h_calls := 1;
       h_rejected := fun e st => trace (Orders.fetchOrders (Rejected e)) st |};
    {| h_name := "Orders.createOrder"; h_calls := 1;
       h_rejected := fun e st => trace (Orders.createOrder (Rejected e)) st |};
    {| h_name := "Login.handleSubmit"; h_calls := 1;
       h_rejected := fun e st => trace (Login.handleSubmit (Rejected e)) st |};
    {| h_name := "OrderDetail.fetchOrderData"; h_calls := 3;
       h_rejected := fun e st =>
         trace (OrderDetail.fetchOrderData orderId (Rejected e)) st |};
    {| h_name := "OrderDetail.fetchChats"; h_calls := 1;
       h_rejected := fun e st =>
         trace (OrderDetail.fetchChats orderId (Rejected e)) st |};
    {| h_name := "OrderDetail.handleFileUpload"; h_calls := 1;
       h_rejected := fun e (i : option string * OrderDetail.state) =>
         trace (OrderDetail.handleFileUpload orderId (fst i) stage slot
                  (Rejected e)) (snd i) |};
    {| h_name := "OrderDetail.handleDeletePattern"; h_calls := 1;
       h_rejected := fun e (i : bool * OrderDetail.state) =>
         trace (OrderDetail.handleDeletePattern (fst i) patternId
                  (Rejected e)) (snd i) |};
    {| h_name := "OrderDetail.handleDownload"; h_calls := 1;
       h_rejected := fun e st =>
         trace (OrderDetail.handleDownload patternId (Rejected e)) st |};
    {| h_name := "OrderDetail.handleApproval"; h_calls := 1;
       h_rejected := fun e (i : bool * OrderDetail.state) =>
         trace (OrderDetail.handleApproval orderId (fst i) stage status
                  (Rejected e)) (snd i) |};
    {| h_name := "OrderDetail.handleSendMessage"; h_calls := 1;
       h_rejected := fun e st =>
         trace (OrderDetail.handleSendMessage orderId (Rejected e)) st |};
    {| h_name := "OrderDetail.handleDeleteOrder"; h_calls := 1;
       h_rejected := fun e (i : bool * OrderDetail.state) =>
         trace (OrderDetail.handleDeleteOrder orderId (fst i) (Rejected e))
           (snd i) |} ].

(** The rejections that are met without a notification: a 403 answer
    to the fetch of the orders, and any failure of the chat poll. *)
Definition silent (name : string) (e : axios_error) : bool :=
  (((name =? "Dashboard.fetchOrders") || (name =? "Orders.fetchOrders"))%string
   && status_is e 403)
  || (name =? "OrderDetail.fetchChats")%string.

(** What a run that sent its calls and saw them rejected did. *)
Definition rejection_handled (h : api_handler) : Prop :=
  forall (e : axios_error) (i : h_input h),
    let tr := h_rejected h e i in
    existsb is_request tr = true ->
       List.length (filter is_request tr) = h_calls h
    /\ forallb (fun x => is_request x || is_toast_error x) tr = true
    /\ (silent (h_name h) e = true -> filter is_toast tr = [])
    /\ (silent (h_name h) e = false ->
        exists msg, filter is_toast tr = [ToastError msg]).

End ApiHandlers.

(** ** The chat poll *)

(** The window [n] milliseconds after the effect of the order view ran
    in a window with the clock at [t0], the next timer id [id0], no
    timer set and the requests [sent] in flight. *)
Definition polling_window (orderId : value) (t0 id0 : Z)
  (sent : list (http_method * url)) (n : nat) : Browser.window :=
  {| Browser.clock := t0 + Z.of_nat n;
     Browser.next_id := id0 + 1;
     Browser.timers :=
       [ {| Browser.timer_id := id0; Browser.callback := "fetchChats";
            Browser.delay := 3000;
            Browser.due := t0 + 3000 * (Z.of_nat n / 3000 + 1) |} ];
     Browser.in_flight :=
       sent
       ++ [ (GET, [VStr "/orders/"; orderId]);
            (GET, [VStr "/orders/"; orderId; VStr "/patterns"]);
            (GET, [VStr "/orders/"; orderId; VStr "/chat"]) ]
       ++ repeat (GET, [VStr "/orders/"; orderId; VStr "/chat"])
            (Z.to_nat (Z.of_nat n / 3000)) |}.

(** ** Sample data *)

Definition sample_host : host :=
  utc_host [ ("2024-03-10T12:00:00Z", 1710072000000);
             ("2024-01-01T00:00:00Z", 1704067200000) ].

(** 2024-03-11T12:00:00Z *)
Definition sample_now : Z := 1710158400000.

Definition untouched_order : Order :=
  {| order_id := VStr "o-1";
     order_number := VStr "ORD-001";
     google_sheet_link := VStr "https://docs.google.com/spreadsheets/d/1";
     created_at := VStr "2024-03-10T12:00:00Z";
     initial_pattern_status := VNull;
     initial_pattern_date := VNull;
     second_pattern_status := VNull;
     second_pattern_date := VNull;
     approved_pattern_status := VNull;
     approved_pattern_date := VNull |}.

Definition no_action_state (l : list Order) : Orders.state :=
  {| Orders.allOrders := l; Orders.filteredOrders := [];
     Orders.loading := false; Orders.dialogOpen := false;
     Orders.statusFilter := "no_action"; Orders.dateFilter := 30;
     Orders.formData := empty_order_form |}.

Definition forbidden : axios_error :=
  {| response := Some {| status := VNum 403;
                         detail := VStr "Account pending approval" |} |}.

Definition pending_user : User :=
  {| user_id := VStr "u-7";
     user_name := VStr "Asha";
     user_email := VStr "asha@example.com";
     role := VStr "general_user";
     is_approved := VBool false;
     user_created_at := VStr "2024-03-10T12:00:00Z" |}.

Definition checker : User :=
  {| user_id := VStr "u-2"; user_name := VStr "Meera";
     user_email := VStr "meera@example.com";
     role := VStr "pattern_checker"; is_approved := VBool true;
     user_created_at := VStr "2024-01-01T00:00:00Z" |}.

Definition viewer : User :=
  {| user_id := VStr "u-3"; user_name := VStr "Ravi";
     user_email := VStr "ravi@example.com";
     role := VStr "general_user"; is_approved := VBool true;
     user_created_at := VStr "2024-01-01T00:00:00Z" |}.

Definition rejected_order : Order :=
  {| order_id := VStr "o-2";
     order_number := VStr "ORD-002";
     google_sheet_link := VStr "https://docs.google.com/spreadsheets/d/2";
     created_at := VStr "2024-03-10T12:00:00Z";
     initial_pattern_status := VStr "rejected";
     initial_pattern_date := VStr "2024-03-10T15:00:00Z";
     second_pattern_status := VNull;
     second_pattern_date := VNull;
     approved_pattern_status := VNull;
     approved_pattern_date := VNull |}.

Definition loaded (o : Order) : OrderDetail.state :=
  {| OrderDetail.order := Some o;
     OrderDetail.patterns :=
       {| OrderDetail.initial := []; OrderDetail.second := [];
          OrderDetail.approved := [] |};
     OrderDetail.chats := []; OrderDetail.loading := false;
     OrderDetail.chatMessage := ""; OrderDetail.chatImage := None;
     OrderDetail.selectedFiles := []; OrderDetail.quotedMessage := None;
     OrderDetail.chatImagePreview := VNull |}.

Definition approve_second (disabled : bool) : control :=
  {| c_testid := Some [VStr "approve-second"]; c_event := "onClick";
     c_listener := call "handleApproval" [VStr "second"; VStr "approved"];
     c_disabled := disabled |}.


(* ================================================================== *)
(** * Properties *)

(** ** Values *)

Lemma seq_str_true (v : value) (lit : string) :
  seq_str v lit = true <-> v = VStr lit.
Proof.
  destruct v; simpl; split; try discriminate.
  - intros H. apply String.eqb_eq in H. now subst.
  - intros H. injection H as ->. apply String.eqb_refl.
Qed.

Lemma seq_str_false (v : value) (lit : string) :
  seq_str v lit = false <-> v <> VStr lit.
Proof.
  rewrite <- seq_str_true. destruct (seq_str v lit); split; congruence.
Qed.

Lemma truthy_present (v : value) : truthy v = true -> present v = true.
Proof. destruct v; simpl; auto. Qed.

Lemma absent_not_truthy (v : value) : absent v = true -> truthy v = false.
Proof. destruct v; simpl; auto; discriminate. Qed.

Lemma stage_status_truthy (v : value) :
  stage_status v = true -> truthy v = present v.
Proof.
  destruct v as [| | b | n | s |]; try reflexivity; try discriminate.
  unfold stage_status, present. simpl. intros H.
  destruct (String.eqb_spec s "approved") as [E | _];
    [now rewrite E |].
  destruct (String.eqb_spec s "rejected") as [E | _];
    [now rewrite E |].
  discriminate H.
Qed.

Lemma stage_date_truthy (v : value) :
  stage_date v = true -> truthy v = present v.
Proof. destruct v; try reflexivity; try discriminate. simpl. now intros ->. Qed.

Lemma stage_statuses_inv (o : Order) :
  stage_statuses o = true ->
     stage_status (initial_pattern_status o) = true
  /\ stage_status (second_pattern_status o) = true
  /\ stage_status (approved_pattern_status o) = true.
Proof.
  unfold stage_statuses. rewrite !andb_true_iff. tauto.
Qed.

Lemma stage_dates_inv (o : Order) :
  stage_dates o = true ->
     stage_date (initial_pattern_date o) = true
  /\ stage_date (second_pattern_date o) = true
  /\ stage_date (approved_pattern_date o) = true.
Proof.
  unfold stage_dates. rewrite !andb_true_iff. tauto.
Qed.

Lemma falsy_absent (v : value) :
  stage_status v = true -> truthy v = false -> absent v = true.
Proof.
  intros Hd Ht. rewrite (stage_status_truthy _ Hd) in Ht.
  unfold present in Ht. now apply negb_false_iff in Ht.
Qed.

Lemma truthy_rejected (v : value) : seq_str v "rejected" = true -> truthy v = true.
Proof. intros H. apply seq_str_true in H. now subst. Qed.

(** ** The calendar of [Date] *)

Section Calendar.
Import JsDate.

(** The two conversions between day numbers and dates are inverse. *)
Lemma days_from_civil_of_days (D : Z) :
  let '(y, m, d) := civil_from_days D in
  days_from_civil y m d = D /\ 1 <= m <= 12.
Proof.
  unfold civil_from_days, days_from_civil.
  cbv zeta.
  remember (D + 719468) as z eqn:Hz.
  remember (z / 146097) as era eqn:Hera.
  remember (z - era * 146097) as doe eqn:Hdoe.
  assert (Bdoe : 0 <= doe < 146097)
    by (subst doe era; Z.div_mod_to_equations; lia).
  remember ((doe - doe / 1460 + doe / 36524 - doe / 146096) / 365)
    as yoe eqn:Hyoe.
  assert (Byoe : 0 <= yoe <= 399)
    by (subst yoe; Z.div_mod_to_equations; lia).
  remember (doe - (365 * yoe + yoe / 4 - yoe / 100)) as doy eqn:Hdoy.
  assert (Bdoy : 0 <= doy <= 365)
    by (subst doy yoe; Z.div_mod_to_equations; lia).
  remember ((5 * doy + 2) / 153) as mp eqn:Hmp.
  assert (Bmp : 0 <= mp <= 11)
    by (subst mp; Z.div_mod_to_equations; lia).
  destruct (mp <? 10) eqn:E1.
  - apply Z.ltb_lt in E1. split; [|lia].
    replace (mp + 3 <=? 2) with false by (symmetry; apply Z.leb_gt; lia).
    replace (2 <? mp + 3) with true by (symmetry; apply Z.ltb_lt; lia).
    replace (mp + 3 - 3) with mp by lia.
    replace ((yoe + era * 400 + 0) / 400) with era
      by (clear - Byoe; Z.div_mod_to_equations; lia).
    replace (yoe + era * 400 + 0 - era * 400) with yoe by lia.
    clear Hyoe Hera Bdoe E1. subst mp. Z.div_mod_to_equations. lia.
  - apply Z.ltb_ge in E1. split; [|lia].
    replace (mp - 9 <=? 2) with true by (symmetry; apply Z.leb_le; lia).
    replace (2 <? mp - 9) with false by (symmetry; apply Z.ltb_ge; lia).
    replace (mp - 9 + 9) with mp by lia.
    replace ((yoe + era * 400 + 1 - 1) / 400) with era
      by (clear - Byoe; Z.div_mod_to_equations; lia).
    replace (yoe + era * 400 + 1 - 1 - era * 400) with yoe by lia.
    clear Hyoe Hera Bdoe E1. subst mp. Z.div_mod_to_equations. lia.
Qed.

(** The day of the month enters [days_from_civil] linearly. *)
Lemma days_from_civil_shift (y m d k : Z) :
  days_from_civil y m (d + k) = days_from_civil y m d + k.
Proof. unfold days_from_civil. cbv zeta. lia. Qed.

(** Setting the day of the month [n] days back moves a local time
    back by [n] whole days. *)
Lemma MakeDay_days_back (t n : Z) :
  MakeDate (MakeDay (YearFromTime t) (MonthFromTime t) (DateFromTime t - n))
    (TimeWithinDay t) = t - n * msPerDay.
Proof.
  unfold MakeDate, MakeDay, YearFromTime, MonthFromTime, DateFromTime,
    TimeWithinDay.
  pose proof (days_from_civil_of_days (Day t)) as H.
  destruct (civil_from_days (Day t)) as [[y m] d]. simpl.
  destruct H as [H Hm].
  replace ((m - 1) / 12) with 0 by (Z.div_mod_to_equations; lia).
  replace ((m - 1) mod 12 + 1) with m by (Z.div_mod_to_equations; lia).
  replace (y + 0) with y by lia.
  replace (days_from_civil y m 1 + (d - n) - 1)
    with (days_from_civil y m (1 + (d - 1)) - n)
    by (rewrite days_from_civil_shift; lia).
  replace (1 + (d - 1)) with d by lia.
  rewrite H. unfold Day, msPerDay. Z.div_mod_to_equations. lia.
Qed.

(** In a zone whose offset from UTC is constant, the cutoff of the
    Orders page is the present time less [days] times 24 hours. *)
Lemma cutoffDate_constant_offset (h : host) (c now days : Z) :
  (forall t b, local_tza h t b = c) ->
  Orders.cutoffDate h now days = TimeClip (now - days * msPerDay).
Proof.
  intros Hc. unfold Orders.cutoffDate, setDate, getDate, LocalTime, UTC.
  rewrite MakeDay_days_back. rewrite !Hc. f_equal. lia.
Qed.

End Calendar.

(* ================================================================== *)
(** ** The filters of the Orders page *)

Lemma filter_twice {A : Type} (f g : A -> bool) (l : list A) :
  filter g (filter f l) = filter (fun x => f x && g x) l.
Proof.
  induction l as [| x l IH]; simpl; [reflexivity |].
  destruct (f x); simpl; [destruct (g x) |]; now rewrite IH.
Qed.

Section OrdersFilters.

Variable h : host.
Variable now : Z.

Let shown (st : Orders.state) : list Order :=
  Orders.filteredOrders (state_after (Orders.applyFilters h now) st).

Lemma applyFilters_keeps_fetched (st : Orders.state) :
  Orders.allOrders (state_after (Orders.applyFilters h now) st)
  = Orders.allOrders st.
Proof. reflexivity. Qed.

(** The orders that pass the date filter. *)
Let recent (st : Orders.state) (o : Order) : bool :=
  JsDate.ge (JsDate.of_value h (created_at o))
    (Orders.cutoffDate h now (Orders.dateFilter st)).

Lemma filtered_unfold (st : Orders.state) :
  shown st =
  let dated := filter (recent st) (Orders.allOrders st) in
  if (Orders.statusFilter st =? "approved")%string then
    filter (fun o => seq_str (approved_pattern_status o) "approved") dated
  else if (Orders.statusFilter st =? "rejected")%string then
    filter (fun o =>
      seq_str (initial_pattern_status o) "rejected"
      || seq_str (second_pattern_status o) "rejected"
      || seq_str (approved_pattern_status o) "rejected") dated
  else if (Orders.statusFilter st =? "no_action")%string then
    filter (fun o =>
      negb (truthy (initial_pattern_status o))
      && negb (truthy (second_pattern_status o))
      && negb (truthy (approved_pattern_status o))) dated
  else dated.
Proof. reflexivity. Qed.

Lemma filtered_In (st : Orders.state) (o : Order) :
  In o (shown st) <->
     In o (Orders.allOrders st)
  /\ recent st o = true
  /\ (Orders.statusFilter st = "approved" ->
        approved_pattern_status o = VStr "approved")
  /\ (Orders.statusFilter st = "rejected" ->
           initial_pattern_status o = VStr "rejected"
        \/ second_pattern_status o = VStr "rejected"
        \/ approved_pattern_status o = VStr "rejected")
  /\ (Orders.statusFilter st = "no_action" ->
           truthy (initial_pattern_status o) = false
        /\ truthy (second_pattern_status o) = false
        /\ truthy (approved_pattern_status o) = false).
Proof.
  rewrite filtered_unfold. cbv zeta.
  destruct (String.eqb_spec (Orders.statusFilter st) "approved") as [Ea | Na].
  { rewrite !filter_In, seq_str_true, Ea. intuition discriminate. }
  destruct (String.eqb_spec (Orders.statusFilter st) "rejected") as [Er | Nr].
  { rewrite !filter_In, !orb_true_iff, !seq_str_true, Er.
    intuition discriminate. }
  destruct (String.eqb_spec (Orders.statusFilter st) "no_action") as [En | Nn].
  { rewrite !filter_In, !andb_true_iff, !negb_true_iff, En.
    intuition discriminate. }
  rewrite filter_In. intuition congruence.
Qed.

(** C3: the list the Orders page shows is computed from the fetched
    orders alone (with the clock and the two filter settings), the
    statuses of the fetched orders being absent, 'approved' or
    'rejected'.  It holds exactly the fetched orders that pass the
    date filter and the status filter in force.  The date filter
    passes the orders whose [created_at] is on or after the cutoff,
    which is the present time set back by the selected number of
    calendar days (that number times 24 hours where the zone's offset
    is constant).  'approved' passes the orders whose final status is
    'approved'; 'rejected' those with at least one of the three
    statuses equal to 'rejected'; 'no_action' those whose three
    statuses are all absent; 'all' applies no status filter.  The list
    shown is a sublist of the fetched list, which the filter leaves as
    it was. *)
Theorem orders_filter_keeps_exactly (st : Orders.state)
  (Hdom : forall o : Order,
     In o (Orders.allOrders st) -> stage_statuses o = true) :
  (forall o : Order,
     In o (Orders.filteredOrders (state_after (Orders.applyFilters h now) st))
     <->
        In o (Orders.allOrders st)
     /\ JsDate.ge (JsDate.of_value h (created_at o))
          (Orders.cutoffDate h now (Orders.dateFilter st)) = true
     /\ (Orders.statusFilter st = "approved" ->
           approved_pattern_status o = VStr "approved")
     /\ (Orders.statusFilter st = "rejected" ->
              initial_pattern_status o = VStr "rejected"
           \/ second_pattern_status o = VStr "rejected"
           \/ approved_pattern_status o = VStr "rejected")
     /\ (Orders.statusFilter st = "no_action" ->
              absent (initial_pattern_status o) = true
           /\ absent (second_pattern_status o) = true
           /\ absent (approved_pattern_status o) = true))
  /\ (exists keep : Order -> bool,
        Orders.filteredOrders (state_after (Orders.applyFilters h now) st)
        = filter keep (Orders.allOrders st))
  /\ incl (Orders.filteredOrders (state_after (Orders.applyFilters h now) st))
       (Orders.allOrders st)
  /\ Orders.allOrders (state_after (Orders.applyFilters h now) st)
     = Orders.allOrders st
  /\ (forall c : Z,
        (forall t b, local_tza h t b = c) ->
        Orders.cutoffDate h now (Orders.dateFilter st)
        = JsDate.TimeClip (now - Orders.dateFilter st * JsDate.msPerDay)).
Proof.
  fold (shown st).
  split; [| split; [| split; [| split]]].
  - intros o. rewrite filtered_In.
    split; intros (Hin & Hdate & Ha & Hr & Hn);
      (split; [exact Hin |]); (split; [exact Hdate |]);
      (split; [exact Ha |]); (split; [exact Hr |]); intros E;
      destruct (Hn E) as (H1 & H2 & H3).
    + destruct (stage_statuses_inv _ (Hdom _ Hin)) as (D1 & D2 & D3).
      auto using falsy_absent.
    + auto using absent_not_truthy.
  - rewrite filtered_unfold. cbv zeta.
    destruct (_ =? "approved")%string;
      [| destruct (_ =? "rejected")%string;
         [| destruct (_ =? "no_action")%string]].
    + eexists. apply filter_twice.
    + eexists. apply filter_twice.
    + eexists. apply filter_twice.
    + exists (recent st). reflexivity.
  - intros o Ho. now apply filtered_In in Ho.
  - reflexivity.
  - intros c Hc. now apply cutoffDate_constant_offset with (c := c).
Qed.

End OrdersFilters.

(** Under 'no_action' the page shows a recent order that no stage has
    acted on. *)
Lemma orders_filter_witness :
  In untouched_order
    (Orders.filteredOrders
       (state_after (Orders.applyFilters sample_host sample_now)
          (no_action_state [untouched_order; rejected_order])))
  <->
     In untouched_order
       (Orders.allOrders (no_action_state [untouched_order; rejected_order]))
  /\ JsDate.ge (JsDate.of_value sample_host (created_at untouched_order))
       (Orders.cutoffDate sample_host sample_now
          (Orders.dateFilter
             (no_action_state [untouched_order; rejected_order]))) = true
  /\ (Orders.statusFilter (no_action_state [untouched_order; rejected_order])
      = "approved" ->
      approved_pattern_status untouched_order = VStr "approved")
  /\ (Orders.statusFilter (no_action_state [untouched_order; rejected_order])
      = "rejected" ->
         initial_pattern_status untouched_order = VStr "rejected"
      \/ second_pattern_status untouched_order = VStr "rejected"
      \/ approved_pattern_status untouched_order = VStr "rejected")
  /\ (Orders.statusFilter (no_action_state [untouched_order; rejected_order])
      = "no_action" ->
         absent (initial_pattern_status untouched_order) = true
      /\ absent (second_pattern_status untouched_order) = true
      /\ absent (approved_pattern_status untouched_order) = true).
Proof.
  assert (Hdom : forall o : Order,
            In o (Orders.allOrders
                    (no_action_state [untouched_order; rejected_order])) ->
            stage_statuses o = true)
    by (intros o [<- | [<- | []]]; reflexivity).
  destruct (@orders_filter_keeps_exactly sample_host sample_now
              (no_action_state [untouched_order; rejected_order]) Hdom)
    as [H _].
  exact (H untouched_order).
Defined.

(** What the page shows there: the untouched order, and not the
    rejected one. *)
Example no_action_shown :
  Orders.filteredOrders
    (state_after (Orders.applyFilters sample_host sample_now)
       (no_action_state [untouched_order; rejected_order]))
  = [untouched_order].
Proof. vm_compute. reflexivity. Qed.

(** The cutoff of that example is thirty days before [sample_now]. *)
Example sample_cutoff :
  Orders.cutoffDate sample_host sample_now 30 = Some 1707566400000.
Proof. vm_compute. reflexivity. Qed.

(* ================================================================== *)
(** ** The patterns of an order by stage *)

Section PatternBuckets.

Variable orderId : value.
Variable orderRes : Order.
Variable patternsRes : list Pattern.
Variable chatsRes : list Chat.
Variable st : OrderDetail.state.

Let fetched : OrderDetail.buckets :=
  OrderDetail.patterns
    (state_after
       (OrderDetail.fetchOrderData orderId
          (Resolved (orderRes, patternsRes, chatsRes))) st).

Lemma fetched_patterns :
  fetched = OrderDetail.patternsByStage patternsRes.
Proof. reflexivity. Qed.

Lemma bucket_In (lit : string) (p : Pattern) :
  In p (filter (fun p => seq_str (stage p) lit) patternsRes)
  <-> In p patternsRes /\ stage p = VStr lit.
Proof. now rewrite filter_In, seq_str_true. Qed.

(** C7: when the order data is fetched, the pattern list of the
    answer is split by the [stage] field into the buckets 'initial',
    'second' and 'approved': a pattern is in a bucket exactly when it
    is in the answer and its stage is the name of that bucket, so a
    pattern whose stage is one of the three names is in that bucket
    and in no other, and a pattern with any other stage is in none. *)
Theorem patterns_partitioned_by_stage :
  forall p : Pattern,
    let b :=
      OrderDetail.patterns
        (state_after
           (OrderDetail.fetchOrderData orderId
              (Resolved (orderRes, patternsRes, chatsRes))) st) in
       (In p (OrderDetail.initial b)
          <-> In p patternsRes /\ stage p = VStr "initial")
    /\ (In p (OrderDetail.second b)
          <-> In p patternsRes /\ stage p = VStr "second")
    /\ (In p (OrderDetail.approved b)
          <-> In p patternsRes /\ stage p = VStr "approved")
    /\ ~ (In p (OrderDetail.initial b) /\ In p (OrderDetail.second b))
    /\ ~ (In p (OrderDetail.initial b) /\ In p (OrderDetail.approved b))
    /\ ~ (In p (OrderDetail.second b) /\ In p (OrderDetail.approved b))
    /\ (stage p <> VStr "initial" -> stage p <> VStr "second" ->
        stage p <> VStr "approved" ->
           ~ In p (OrderDetail.initial b)
        /\ ~ In p (OrderDetail.second b)
        /\ ~ In p (OrderDetail.approved b)).
Proof.
  intros p. cbv zeta. fold fetched. rewrite fetched_patterns.
  unfold OrderDetail.patternsByStage. simpl.
  rewrite !bucket_In.
  repeat split; try tauto; intros; intuition congruence.
Qed.

End PatternBuckets.

(* ================================================================== *)
(** ** The derived metrics of NewDashboard *)

Section DerivedMetrics.
Import NewDashboard.

Lemma positive_nonzero (q : Q) : positive q = true -> Qeq_bool q 0 = false.
Proof.
  unfold positive. intros H. apply negb_true_iff in H.
  destruct (Qeq_bool q 0) eqn:E; [| reflexivity].
  apply Qeq_bool_iff in E.
  assert (Hle : Qle_bool q 0 = true)
    by (apply Qle_bool_iff; rewrite E; apply Qle_refl).
  congruence.
Qed.

Lemma div_positive (a b : Q) :
  positive b = true -> div a b = Some (a / b)%Q.
Proof. intros H. unfold div. now rewrite (positive_nonzero _ H). Qed.

Lemma formatTime_total (hours : Q) : formatTime hours <> None.
Proof.
  unfold formatTime.
  destruct (lt hours 1); [discriminate |].
  destruct (lt hours 24); discriminate.
Qed.

Lemma approval_rate_total (m : Metrics) : approval_rate m <> None.
Proof.
  unfold approval_rate.
  destruct (positive (total_orders m)) eqn:E; [| discriminate].
  rewrite (div_positive _ _ E). discriminate.
Qed.

Lemma patterns_per_order_total (m : Metrics) : patterns_per_order m <> None.
Proof.
  unfold patterns_per_order.
  destruct (positive (total_orders m)) eqn:E; [| discriminate].
  rewrite (div_positive _ _ E). discriminate.
Qed.

Lemma all_some_total {A : Type} (l : list (option A)) :
  Forall (fun o => o <> None) l -> all_some l <> None.
Proof.
  induction 1 as [| o l Ho _ IH]; simpl; [discriminate |].
  destruct o; [| congruence].
  destruct (all_some l); [discriminate | congruence].
Qed.

(** C9: NewDashboard never divides by zero when it derives its
    metrics.  The approval rate and the patterns per order are
    quotients by [total_orders] taken only when [total_orders > 0],
    where the divisor is not zero; otherwise the fixed texts
    'No orders yet' and '0' are shown and no quotient is taken.  The
    only other division, by 24 in [formatTime], has a constant
    divisor, so no render of any state meets a zero divisor. *)
Theorem metrics_never_divide_by_zero :
     (forall m : Metrics,
        positive (total_orders m) = true ->
           Qeq_bool (total_orders m) 0 = false
        /\ approval_rate m
           = Some (Rounded (approved_patterns m / total_orders m * 100)%Q
                     "% approval rate")
        /\ patterns_per_order m
           = Some (Fixed1 (total_patterns m / total_orders m)%Q ""))
  /\ (forall m : Metrics,
        positive (total_orders m) = false ->
           approval_rate m = Some (Lit "No orders yet")
        /\ patterns_per_order m = Some (Lit "0"))
  /\ (forall st : state, derived st <> None).
Proof.
  split; [| split].
  - intros m H. split; [now apply positive_nonzero |].
    unfold approval_rate, patterns_per_order.
    now rewrite H, !(div_positive _ _ H).
  - intros m H. unfold approval_rate, patterns_per_order. now rewrite H.
  - intros st. unfold derived. apply all_some_total.
    apply Forall_app. unfold cards, summary. split.
    + destruct (loading st); [constructor |].
      destruct (metrics st) as [m |]; [| constructor].
      repeat constructor;
        auto using approval_rate_total, formatTime_total.
    + destruct (metrics st) as [m |]; [| constructor].
      repeat constructor;
        auto using patterns_per_order_total, formatTime_total.
Qed.

End DerivedMetrics.

(** With no orders in the period the fallback texts are shown. *)
Example no_orders_metrics :
  NewDashboard.derived
    {| NewDashboard.metrics :=
         Some {| NewDashboard.total_orders := 0;
                 NewDashboard.total_patterns := 0;
                 NewDashboard.approved_patterns := 0;
                 NewDashboard.avg_pattern_making_time_hours := 0;
                 NewDashboard.avg_approval_time_hours := 0;
                 NewDashboard.date_range_start := VStr "2024-02-10";
                 NewDashboard.date_range_end := VStr "2024-03-11";
                 NewDashboard.date_range_days := 30 |};
       NewDashboard.loading := false;
       NewDashboard.timeFilter := 30 |}
  = Some [ NewDashboard.Lit "No orders yet";
           NewDashboard.Rounded (0 * 60) " mins";
           NewDashboard.Rounded (0 * 60) " mins";
           NewDashboard.Lit "0";
           NewDashboard.Rounded ((0 + 0) * 60) " mins" ].
Proof. reflexivity. Qed.

(* ================================================================== *)
(** ** Rejected API calls *)

Ltac run_rejected :=
  cbv [h_rejected h_calls h_name h_input trace bind ret emit modify skip
       axios toast_error toast_success try_catch fst snd app
       Dashboard.fetchOrders Dashboard.createOrder Dashboard.setOrders
       Dashboard.setLoading
       Orders.fetchOrders Orders.createOrder Orders.setAllOrders
       Orders.setLoading
       NewDashboard.fetchMetrics NewDashboard.setLoading
       AdminPanel.fetchUsers AdminPanel.updateRole AdminPanel.approveUser
       AdminPanel.setLoading
       Login.handleSubmit Login.setLoading
       OrderDetail.fetchOrderData OrderDetail.fetchChats
       OrderDetail.handleFileUpload OrderDetail.handleDeletePattern
       OrderDetail.handleDownload OrderDetail.handleApproval
       OrderDetail.handleSendMessage OrderDetail.handleDeleteOrder
       OrderDetail.setLoading negb].

Ltac settle_rejection :=
  intros e i; cbv [h_input] in i;
  try match type of i with (_ * _)%type => destruct i as [[|] i] end;
  cbv zeta; run_rejected;
  repeat match goal with
         | |- context [if status_is ?e ?n then _ else _] =>
             destruct (status_is e n) eqn:?
         | |- context [if OrderDetail.blank ?s && ?b then _ else _] =>
             destruct (OrderDetail.blank s && b)
         end;
  unfold silent; simpl;
  try (intros; discriminate);
  intros _; repeat split; try reflexivity; try discriminate;
  try (intros _; eexists; reflexivity);
  try (rewrite ?andb_true_r, ?andb_false_r, ?orb_false_r; intros; congruence).

(** C2, as amended: every API call of the six page components is
    awaited inside a [try]; when it is rejected, the handler sends no
    further request and calls no other handler (no retry, no
    backoff), and it shows exactly one error toast and stops, with
    two exceptions that are met in silence: a 403 answer to the fetch
    of the orders (Dashboard and Orders empty their list instead) and
    any failure of the chat poll. *)
Theorem rejected_calls_are_not_retried
  (orderId userId newRole patternId : value) (stage status : string)
  (slot : Z) :
  Forall
    (fun h : api_handler =>
       forall (e : axios_error) (i : h_input h),
         let tr := h_rejected h e i in
         existsb is_request tr = true ->
            List.length (filter is_request tr) = h_calls h
         /\ forallb (fun x => is_request x || is_toast_error x) tr = true
         /\ (silent (h_name h) e = true -> filter is_toast tr = [])
         /\ (silent (h_name h) e = false ->
             exists msg, filter is_toast tr = [ToastError msg]))
    (api_handlers orderId userId newRole patternId stage status slot).
Proof.
  unfold api_handlers.
  repeat (apply Forall_cons; [settle_rejection |]).
  apply Forall_nil.
Qed.

(** C2, as stated, fails: the rejection of the Dashboard's fetch of
    the orders with status 403 is caught, and no notification is
    shown for it. *)
Lemma forbidden_fetch_shows_no_toast :
  ~ Forall
      (fun h : api_handler =>
         forall (e : axios_error) (i : h_input h),
           existsb is_request (h_rejected h e i) = true ->
           existsb is_toast (h_rejected h e i) = true)
      (api_handlers (VStr "o-1") (VStr "u-1") (VStr "admin") (VStr "p-1")
         "initial" "approved" 1).
Proof.
  intros H. apply Forall_inv in H.
  specialize (H forbidden Dashboard.initial eq_refl).
  discriminate H.
Qed.

(** The same rejection empties the list and ends the loading state. *)
Example forbidden_fetch_run :
  Dashboard.fetchOrders (Rejected forbidden) Dashboard.initial
  = (tt,
     {| Dashboard.orders := []; Dashboard.loading := false;
        Dashboard.dialogOpen := false;
        Dashboard.formData := empty_order_form |},
     [Request GET [VStr "/orders"]]).
Proof. reflexivity. Qed.

(** Another failure of that fetch, a timeout say, is notified. *)
Example failed_fetch_run :
  trace (Dashboard.fetchOrders (Rejected {| response := None |}))
    Dashboard.initial
  = [Request GET [VStr "/orders"]; ToastError (VStr "Failed to fetch orders")].
Proof. reflexivity. Qed.

(* ================================================================== *)
(** ** The chat poll of the order view *)

Section ChatPoll.
Import Browser.

Variable orderId : value.

(** The window a component is mounted in: no timer is set; the
    clock, the next timer id and the requests in flight are any. *)
Variables (t0 id0 : Z) (sent : list (http_method * url)).

Let fresh : window :=
  {| clock := t0; next_id := id0; timers := []; in_flight := sent |}.

Let chat_request : http_method * url :=
  (GET, [VStr "/orders/"; orderId; VStr "/chat"]).

Let first_requests : list (http_method * url) :=
  [ (GET, [VStr "/orders/"; orderId]);
    (GET, [VStr "/orders/"; orderId; VStr "/patterns"]);
    chat_request ].

Let polling (n : nat) : window := polling_window orderId t0 id0 sent n.

Lemma mount_polling :
  OrderDetail.mount orderId fresh = (id0, polling 0).
Proof.
  unfold OrderDetail.mount, setInterval, send, polling, polling_window, fresh.
  simpl.
  f_equal. f_equal; [lia | now rewrite <- !app_assoc].
Qed.

Lemma repeat_snoc {A : Type} (x : A) (k : nat) :
  repeat x k ++ [x] = repeat x (S k).
Proof.
  induction k as [| k IH]; simpl; [reflexivity |]. now rewrite IH.
Qed.

Lemma tick_polling (n : nat) :
  tick (OrderDetail.run_callback orderId) (polling n) = polling (S n).
Proof.
  unfold tick, polling, polling_window.
  cbn [clock next_id timers in_flight filter map].
  unfold reschedule. cbn [due delay timer_id callback].
  set (q := Z.of_nat n / 3000).
  assert (Hq : 3000 * q <= Z.of_nat n < 3000 * q + 3000)
    by (subst q; Z.div_mod_to_equations; lia).
  clearbody q.
  destruct (Z.leb_spec (t0 + 3000 * (q + 1)) (t0 + Z.of_nat n + 1)) as [Hd | Hd].
  - (* the timer is due: one more poll leaves *)
    assert (Hn : Z.of_nat (S n) / 3000 = q + 1)
      by (symmetry; apply Z.div_unique with (r := 0); lia).
    rewrite Hn. cbn [fold_left].
    unfold OrderDetail.run_callback, send. simpl String.eqb.
    cbn [clock next_id timers in_flight].
    f_equal; [lia | | ].
    + do 2 f_equal. lia.
    + rewrite <- !app_assoc. do 2 f_equal.
      replace (Z.to_nat (q + 1)) with (S (Z.to_nat q)) by lia.
      apply (repeat_snoc chat_request).
  - (* nothing is due *)
    assert (Hn : Z.of_nat (S n) / 3000 = q)
      by (symmetry; apply Z.div_unique with (r := Z.of_nat (S n) - 3000 * q); lia).
    rewrite Hn. cbn [fold_left]. f_equal. lia.
Qed.

Lemma advance_polling (k n : nat) :
  advance (OrderDetail.run_callback orderId) k (polling n)
  = polling (n + k).
Proof.
  revert n. induction k as [| k IH]; intros n; simpl.
  - now rewrite Nat.add_0_r.
  - rewrite tick_polling, IH. f_equal. lia.
Qed.

(** Without timers nothing happens but the passing of time. *)
Lemma advance_idle (run : string -> window -> window) (k : nat) (w : window) :
  timers w = [] ->
  advance run k w
  = {| clock := clock w + Z.of_nat k; next_id := next_id w; timers := [];
       in_flight := in_flight w |}.
Proof.
  revert w. induction k as [| k IH]; intros [c i ts fl] H; simpl in *; subst ts.
  - f_equal. lia.
  - unfold tick. simpl. rewrite IH by reflexivity. simpl. f_equal. lia.
Qed.

(** C5: the periodic behaviour of the order view is one chat poll of
    fixed period.  Mounting the component sends the three requests of
    [fetchOrderData] once and sets a single interval timer, which
    calls [fetchChats] every 3000 ms: after [n] ms, [n / 3000] polls
    have been sent, each a new request whatever is still in flight.
    The cleanup clears that timer and does nothing else (the
    requests in flight stay), after which time passes with no
    further request. *)
Theorem chat_poll_every_three_seconds :
  let run := OrderDetail.run_callback orderId in
  let mounted := OrderDetail.mount orderId
                   {| clock := t0; next_id := id0; timers := [];
                      in_flight := sent |} in
  let interval := fst mounted in
     timers (snd mounted)
     = [ {| timer_id := interval; callback := "fetchChats"; delay := 3000;
            due := t0 + 3000 |} ]
  /\ in_flight (snd mounted)
     = sent ++ [ (GET, [VStr "/orders/"; orderId]);
                 (GET, [VStr "/orders/"; orderId; VStr "/patterns"]);
                 (GET, [VStr "/orders/"; orderId; VStr "/chat"]) ]
  /\ (forall n : nat,
        let w := advance run n (snd mounted) in
           clock w = t0 + Z.of_nat n
        /\ in_flight w
           = in_flight (snd mounted)
             ++ repeat (GET, [VStr "/orders/"; orderId; VStr "/chat"])
                  (Z.to_nat (Z.of_nat n / 3000))
        /\ timers (OrderDetail.cleanup interval w) = []
        /\ in_flight (OrderDetail.cleanup interval w) = in_flight w
        /\ clock (OrderDetail.cleanup interval w) = clock w
        /\ forall k : nat,
             in_flight (advance run k (OrderDetail.cleanup interval w))
             = in_flight w).
Proof.
  cbv zeta. fold fresh. rewrite mount_polling. cbn [fst snd].
  split; [| split].
  - reflexivity.
  - unfold polling, polling_window. simpl. rewrite ?app_nil_r. reflexivity.
  - intros n. rewrite (advance_polling n 0). cbn [Nat.add].
    unfold OrderDetail.cleanup, clearInterval.
    unfold polling, polling_window.
    cbn [clock next_id timers in_flight filter timer_id].
    rewrite Z.eqb_refl. cbn [negb].
    repeat split.
    + change (Z.to_nat (Z.of_nat 0 / 3000)) with 0%nat. cbn [repeat].
      now rewrite app_nil_r, <- app_assoc.
    + intros k. rewrite advance_idle; [reflexivity |].
      cbn [timers filter timer_id]. rewrite ?Z.eqb_refl. reflexivity.
Qed.

End ChatPoll.

(* ================================================================== *)
(** ** Rendering the Dashboard *)

Lemma first_unbound_Host (scope : list string) (tag : string)
  (ps : list prop) (children : list element) :
  first_unbound scope (Host tag ps children)
  = first_some (map (first_unbound scope) children).
Proof.
  simpl. induction children as [| x t IH]; simpl; [reflexivity |].
  destruct (first_unbound scope x); [reflexivity | exact IH].
Qed.

Lemma first_unbound_Comp (scope : list string) (ident : string)
  (ps : list prop) (children : list element) :
  first_unbound scope (Comp ident ps children)
  = if existsb (String.eqb ident) scope
    then first_some (map (first_unbound scope) children)
    else Some ident.
Proof.
  simpl. destruct (existsb (String.eqb ident) scope); [| reflexivity].
  induction children as [| x t IH]; simpl; [reflexivity |].
  destruct (first_unbound scope x); [reflexivity | exact IH].
Qed.

Lemma first_some_all_none {A B : Type} (f : A -> option B) (l : list A) :
  (forall x, f x = None) -> first_some (map f l) = None.
Proof.
  intros H. induction l as [| x t IH]; simpl; [reflexivity |].
  now rewrite H.
Qed.

Section DashboardRender.
Import Dashboard.

Variable user : option User.

Lemma order_card_bound (o : Order) : first_unbound scope (order_card o) = None.
Proof. reflexivity. Qed.

Lemma header_bound : first_unbound scope (header user) = None.
Proof. unfold header, when, js_and. destruct (role_is user "admin"); reflexivity. Qed.

Lemma dialog_bound (st : state) :
  first_unbound scope
    (when (canCreateOrder user)
       (create_order_dialog (dialogOpen st) "Google Sheet Link"))
  = None.
Proof. unfold when, js_and. destruct (canCreateOrder user); reflexivity. Qed.

(** What the evaluation of the view meets after the header and the
    action bar: the identifiers of the grid, or of the empty card. *)
Lemma view_first_unbound (st : state) :
  first_unbound scope (view user st)
  = if loading st then None
    else if (Z.of_nat (List.length (orders st)) =? 0)
    then first_unbound scope (empty_card user)
    else None.
Proof.
  unfold view.
  rewrite first_unbound_Host. cbn [map first_some].
  rewrite header_bound.
  rewrite first_unbound_Host. cbn [map first_some].
  rewrite first_unbound_Host. cbn [map first_some].
  rewrite dialog_bound.
  change (first_unbound scope
            (Host "div" []
               [Host "h2" [] [text "Orders"];
                Host "p" [] [text "Manage and track pattern orders"]]))
    with (@None string).
  destruct (loading st); [reflexivity |].
  destruct (Z.of_nat (List.length (orders st)) =? 0).
  - now destruct (first_unbound scope (empty_card user)).
  - rewrite first_unbound_Host, map_map.
    now rewrite (first_some_all_none _ _ order_card_bound).
Qed.

Lemma empty_card_first_unbound :
  first_unbound scope (empty_card user)
  = if negb (truthy (opt_field is_approved user)) && negb (role_is user "admin")
    then Some "Shield" else None.
Proof.
  unfold empty_card, when, js_and.
  destruct (negb (truthy (opt_field is_approved user))
            && negb (role_is user "admin")); [reflexivity |].
  destruct (canCreateOrder user); reflexivity.
Qed.

(** X11: in every other state the render completes. *)
Lemma dashboard_renders_otherwise (st : state) :
  loading st = true
  \/ orders st <> []
  \/ truthy (opt_field is_approved user) = true
  \/ role_is user "admin" = true ->
  render user st = Rendered (view user st).
Proof.
  intros H. unfold render, evaluate.
  rewrite view_first_unbound, empty_card_first_unbound.
  destruct (loading st); [reflexivity |].
  destruct (orders st) as [| o l] eqn:E; [| reflexivity].
  destruct H as [H | [H | [H | H]]]; try discriminate; try congruence;
    rewrite H; simpl; rewrite ?andb_false_r; reflexivity.
Qed.

(** C8: [Shield] is not among the identifiers Dashboard.jsx binds,
    and the branch of the empty-orders card shown to a user who is
    not approved and not an admin names it: in every state with
    loading over, an empty list of orders and such a user, the render
    does not complete but stops at the unbound identifier [Shield]. *)
Theorem pending_user_dashboard_stops_at_Shield (st : state) :
  loading st = false ->
  orders st = [] ->
  truthy (opt_field is_approved user) = false ->
  role_is user "admin" = false ->
     ~ In "Shield" scope
  /\ first_unbound scope (empty_card user) = Some "Shield"
  /\ render user st = ReferenceError "Shield".
Proof.
  intros Hl Ho Ha Hr. split; [| split].
  - intros H. simpl in H.
    repeat (destruct H as [H | H]; [discriminate H |]). exact H.
  - rewrite empty_card_first_unbound, Ha, Hr. reflexivity.
  - unfold render, evaluate.
    rewrite view_first_unbound, empty_card_first_unbound, Hl, Ho, Ha, Hr.
    reflexivity.
Qed.

End DashboardRender.

(** The state is reached from the initial one when the fetch of the
    orders is answered with 403, as it is for such a user. *)
Lemma pending_user_dashboard_witness :
  Dashboard.render (Some pending_user)
    (state_after (Dashboard.fetchOrders (Rejected forbidden)) Dashboard.initial)
  = ReferenceError "Shield".
Proof.
  apply (pending_user_dashboard_stops_at_Shield (Some pending_user)
           (state_after (Dashboard.fetchOrders (Rejected forbidden))
              Dashboard.initial));
    reflexivity.
Defined.

(* ================================================================== *)
(** ** The controls of the order view *)

Lemma every_Txt (P : control -> Prop) (v : value) : every P (Txt v).
Proof. intros c []. Qed.

Lemma every_children (P : control -> Prop) (children : list element) :
  Forall (every P) children ->
  forall c, In c (flat_map controls children) -> P c.
Proof.
  intros H c Hc. apply in_flat_map in Hc. destruct Hc as (e & He & Hc).
  rewrite Forall_forall in H. exact (H e He c Hc).
Qed.

Lemma every_Host (P : control -> Prop) (tag : string) (ps : list prop)
  (children : list element) :
  Forall P (listeners_of ps) -> Forall (every P) children ->
  every P (Host tag ps children).
Proof.
  intros Hl Hc c Hin. simpl in Hin. apply in_app_or in Hin.
  destruct Hin as [Hin | Hin].
  - rewrite Forall_forall in Hl. now apply Hl.
  - now apply (every_children Hc).
Qed.

Lemma every_Comp (P : control -> Prop) (ident : string) (ps : list prop)
  (children : list element) :
  Forall P (listeners_of ps) -> Forall (every P) children ->
  every P (Comp ident ps children).
Proof.
  intros Hl Hc c Hin. simpl in Hin. apply in_app_or in Hin.
  destruct Hin as [Hin | Hin].
  - rewrite Forall_forall in Hl. now apply Hl.
  - now apply (every_children Hc).
Qed.

Lemma every_js_and (P : control -> Prop) (cond : value) (e : element) :
  (truthy cond = true -> every P e) -> every P (js_and cond e).
Proof.
  intros H. unfold js_and. destruct (truthy cond); [auto | apply every_Txt].
Qed.

Lemma every_when (P : control -> Prop) (cond : bool) (e : element) :
  (cond = true -> every P e) -> every P (when cond e).
Proof. intros H. apply every_js_and. exact H. Qed.

Lemma every_map (P : control -> Prop) {A : Type} (f : A -> element)
  (l : list A) :
  (forall x, every P (f x)) -> Forall (every P) (map f l).
Proof. intros H. apply Forall_map. apply Forall_forall. auto. Qed.

(** Walks a tree written out in full, leaving the facts about its
    listeners. *)
Ltac walk_with known :=
  repeat first
    [ known
    | apply every_Txt
    | apply every_Host
    | apply every_Comp
    | apply every_when; intros ?
    | apply every_js_and; intros ?
    | apply Forall_cons
    | apply Forall_nil ].

Ltac walk := walk_with ltac:(idtac; fail).

Section OrderViewControls.
Import OrderDetail.

Variable user : option User.
Variable st : state.

Let P (c : control) : Prop := placed user st c = true.

(** Closes the facts [walk] leaves, from the conditions of the
    branches it went through. *)
Ltac listeners :=
  unfold P, placed, upload_placed, approval_placed; simpl;
  repeat match goal with
         | H : _ = true |- _ => rewrite H
         | H : _ && _ = true |- _ => apply andb_prop in H; destruct H
         end;
  simpl; rewrite ?orb_false_r, ?eqb_reflx; auto.

Lemma pattern_slot_placed (stage : string) (ps : list Pattern)
  (canUpload : bool) (slot : Z) :
  upload_placed user [VStr stage; VNum slot] = canUpload ->
  every P (pattern_slot user st stage ps canUpload slot).
Proof.
  intros Hup. unfold pattern_slot.
  destruct (find (in_slot slot) ps) as [p |]; [| destruct canUpload eqn:Ec];
    unfold fragment; walk; listeners.
Qed.

Lemma renderPatternSlots_placed (stage : string) (ps : list Pattern)
  (canUpload : bool) :
  (forall slot, upload_placed user [VStr stage; VNum slot] = canUpload) ->
  every P (renderPatternSlots user st stage ps canUpload).
Proof.
  intros H. unfold renderPatternSlots. apply every_Host; [constructor |].
  apply every_map. intros slot. now apply pattern_slot_placed.
Qed.

Ltac slots :=
  match goal with
  | |- every _ (renderPatternSlots _ _ _ _ _) =>
      apply renderPatternSlots_placed; intros ?; reflexivity
  end.

Lemma initial_card_placed : every P (initial_card user st).
Proof.
  unfold initial_card, initial_badges.
  walk_with ltac:(idtac; slots); listeners.
Qed.

Lemma second_card_placed : every P (second_card user st).
Proof.
  unfold second_card, second_badges.
  walk_with ltac:(idtac; slots); listeners.
Qed.

Lemma approved_card_placed : every P (approved_card user st).
Proof.
  unfold approved_card, approved_badges.
  walk_with ltac:(idtac; slots); listeners.
Qed.

Lemma chat_card_placed : every P (chat_card user st).
Proof.
  unfold chat_card.
  apply every_Comp; [constructor |].
  apply Forall_cons; [walk |].
  apply Forall_cons; [| apply Forall_nil].
  apply every_Comp; [constructor |].
  apply Forall_cons.
  { apply every_Comp; [constructor |]. apply Forall_cons; [| apply Forall_nil].
    apply every_Host; [constructor |]. apply every_map. intros chat.
    unfold chat_bubble. walk; listeners. }
  apply Forall_cons; [| apply Forall_nil].
  unfold chat_form. destruct (quotedMessage st); walk; listeners.
Qed.

Lemma header_placed : every P (header user st).
Proof. unfold header. walk; listeners. Qed.

(** Every control of the view stands where [placed] says. *)
Lemma view_placed (c : control) :
  In c (controls (view user st)) -> placed user st c = true.
Proof.
  revert c. change (every P (view user st)).
  unfold view. destruct (loading st); [walk |].
  apply every_Host; [constructor |].
  apply Forall_cons; [apply header_placed |].
  apply Forall_cons; [| apply Forall_nil].
  apply every_Host; [constructor |].
  apply Forall_cons; [| apply Forall_nil].
  apply every_Host; [constructor |].
  apply Forall_cons.
  { apply every_Host; [constructor |].
    repeat (apply Forall_cons || apply Forall_nil).
    - apply initial_card_placed.
    - apply second_card_placed.
    - apply approved_card_placed. }
  apply Forall_cons; [| apply Forall_nil].
  apply every_Host; [constructor |].
  apply Forall_cons; [apply chat_card_placed | apply Forall_nil].
Qed.

End OrderViewControls.

Lemma controls_listener (c : control) (ps : list prop)
  (children : list element) (tag : string) :
  In c (listeners_of ps) -> In c (controls (Host tag ps children)).
Proof. intros H. simpl. apply in_or_app. now left. Qed.

Lemma controls_child_Host (c : control) (e : element) (tag : string)
  (ps : list prop) (children : list element) :
  In e children -> In c (controls e) ->
  In c (controls (Host tag ps children)).
Proof.
  intros He Hc. simpl. apply in_or_app. right.
  apply in_flat_map. now exists e.
Qed.

Lemma controls_child_Comp (c : control) (e : element) (ident : string)
  (ps : list prop) (children : list element) :
  In e children -> In c (controls e) ->
  In c (controls (Comp ident ps children)).
Proof.
  intros He Hc. simpl. apply in_or_app. right.
  apply in_flat_map. now exists e.
Qed.

Lemma send_message_in_view (user : option User) (st : OrderDetail.state) :
  OrderDetail.loading st = false ->
  In send_message_control (controls (OrderDetail.view user st)).
Proof.
  intros Hl. unfold OrderDetail.view. rewrite Hl.
  eapply controls_child_Host; [right; left; reflexivity |].
  eapply controls_child_Host; [left; reflexivity |].
  eapply controls_child_Host; [right; left; reflexivity |].
  eapply controls_child_Host; [left; reflexivity |].
  unfold OrderDetail.chat_card.
  eapply controls_child_Comp; [right; left; reflexivity |].
  eapply controls_child_Comp; [right; left; reflexivity |].
  eapply controls_child_Host; [left; reflexivity |].
  unfold OrderDetail.chat_form. apply controls_listener.
  left. reflexivity.
Qed.

(** Finds a control in the list of a view that is written out. *)
Ltac find_control :=
  vm_compute; repeat first [left; reflexivity | right].

(** C1: in the order view the approve and reject buttons of the
    second stage are enabled exactly when the order's
    [initial_pattern_status] is 'rejected'; with that status absent,
    'approved' or anything else (or with no order loaded) both
    buttons, where they are shown, are disabled. *)
Theorem second_stage_actions_need_initial_rejection
  (user : option User) (st : OrderDetail.state) (c : control)
  (status : value) :
  In c (controls (OrderDetail.view user st)) ->
  c_listener c = call "handleApproval" [VStr "second"; status] ->
     (c_disabled c = false <->
      opt_field initial_pattern_status (OrderDetail.order st) = VStr "rejected")
  /\ (opt_field initial_pattern_status (OrderDetail.order st) <> VStr "rejected"
      -> c_disabled c = true).
Proof.
  intros Hin Hl. apply view_placed in Hin.
  unfold placed in Hin. rewrite Hl in Hin. cbn in Hin.
  destruct status; try discriminate Hin.
  apply andb_prop in Hin. destruct Hin as [_ Hd].
  apply eqb_prop in Hd. rewrite Hd.
  rewrite negb_false_iff, negb_true_iff, seq_str_true, seq_str_false.
  tauto.
Qed.

Lemma second_stage_actions_witness :
  c_disabled (approve_second false) = false <->
  opt_field initial_pattern_status
    (OrderDetail.order (loaded rejected_order)) = VStr "rejected".
Proof.
  apply (@second_stage_actions_need_initial_rejection
           (Some checker) (loaded rejected_order) (approve_second false)
           (VStr "approved")).
  - find_control.
  - reflexivity.
Defined.

(** Where the second-stage buttons are shown: to a user who may
    approve, while the second stage has no status. *)
Lemma second_stage_buttons_shown (user : option User)
  (st : OrderDetail.state) (status : string) :
  OrderDetail.loading st = false ->
  OrderDetail.canApprove user = true ->
  truthy (opt_field second_pattern_status (OrderDetail.order st)) = false ->
  status = "approved" \/ status = "rejected" ->
  exists c,
    In c (controls (OrderDetail.view user st))
    /\ c_listener c = call "handleApproval" [VStr "second"; VStr status].
Proof.
  intros Hl Hc Hs Hst.
  exists {| c_testid := Some [VStr (if (status =? "approved")%string
                                    then "approve-second" else "reject-second")];
            c_event := "onClick";
            c_listener := call "handleApproval" [VStr "second"; VStr status];
            c_disabled :=
              negb (seq_str (opt_field initial_pattern_status
                               (OrderDetail.order st)) "rejected") |}.
  split; [| reflexivity].
  unfold OrderDetail.view. rewrite Hl.
  eapply controls_child_Host; [right; left; reflexivity |].
  eapply controls_child_Host; [left; reflexivity |].
  eapply controls_child_Host; [left; reflexivity |].
  eapply controls_child_Host; [right; left; reflexivity |].
  unfold OrderDetail.second_card.
  eapply controls_child_Comp; [right; left; reflexivity |].
  eapply controls_child_Comp; [right; left; reflexivity |].
  rewrite Hc, Hs. unfold when, js_and. cbn [truthy andb negb].
  destruct Hst as [-> | ->].
  - eapply controls_child_Host; [left; reflexivity |].
    simpl. rewrite orb_false_r. left. reflexivity.
  - eapply controls_child_Host; [right; left; reflexivity |].
    simpl. rewrite orb_false_r. left. reflexivity.
Qed.

(* ================================================================== *)
(** ** Roles and the controls of the order view *)

Lemma orb_true_or (a b : bool) : a || b = true -> a = true \/ b = true.
Proof. destruct a; simpl; auto. Qed.

(** X17: in the order view the controls that upload, approve, reject
    and delete are gated by the role.  The file input
    and upload button of a slot are shown for the initial stage only
    to 'admin' and 'pattern_maker', and for the second and approved
    stages only to 'admin' and 'pattern_checker'; the approve and
    reject buttons only to 'admin' and 'pattern_checker'; the deletion
    of a pattern or of the order only to 'admin'; the image input of
    the chat only to 'admin', 'pattern_maker' and 'pattern_checker'.
    To any other role, 'general_user' included, none of these is
    shown: the one control left to such a role that sends a request
    other than a GET is the form that posts a chat message, which the
    view renders under no test of the role. *)
Theorem order_view_controls_gated_by_role
  (user : option User) (st : OrderDetail.state) :
  (forall c : control,
     In c (controls (OrderDetail.view user st)) ->
     let fn := l_fn (c_listener c) in
     let args := l_args (c_listener c) in
        (fn = "handleFileUpload" \/ fn = "handleFileSelect" ->
         exists stage slot,
           args = [VStr stage; VNum slot]
           /\ (stage = "initial"
               /\ (role_is user "admin" = true
                   \/ role_is user "pattern_maker" = true)
               \/ (stage = "second" \/ stage = "approved")
                  /\ (role_is user "admin" = true
                      \/ role_is user "pattern_checker" = true)))
     /\ (fn = "handleApproval" ->
         role_is user "admin" = true \/ role_is user "pattern_checker" = true)
     /\ (fn = "handleDeletePattern" \/ fn = "handleDeleteOrder" ->
         role_is user "admin" = true)
     /\ (fn = "handleChatImageSelect" ->
         role_is user "admin" = true \/ role_is user "pattern_maker" = true
         \/ role_is user "pattern_checker" = true)
     /\ (OrderDetail.mutating c = true ->
         role_is user "admin" = false ->
         role_is user "pattern_maker" = false ->
         role_is user "pattern_checker" = false ->
         fn = "handleSendMessage"))
  /\ (OrderDetail.loading st = false ->
      In send_message_control (controls (OrderDetail.view user st))
      /\ OrderDetail.mutating send_message_control = true).
Proof.
  split; [| intros Hl; split; [now apply send_message_in_view | reflexivity]].
  intros c Hin. cbv zeta. apply view_placed in Hin.
  unfold placed in Hin.
  assert (Hup : (l_fn (c_listener c) = "handleFileUpload"
                 \/ l_fn (c_listener c) = "handleFileSelect") ->
                upload_placed user (l_args (c_listener c)) = true).
  { intros [E | E]; rewrite E in Hin; exact Hin. }
  assert (Hap : l_fn (c_listener c) = "handleApproval" ->
                approval_placed user st (l_args (c_listener c)) (c_disabled c)
                = true).
  { intros E; rewrite E in Hin; exact Hin. }
  assert (Hdel : (l_fn (c_listener c) = "handleDeletePattern"
                  \/ l_fn (c_listener c) = "handleDeleteOrder") ->
                 OrderDetail.isAdmin user = true).
  { intros [E | E]; rewrite E in Hin; exact Hin. }
  assert (Himg : l_fn (c_listener c) = "handleChatImageSelect" ->
                 OrderDetail.canUploadChatImage user = true).
  { intros E; rewrite E in Hin; exact Hin. }
  clear Hin.
  assert (Gup : (l_fn (c_listener c) = "handleFileUpload"
                 \/ l_fn (c_listener c) = "handleFileSelect") ->
     exists stage slot,
       l_args (c_listener c) = [VStr stage; VNum slot]
       /\ (stage = "initial"
           /\ (role_is user "admin" = true
               \/ role_is user "pattern_maker" = true)
           \/ (stage = "second" \/ stage = "approved")
              /\ (role_is user "admin" = true
                  \/ role_is user "pattern_checker" = true))).
  { intros E. specialize (Hup E). unfold upload_placed in Hup.
    destruct (l_args (c_listener c)) as [| [| | | | stage |] [| [| | | slot | |] [|]]];
      try discriminate Hup.
    exists stage, slot. split; [reflexivity |].
    destruct (String.eqb_spec stage "initial") as [-> | _].
    - left. split; [reflexivity |]. now apply orb_true_or.
    - right. destruct (String.eqb_spec stage "second") as [-> | _].
      + split; [now left |]. now apply orb_true_or.
      + destruct (String.eqb_spec stage "approved") as [-> | _];
          [| discriminate Hup].
        split; [now right |]. now apply orb_true_or. }
  assert (Gap : l_fn (c_listener c) = "handleApproval" ->
     role_is user "admin" = true \/ role_is user "pattern_checker" = true).
  { intros E. specialize (Hap E). unfold approval_placed in Hap.
    destruct (l_args (c_listener c)) as [| [| | | | stage |] [| [| | | | s |] [|]]];
      try discriminate Hap.
    destruct (stage =? "initial")%string;
      [| destruct (stage =? "second")%string; [| discriminate Hap]];
      apply andb_prop in Hap; destruct Hap as [Hap _];
      apply andb_prop in Hap; destruct Hap as [Hap _];
      now apply orb_true_or. }
  assert (Gimg : l_fn (c_listener c) = "handleChatImageSelect" ->
     role_is user "admin" = true \/ role_is user "pattern_maker" = true
     \/ role_is user "pattern_checker" = true).
  { intros E. specialize (Himg E). unfold OrderDetail.canUploadChatImage in Himg.
    apply orb_true_or in Himg. destruct Himg as [Himg | Himg]; [| auto].
    apply orb_true_or in Himg. tauto. }
  split; [exact Gup |]. split; [exact Gap |]. split; [exact Hdel |].
  split; [exact Gimg |].
  intros Hm Ha Hk Hc. unfold OrderDetail.mutating, OrderDetail.request_of in Hm.
  destruct (String.eqb_spec (l_fn (c_listener c)) "handleFileUpload") as [E | _].
  { destruct (Gup (or_introl E)) as (? & ? & _ & [[_ [H | H]] | [_ [H | H]]]);
      congruence. }
  destruct (String.eqb_spec (l_fn (c_listener c)) "handleDeletePattern") as [E | _].
  { specialize (Hdel (or_introl E)). unfold OrderDetail.isAdmin in Hdel.
    congruence. }
  destruct (String.eqb_spec (l_fn (c_listener c)) "handleDownload") as [E | _];
    [discriminate Hm |].
  destruct (String.eqb_spec (l_fn (c_listener c)) "handleApproval") as [E | _].
  { destruct (Gap E); congruence. }
  destruct (String.eqb_spec (l_fn (c_listener c)) "handleSendMessage") as [E | _];
    [exact E |].
  destruct (String.eqb_spec (l_fn (c_listener c)) "handleDeleteOrder") as [E | _];
    [| discriminate Hm].
  specialize (Hdel (or_intror E)). unfold OrderDetail.isAdmin in Hdel.
  congruence.
Qed.

(** C4: the claim fails on the code at the role 'general_user'.  The
    admin panel describes that role as 'View-only access to orders
    and chat', and yet the order view shows such a user the form that
    posts a chat message: a control that changes data on the server,
    whose submission sends [POST /orders/:id/chat].  So not every
    mutating control of the view is gated by the role. *)
Theorem general_user_can_post_messages :
     In ("General User", "View-only access to orders and chat")
       AdminPanel.role_descriptions
  /\ role_is (Some viewer) "general_user" = true
  /\ In send_message_control
       (controls (OrderDetail.view (Some viewer) (loaded rejected_order)))
  /\ OrderDetail.mutating send_message_control = true
  /\ filter is_request
       (trace (OrderDetail.handleSendMessage (VStr "o-2") (Resolved tt))
          (state_after (OrderDetail.setChatMessage "Looks fine")
             (loaded rejected_order)))
     = [Request POST [VStr "/orders/"; VStr "o-2"; VStr "/chat"]]
  /\ ~ (forall c : control,
          In c (controls (OrderDetail.view (Some viewer)
                            (loaded rejected_order))) ->
          OrderDetail.mutating c = false).
Proof.
  assert (Hin : In send_message_control
                  (controls (OrderDetail.view (Some viewer)
                               (loaded rejected_order))))
    by (apply send_message_in_view; reflexivity).
  split; [simpl; tauto |]. split; [reflexivity |].
  split; [exact Hin |]. split; [reflexivity |].
  split; [vm_compute; reflexivity |].
  intros H. specialize (H send_message_control Hin). discriminate H.
Qed.

(** All that a 'general_user' can do in the view of that order. *)
Example general_user_controls :
  map (fun c => l_fn (c_listener c))
    (controls (OrderDetail.view (Some viewer) (loaded rejected_order)))
  = ["navigate"; "handleSendMessage"; "setChatMessage"].
Proof. vm_compute. reflexivity. Qed.

(* ================================================================== *)
(** ** The badges of the three stages *)

Lemma stage_badges_status (date status : value) :
  existsb is_status_badge (stage_badges date status) = truthy status.
Proof.
  unfold stage_badges.
  destruct (truthy date), (truthy status); simpl;
    try reflexivity; destruct (seq_str status "approved"); reflexivity.
Qed.

Lemma stage_badges_date (date status : value) :
  existsb is_date_badge (stage_badges date status) = truthy date.
Proof.
  unfold stage_badges.
  destruct (truthy date), (truthy status); simpl;
    try reflexivity; destruct (seq_str status "approved"); reflexivity.
Qed.

Section StageBadges.
Import OrderDetail.

Variable user : option User.
Variable st : state.

Lemma badges_pattern_slot (stage : string) (ps : list Pattern)
  (canUpload : bool) (slot : Z) :
  badges (pattern_slot user st stage ps canUpload slot) = [].
Proof.
  unfold pattern_slot, when, js_and, fragment.
  destruct (find (in_slot slot) ps); simpl.
  - destruct (isAdmin user); reflexivity.
  - destruct canUpload; simpl; [| reflexivity].
    destruct (truthy (selected (selectedFiles st) stage slot)); reflexivity.
Qed.

Lemma badges_renderPatternSlots (stage : string) (ps : list Pattern)
  (canUpload : bool) :
  badges (renderPatternSlots user st stage ps canUpload) = [].
Proof.
  unfold renderPatternSlots. cbn [badges map flat_map].
  now rewrite !badges_pattern_slot.
Qed.

Lemma badges_when_buttons (cond : bool) (e : element) :
  badges e = [] -> badges (when cond e) = [].
Proof. intros H. unfold when, js_and. now destruct cond. Qed.

Lemma badges_initial_card :
  badges (initial_card user st)
  = stage_badges (opt_field initial_pattern_date (order st))
      (opt_field initial_pattern_status (order st)).
Proof.
  unfold initial_card, initial_badges.
  cbn [badges flat_map String.eqb Ascii.eqb Bool.eqb app].
  rewrite badges_renderPatternSlots, badges_when_buttons by reflexivity.
  unfold stage_badges, js_and.
  destruct (truthy (opt_field initial_pattern_date (order st))),
    (truthy (opt_field initial_pattern_status (order st))); reflexivity.
Qed.

Lemma badges_second_card :
  badges (second_card user st)
  = stage_badges (opt_field second_pattern_date (order st))
      (opt_field second_pattern_status (order st)).
Proof.
  unfold second_card, second_badges.
  cbn [badges flat_map String.eqb Ascii.eqb Bool.eqb app].
  rewrite badges_renderPatternSlots, badges_when_buttons by reflexivity.
  unfold stage_badges, js_and.
  destruct (truthy (opt_field second_pattern_date (order st))),
    (truthy (opt_field second_pattern_status (order st))); reflexivity.
Qed.

Lemma badges_approved_card :
  badges (approved_card user st)
  = stage_badges (opt_field approved_pattern_date (order st))
      (opt_field approved_pattern_status (order st)).
Proof.
  unfold approved_card, approved_badges.
  cbn [badges flat_map String.eqb Ascii.eqb Bool.eqb app].
  rewrite badges_renderPatternSlots.
  unfold stage_badges, js_and.
  destruct (truthy (opt_field approved_pattern_date (order st))),
    (truthy (opt_field approved_pattern_status (order st))); reflexivity.
Qed.

Lemma badges_chat_bubble (chat : Chat) : badges (chat_bubble user chat) = [].
Proof.
  unfold chat_bubble, js_and.
  destruct (truthy (quoted_message_text chat)), (truthy (image_id chat));
    reflexivity.
Qed.

Lemma flat_map_nil {A B : Type} (f : A -> list B) (l : list A) :
  (forall x, f x = []) -> flat_map f l = [].
Proof.
  intros H. induction l as [| x t IH]; simpl; [reflexivity |].
  now rewrite H, IH.
Qed.

Lemma badges_chat_card : badges (chat_card user st) = [].
Proof.
  unfold chat_card, chat_form, when, js_and.
  cbn [badges flat_map String.eqb Ascii.eqb Bool.eqb app].
  rewrite flat_map_concat_map, map_map, <- flat_map_concat_map.
  rewrite (flat_map_nil _ _ badges_chat_bubble).
  destruct (quotedMessage st), (canUploadChatImage user); simpl;
    try reflexivity;
    destruct (truthy (chatImagePreview st)); reflexivity.
Qed.

Lemma badges_header : badges (header user st) = [].
Proof. unfold header, when, js_and. destruct (isAdmin user); reflexivity. Qed.

(** The badges of the view are those of the three cards, in order. *)
Lemma badges_view :
  badges (view user st)
  = if loading st then []
    else badges (initial_card user st) ++ badges (second_card user st)
         ++ badges (approved_card user st).
Proof.
  unfold view. destruct (loading st); [reflexivity |].
  cbn [badges flat_map].
  rewrite badges_header, badges_chat_card. cbn [app].
  now rewrite !app_nil_r.
Qed.

End StageBadges.

(** C6: for every loaded order, whose statuses are absent, 'approved'
    or 'rejected' and whose dates are absent or timestamps, each of
    the three stage cards shows its status badge if and only if the
    status field of that stage is present, and its date badge if and
    only if the date field of that stage is present; these are all the
    badges of the view; and the badges of a stage are a function of
    the status and date fields of that stage alone, whatever the other
    fields, the rest of the state or the user. *)
Theorem stage_badges_follow_own_fields
  (user : option User) (st : OrderDetail.state) (o : Order)
  (Hloaded : OrderDetail.order st = Some o)
  (Hstatuses : stage_statuses o = true)
  (Hdates : stage_dates o = true) :
     existsb is_status_badge (badges (OrderDetail.initial_card user st))
     = present (initial_pattern_status o)
  /\ existsb is_date_badge (badges (OrderDetail.initial_card user st))
     = present (initial_pattern_date o)
  /\ existsb is_status_badge (badges (OrderDetail.second_card user st))
     = present (second_pattern_status o)
  /\ existsb is_date_badge (badges (OrderDetail.second_card user st))
     = present (second_pattern_date o)
  /\ existsb is_status_badge (badges (OrderDetail.approved_card user st))
     = present (approved_pattern_status o)
  /\ existsb is_date_badge (badges (OrderDetail.approved_card user st))
     = present (approved_pattern_date o)
  /\ badges (OrderDetail.view user st)
     = (if OrderDetail.loading st then []
        else badges (OrderDetail.initial_card user st)
             ++ badges (OrderDetail.second_card user st)
             ++ badges (OrderDetail.approved_card user st))
  /\ (forall (user' : option User) (st' : OrderDetail.state),
        let o' := OrderDetail.order st' in
           (opt_field initial_pattern_status o' = initial_pattern_status o ->
            opt_field initial_pattern_date o' = initial_pattern_date o ->
            badges (OrderDetail.initial_card user' st')
            = badges (OrderDetail.initial_card user st))
        /\ (opt_field second_pattern_status o' = second_pattern_status o ->
            opt_field second_pattern_date o' = second_pattern_date o ->
            badges (OrderDetail.second_card user' st')
            = badges (OrderDetail.second_card user st))
        /\ (opt_field approved_pattern_status o' = approved_pattern_status o ->
            opt_field approved_pattern_date o' = approved_pattern_date o ->
            badges (OrderDetail.approved_card user' st')
            = badges (OrderDetail.approved_card user st))).
Proof.
  destruct (stage_statuses_inv _ Hstatuses) as (S1 & S2 & S3).
  destruct (stage_dates_inv _ Hdates) as (D1 & D2 & D3).
  cbv zeta.
  rewrite badges_view, !badges_initial_card, !badges_second_card,
    !badges_approved_card, !stage_badges_status, !stage_badges_date.
  rewrite Hloaded. cbn [opt_field].
  rewrite (stage_status_truthy _ S1), (stage_status_truthy _ S2),
    (stage_status_truthy _ S3), (stage_date_truthy _ D1),
    (stage_date_truthy _ D2), (stage_date_truthy _ D3).
  repeat split; try reflexivity;
    intros Hs Hd;
    rewrite ?badges_initial_card, ?badges_second_card, ?badges_approved_card,
      Hs, Hd; reflexivity.
Qed.

(** The card of the initial stage of a rejected order shows its status
    badge, and the card of the second stage, not yet reviewed, none. *)
Lemma stage_badges_witness :
     existsb is_status_badge
       (badges (OrderDetail.initial_card (Some checker) (loaded rejected_order)))
     = present (initial_pattern_status rejected_order)
  /\ existsb is_status_badge
       (badges (OrderDetail.second_card (Some checker) (loaded rejected_order)))
     = present (second_pattern_status rejected_order).
Proof.
  destruct (@stage_badges_follow_own_fields (Some checker)
              (loaded rejected_order) rejected_order
              eq_refl eq_refl eq_refl)
    as (H1 & _ & H3 & _).
  split; [exact H1 | exact H3].
Defined.

(** The badges of the order of the examples: the date and the
    rejection of the initial stage, and nothing for the other two. *)
Example rejected_order_badges :
  badges (OrderDetail.view (Some checker) (loaded rejected_order))
  = [ Comp "Badge" [Variant "secondary"] [Txt (VStr "2024-03-10T15:00:00Z")];
      Comp "Badge" [Variant "destructive"] [Txt (VStr "rejected")] ].
Proof. vm_compute. reflexivity. Qed.

(* ================================================================== *)
(** * Further properties of the code *)

(** ** The suppression of ResizeObserver errors *)

Section Suppression.
Import Index.

Lemma prefix_app_l (p q s : string) :
  String.prefix (p ++ q)%string s = true -> String.prefix p s = true.
Proof.
  revert s. induction p as [| a p IH]; intros s H; [now destruct s |].
  destruct s as [| b s]; simpl in *; [discriminate |].
  destruct (Ascii.ascii_dec a b); [now apply IH | discriminate].
Qed.

Lemma contains_app_l (p q s : string) :
  contains (p ++ q)%string s = true -> contains p s = true.
Proof.
  induction s as [| b s IH]; cbn [contains]; intros H.
  - rewrite orb_false_r in *. now apply prefix_app_l with (q := q).
  - apply orb_true_iff in H. apply orb_true_iff. destruct H as [H | H].
    + left. now apply prefix_app_l with (q := q).
    + right. now apply IH.
Qed.

Lemma prefix_canonicalize (p s : string) :
  String.prefix p s = true ->
  String.prefix (canonicalize p) (canonicalize s) = true.
Proof.
  revert s. induction p as [| a p IH]; intros s H; [now destruct s |].
  destruct s as [| b s]; simpl in *; [discriminate |].
  destruct (Ascii.ascii_dec a b) as [-> | _]; [| discriminate].
  destruct (Ascii.ascii_dec (canonical b) (canonical b)); [| congruence].
  now apply IH.
Qed.

Lemma contains_canonicalize (p s : string) :
  contains p s = true -> contains (canonicalize p) (canonicalize s) = true.
Proof.
  induction s as [| b s IH]; cbn [contains canonicalize]; intros H.
  - rewrite orb_false_r in *. now apply (prefix_canonicalize p EmptyString).
  - apply orb_true_iff in H. apply orb_true_iff. destruct H as [H | H].
    + left. now apply (prefix_canonicalize p (String b s)).
    + right. now apply IH.
Qed.

Lemma comprehensive_matches_loop (s : string) :
  Comprehensive.resizeObserverError s
  = contains (canonicalize loop) (canonicalize s).
Proof.
  unfold Comprehensive.resizeObserverError.
  destruct (contains (canonicalize undelivered) (canonicalize s)) eqn:E;
    [| apply orb_false_r].
  change (canonicalize undelivered)
    with (canonicalize loop
          ++ canonicalize " completed with undelivered notifications")%string
    in E.
  apply contains_app_l in E. now rewrite E.
Qed.

(** X1: the second alternative of the comprehensive pattern never decides
    a match: the pattern accepts exactly the strings in which
    'ResizeObserver loop' occurs, letter case aside; so it accepts
    every string the pattern of the earlier versions accepts, and
    some that one rejects. *)
Theorem comprehensive_pattern_is_loop_ignoring_case :
     (forall s : string,
        Comprehensive.resizeObserverError s
        = contains (canonicalize loop) (canonicalize s))
  /\ (forall s : string,
        Plain.resizeObserverError s = true ->
        Comprehensive.resizeObserverError s = true)
  /\ Comprehensive.resizeObserverError "resizeobserver LOOP limit exceeded"
     = true
  /\ Plain.resizeObserverError "resizeobserver LOOP limit exceeded" = false.
Proof.
  split; [exact comprehensive_matches_loop |]. split; [| split; reflexivity].
  intros s Hs. rewrite comprehensive_matches_loop.
  now apply contains_canonicalize.
Qed.

Lemma tested_string_inv (test : string -> bool) (x : option thrown) :
  tested_string test x = true -> exists s, x = Some (TStr s) /\ test s = true.
Proof.
  destruct x as [[s | m] |]; simpl; try discriminate. intros H. now exists s.
Qed.

Lemma tested_inv (test : string -> bool) (m : option string) :
  tested test m = true -> exists s, m = Some s /\ test s = true.
Proof. destruct m as [s |]; simpl; try discriminate. intros H. now exists s. Qed.

(** X2: in the comprehensive version nothing is suppressed that does not
    name the ResizeObserver loop: a call of [console.error] is logged
    with its arguments as they are unless its first argument is a
    string, or carries a message, matching the pattern; an error the
    wrapped callback of a ResizeObserver throws is thrown on as it is
    unless its message matches; [window.onerror] answers as the
    earlier handler would (false without one) unless the message or
    the error's message matches. *)
Theorem suppression_confined_to_loop_errors :
     (forall args : list thrown,
        match Comprehensive.console_error args with
        | Some logged => logged = args
        | None =>
            exists s,
              (hd_error args = Some (TStr s)
               \/ hd_error args = Some (TObj (Some s)))
              /\ contains (canonicalize loop) (canonicalize s) = true
        end)
  /\ (forall outcome : option thrown,
        match Comprehensive.observer_callback outcome with
        | Some e => outcome = Some e
        | None =>
            outcome = None
            \/ exists s,
                 outcome = Some (TObj (Some s))
                 /\ contains (canonicalize loop) (canonicalize s) = true
        end)
  /\ (forall (message : thrown) (error : option thrown)
             (original : option bool),
        Comprehensive.onerror message error original
        = match original with Some answer => answer | None => false end
        \/ exists s,
             (message = TStr s \/ error = Some (TObj (Some s)))
             /\ contains (canonicalize loop) (canonicalize s) = true).
Proof.
  pose proof comprehensive_matches_loop as Hp.
  split; [| split].
  - intros args. unfold Comprehensive.console_error. cbv zeta.
    destruct (tested_string _ _) eqn:E1; simpl.
    { apply tested_string_inv in E1. destruct E1 as (s & -> & Hs).
      exists s. rewrite <- Hp. auto. }
    destruct (tested _ _) eqn:E2; [| reflexivity].
    apply tested_inv in E2. destruct E2 as (s & Hm & Hs).
    exists s. rewrite <- Hp. split; [| exact Hs]. right.
    destruct (hd_error args) as [[| m] |]; simpl in Hm; try discriminate.
    now subst m.
  - intros [e |]; simpl; [| now left].
    destruct (tested _ _) eqn:E; simpl; [| reflexivity].
    right. apply tested_inv in E. destruct E as (s & Hm & Hs).
    exists s. rewrite <- Hp. split; [| exact Hs].
    destruct e as [| m]; simpl in Hm; try discriminate. now subst m.
  - intros message error original. unfold Comprehensive.onerror.
    destruct (tested_string _ _) eqn:E1; simpl.
    { right. apply tested_string_inv in E1. destruct E1 as (s & Hm & Hs).
      exists s. rewrite <- Hp. injection Hm as ->. auto. }
    destruct (tested _ _) eqn:E2; [| now left].
    right. apply tested_inv in E2. destruct E2 as (s & Hm & Hs).
    exists s. rewrite <- Hp. split; [| exact Hs]. right.
    destruct error as [[| m] |]; simpl in Hm; try discriminate. now subst m.
Qed.

End Suppression.

(* ================================================================== *)
(** ** What the handlers do to the state *)

Section HandlerStates.

Variable orderId : value.

(** X3: however a fetch settles, the loading state ends; and when it
    fails, what was shown before stays: the orders (emptied only by
    a 403), the users, the metrics, and the order with its patterns
    and chat. *)
Theorem failed_fetch_keeps_what_is_shown :
     (forall r st,
        Dashboard.loading (state_after (Dashboard.fetchOrders r) st) = false)
  /\ (forall r st,
        Orders.loading (state_after (Orders.fetchOrders r) st) = false)
  /\ (forall r st,
        AdminPanel.loading (state_after (AdminPanel.fetchUsers r) st) = false)
  /\ (forall r st,
        NewDashboard.loading (state_after (NewDashboard.fetchMetrics r) st)
        = false)
  /\ (forall r st,
        OrderDetail.loading
          (state_after (OrderDetail.fetchOrderData orderId r) st) = false)
  /\ (forall r st,
        Login.loading (state_after (Login.handleSubmit r) st) = false)
  /\ (forall e st,
        Dashboard.orders (state_after (Dashboard.fetchOrders (Rejected e)) st)
        = if status_is e 403 then [] else Dashboard.orders st)
  /\ (forall e st,
        Orders.allOrders (state_after (Orders.fetchOrders (Rejected e)) st)
        = if status_is e 403 then [] else Orders.allOrders st)
  /\ (forall e st,
        AdminPanel.users (state_after (AdminPanel.fetchUsers (Rejected e)) st)
        = AdminPanel.users st)
  /\ (forall e st,
        NewDashboard.metrics
          (state_after (NewDashboard.fetchMetrics (Rejected e)) st)
        = NewDashboard.metrics st)
  /\ (forall e st,
        let st' :=
          state_after (OrderDetail.fetchOrderData orderId (Rejected e)) st in
           OrderDetail.order st' = OrderDetail.order st
        /\ OrderDetail.patterns st' = OrderDetail.patterns st
        /\ OrderDetail.chats st' = OrderDetail.chats st).
Proof.
  repeat split; intros;
    try (destruct r as [d | e]; try destruct d as [[? ?] ?];
         cbv [state_after Dashboard.fetchOrders Orders.fetchOrders
              try_catch bind fst snd];
         try destruct (status_is e 403); reflexivity);
    cbv [state_after Dashboard.fetchOrders Orders.fetchOrders
         try_catch bind fst snd];
    try destruct (status_is e 403); reflexivity.
Qed.

(** [trim] removes the white space of Unicode at both ends, and only
    there. *)
Example trim_both_ends :
  OrderDetail.trim
    (OrderDetail.utf8 160 ++ "  a b" ++ OrderDetail.utf8 12288
     ++ OrderDetail.utf8 65279)%string
  = "a b".
Proof. vm_compute. reflexivity. Qed.

(** Every code point [trim] removes makes a blank message; a
    zero-width space (U+200B) and a next-line control (U+0085), which
    [trim] keeps, do not. *)
Example white_space_is_blank :
     forallb (fun c => OrderDetail.blank (OrderDetail.utf8 c))
       OrderDetail.white_space = true
  /\ OrderDetail.blank (OrderDetail.utf8 8203) = false
  /\ OrderDetail.blank (OrderDetail.utf8 133) = false.
Proof. vm_compute. repeat split. Qed.

(** A message of no-break and ideographic spaces is blank, and with no
    image attached it is not sent. *)
Example spaces_only_message :
  let msg := (OrderDetail.utf8 160 ++ OrderDetail.utf8 12288)%string in
     OrderDetail.blank msg = true
  /\ OrderDetail.handleSendMessage (VStr "o-2") (Resolved tt)
       (state_after (OrderDetail.setChatMessage msg) (loaded rejected_order))
     = (tt, state_after (OrderDetail.setChatMessage msg) (loaded rejected_order),
        []).
Proof. vm_compute. split; reflexivity. Qed.

(** X4: an action that is declined, or has nothing to send, never
    reaches the server and changes nothing: a deletion or an approval
    whose confirmation is declined does nothing at all; an upload
    with no file chosen only shows 'Please select a file'; a message
    that [trim] leaves empty, with no image attached, is not sent.
    Any other message is sent by one POST. *)
Theorem declined_actions_send_nothing
  (patternId : value) (stage status : string) (slot : Z) :
     (forall r st,
        OrderDetail.handleDeletePattern false patternId r st = (tt, st, []))
  /\ (forall r st,
        OrderDetail.handleApproval orderId false stage status r st
        = (tt, st, []))
  /\ (forall r st,
        OrderDetail.handleDeleteOrder orderId false r st = (tt, st, []))
  /\ (forall r st,
        OrderDetail.handleFileUpload orderId None stage slot r st
        = (tt, st, [ToastError (VStr "Please select a file")]))
  /\ (forall r st,
        OrderDetail.blank (OrderDetail.chatMessage st) = true ->
        OrderDetail.chatImage st = None ->
        OrderDetail.handleSendMessage orderId r st = (tt, st, []))
  /\ (forall r st,
        OrderDetail.blank (OrderDetail.chatMessage st) = false
        \/ OrderDetail.chatImage st <> None ->
        filter is_request (trace (OrderDetail.handleSendMessage orderId r) st)
        = [Request POST [VStr "/orders/"; orderId; VStr "/chat"]]).
Proof.
  repeat split; try reflexivity.
  - intros r st Hb Hi. unfold OrderDetail.handleSendMessage.
    now rewrite Hb, Hi.
  - intros r st H. unfold OrderDetail.handleSendMessage, trace.
    destruct (OrderDetail.blank (OrderDetail.chatMessage st)) eqn:Hb;
      destruct (OrderDetail.chatImage st) eqn:Hi; simpl;
      try (destruct H; congruence);
      destruct r; reflexivity.
Qed.

(** X5: the chat poll touches nothing but the list of messages: however
    it settles, the order, the patterns, the message being written,
    the image and the quotation attached to it and the files chosen
    for upload stay as they are; when it fails the list stays too
    and nothing is shown. *)
Theorem chat_poll_leaves_the_rest_alone
  (r : api_result (list Chat)) (st : OrderDetail.state) :
  let st' := state_after (OrderDetail.fetchChats orderId r) st in
     OrderDetail.order st' = OrderDetail.order st
  /\ OrderDetail.patterns st' = OrderDetail.patterns st
  /\ OrderDetail.loading st' = OrderDetail.loading st
  /\ OrderDetail.chatMessage st' = OrderDetail.chatMessage st
  /\ OrderDetail.chatImage st' = OrderDetail.chatImage st
  /\ OrderDetail.chatImagePreview st' = OrderDetail.chatImagePreview st
  /\ OrderDetail.quotedMessage st' = OrderDetail.quotedMessage st
  /\ OrderDetail.selectedFiles st' = OrderDetail.selectedFiles st
  /\ OrderDetail.chats st'
     = match r with Resolved data => data | Rejected _ => OrderDetail.chats st end
  /\ filter is_toast (trace (OrderDetail.fetchChats orderId r) st) = [].
Proof. destruct r; repeat split. Qed.

(** X6: a submission that fails loses nothing the user entered: after
    a rejected chat message the text, the image and the quotation are
    still there, after a rejected order creation the dialog is as it
    was with the form as filled in, and after a rejected upload the
    chosen files are still chosen.  Only a message that was accepted
    clears the composer, and then the chat is fetched again; a
    message is sent when [trim] leaves some of it. *)
Theorem failed_submission_keeps_the_draft
  (stage : string) (slot : Z) (file : string) (e : axios_error) :
     (forall st,
        state_after (OrderDetail.handleSendMessage orderId (Rejected e)) st
        = st)
  /\ (forall st,
        state_after (Dashboard.createOrder (Rejected e)) st = st)
  /\ (forall st, state_after (Orders.createOrder (Rejected e)) st = st)
  /\ (forall st,
        state_after
          (OrderDetail.handleFileUpload orderId (Some file) stage slot
             (Rejected e)) st = st)
  /\ (forall st,
        OrderDetail.blank (OrderDetail.chatMessage st) = false ->
        let st' :=
          state_after (OrderDetail.handleSendMessage orderId (Resolved tt)) st in
           OrderDetail.chatMessage st' = ""
        /\ OrderDetail.chatImage st' = None
        /\ OrderDetail.quotedMessage st' = None
        /\ OrderDetail.chats st' = OrderDetail.chats st
        /\ filter is_call
             (trace (OrderDetail.handleSendMessage orderId (Resolved tt)) st)
           = [Call "fetchChats"]).
Proof.
  repeat split; try (intros st; destruct st; reflexivity).
  - intros st. unfold OrderDetail.handleSendMessage, state_after.
    destruct (_ && _); destruct st; reflexivity.
  - unfold OrderDetail.handleSendMessage, state_after. now rewrite H.
  - unfold OrderDetail.handleSendMessage, state_after. now rewrite H.
  - unfold OrderDetail.handleSendMessage, state_after. now rewrite H.
  - unfold OrderDetail.handleSendMessage, state_after. now rewrite H.
  - unfold OrderDetail.handleSendMessage, trace. now rewrite H.
Qed.

End HandlerStates.

(* ================================================================== *)
(** ** The files chosen for upload *)

Section ChosenFiles.
Import OrderDetail.

Lemma same_key_true (stage : string) (slot : Z) (e : string * Z * string) :
  same_key stage slot e = true <-> fst e = (stage, slot).
Proof.
  destruct e as [[s n] v]. unfold same_key. simpl.
  rewrite andb_true_iff, String.eqb_eq, Z.eqb_eq.
  split; [intros [-> ->]; reflexivity | intros H; injection H; auto].
Qed.

Lemma same_key_other (stage stage' : string) (slot slot' : Z) (v : string) :
  stage' <> stage \/ slot' <> slot ->
  same_key stage' slot' (stage, slot, v) = false.
Proof.
  intros H. destruct (same_key stage' slot' (stage, slot, v)) eqn:E;
    [| reflexivity].
  apply same_key_true in E. simpl in E. injection E as -> ->. tauto.
Qed.

Lemma find_select_same (stage : string) (slot : Z) (name : string)
  (files : list (string * Z * string)) :
  find (same_key stage slot) (select stage slot name files)
  = Some (stage, slot, name).
Proof.
  assert (Hk : same_key stage slot (stage, slot, name) = true)
    by (apply same_key_true; reflexivity).
  unfold select. destruct (existsb (same_key stage slot) files) eqn:E.
  - induction files as [| e t IH]; [discriminate |]. simpl in *.
    destruct (same_key stage slot e) eqn:Ee; [now rewrite Hk |].
    rewrite Ee. now apply IH.
  - induction files as [| e t IH]; simpl in *; [now rewrite Hk |].
    apply orb_false_iff in E. destruct E as [Ee Et]. rewrite Ee. now apply IH.
Qed.

Lemma find_select_other (stage stage' : string) (slot slot' : Z)
  (name : string) (files : list (string * Z * string)) :
  stage' <> stage \/ slot' <> slot ->
  find (same_key stage' slot') (select stage slot name files)
  = find (same_key stage' slot') files.
Proof.
  intros Hne.
  pose proof (same_key_other name Hne) as Hk.
  unfold select. destruct (existsb (same_key stage slot) files).
  - induction files as [| e t IH]; [reflexivity |]. simpl.
    destruct (same_key stage slot e) eqn:Ee.
    + rewrite Hk.
      assert (He : same_key stage' slot' e = false).
      { destruct e as [[s n] v]. apply same_key_true in Ee. simpl in Ee.
        injection Ee as -> ->. now apply same_key_other. }
      now rewrite He.
    + destruct (same_key stage' slot' e); [reflexivity | exact IH].
  - induction files as [| e t IH]; simpl; [now rewrite Hk |].
    destruct (same_key stage' slot' e); [reflexivity | exact IH].
Qed.

Lemma find_unselect_same (stage : string) (slot : Z)
  (files : list (string * Z * string)) :
  find (same_key stage slot) (unselect stage slot files) = None.
Proof.
  unfold unselect. induction files as [| e t IH]; [reflexivity |]. simpl.
  destruct (same_key stage slot e) eqn:Ee; simpl; [exact IH |].
  now rewrite Ee.
Qed.

Lemma find_unselect_other (stage stage' : string) (slot slot' : Z)
  (files : list (string * Z * string)) :
  stage' <> stage \/ slot' <> slot ->
  find (same_key stage' slot') (unselect stage slot files)
  = find (same_key stage' slot') files.
Proof.
  intros Hne. unfold unselect.
  induction files as [| e t IH]; [reflexivity |]. simpl.
  destruct (same_key stage slot e) eqn:Ee; simpl.
  - assert (He : same_key stage' slot' e = false).
    { destruct e as [[s n] v]. apply same_key_true in Ee. simpl in Ee.
      injection Ee as -> ->. now apply same_key_other. }
    now rewrite He.
  - destruct (same_key stage' slot' e); [reflexivity | exact IH].
Qed.

Variable orderId : value.

(** X7: choosing a file for a slot makes that slot show its name and
    leaves the names chosen for all other slots as they were; once
    the upload of the slot has succeeded its name is gone, again with
    no effect on the other slots; and a file dialog that is
    cancelled changes nothing. *)
Theorem chosen_file_shown_until_uploaded
  (stage stage' : string) (slot slot' : Z) (name : string) (st : state) :
  let chosen := state_after (handleFileSelect (Some name) stage slot) st in
  let uploaded :=
    state_after
      (handleFileUpload orderId (Some name) stage slot (Resolved tt)) chosen in
     selected (selectedFiles chosen) stage slot = VStr name
  /\ selected (selectedFiles uploaded) stage slot = VUndefined
  /\ (stage' <> stage \/ slot' <> slot ->
         selected (selectedFiles chosen) stage' slot'
         = selected (selectedFiles st) stage' slot'
      /\ selected (selectedFiles uploaded) stage' slot'
         = selected (selectedFiles st) stage' slot')
  /\ state_after (handleFileSelect None stage slot) st = st.
Proof.
  cbv zeta.
  change (selectedFiles
            (state_after (handleFileSelect (Some name) stage slot) st))
    with (select stage slot name (selectedFiles st)).
  change (selectedFiles
            (state_after
               (handleFileUpload orderId (Some name) stage slot (Resolved tt))
               (state_after (handleFileSelect (Some name) stage slot) st)))
    with (unselect stage slot (select stage slot name (selectedFiles st))).
  unfold selected.
  rewrite find_select_same, find_unselect_same.
  split; [reflexivity |]. split; [reflexivity |]. split; [| reflexivity].
  intros Hne. split.
  - now rewrite find_select_other.
  - now rewrite find_unselect_other, find_select_other.
Qed.

End ChosenFiles.

(* ================================================================== *)
(** ** The slots of a stage *)

Section PatternSlots.
Import OrderDetail.

Variable user : option User.
Variable st : state.
Variable stage : string.
Variable stagePatterns : list Pattern.
Variable canUpload : bool.

Let fns (e : element) : list string :=
  map (fun c => l_fn (c_listener c)) (controls e).

Lemma pattern_slot_fns (slot : Z) :
  fns (pattern_slot user st stage stagePatterns canUpload slot)
  = match find (in_slot slot) stagePatterns with
    | Some _ =>
        "handleDownload"
        :: (if isAdmin user then ["handleDeletePattern"] else [])
    | None =>
        if canUpload then ["handleFileSelect"; "handleFileUpload"] else []
    end.
Proof.
  unfold fns, pattern_slot, when, js_and, fragment.
  destruct (find (in_slot slot) stagePatterns); simpl.
  - destruct (isAdmin user); reflexivity.
  - destruct canUpload; simpl; [| reflexivity].
    destruct (truthy (selected (selectedFiles st) stage slot)); reflexivity.
Qed.

Lemma find_in_slot (slot : Z) (p : Pattern) :
  find (in_slot slot) stagePatterns = Some p ->
  In p stagePatterns /\ OrderDetail.in_slot slot p = true.
Proof. apply find_some. Qed.

(** X8: a stage shows the five slots 1 to 5.  A slot that holds a pattern
    offers its download, to an admin its deletion too, and never an
    upload; an empty slot offers the upload to a user who may upload
    and nothing to the others.  So a pattern can only be downloaded
    when its slot is one of 1 to 5, and it is the first of its
    slot. *)
Theorem slot_offers_download_or_upload :
     controls (renderPatternSlots user st stage stagePatterns canUpload)
     = flat_map
         (fun slot =>
            controls (pattern_slot user st stage stagePatterns canUpload slot))
         [1; 2; 3; 4; 5]
  /\ (forall slot : Z,
        map (fun c => l_fn (c_listener c))
          (controls (pattern_slot user st stage stagePatterns canUpload slot))
        = match find (in_slot slot) stagePatterns with
          | Some _ =>
              "handleDownload"
              :: (if isAdmin user then ["handleDeletePattern"] else [])
          | None =>
              if canUpload then ["handleFileSelect"; "handleFileUpload"]
              else []
          end)
  /\ (forall c : control,
        In c (controls
                (renderPatternSlots user st stage stagePatterns canUpload)) ->
        l_fn (c_listener c) = "handleDownload" ->
        exists (slot : Z) (p : Pattern),
          In slot [1; 2; 3; 4; 5]
          /\ find (in_slot slot) stagePatterns = Some p
          /\ in_slot slot p = true
          /\ l_args (c_listener c) = [pattern_id p; filename p]).
Proof.
  split; [| split].
  - unfold renderPatternSlots.
    cbn [controls listeners_of flat_map map app]. reflexivity.
  - exact pattern_slot_fns.
  - intros c Hin Hfn. unfold renderPatternSlots in Hin.
    cbn [controls listeners_of flat_map app] in Hin.
    apply in_flat_map in Hin. destruct Hin as (e & He & Hc).
    apply in_map_iff in He. destruct He as (slot & <- & Hslot).
    exists slot. unfold pattern_slot, when, js_and, fragment in Hc.
    destruct (find (in_slot slot) stagePatterns) as [p |] eqn:Ef.
    + exists p. split; [exact Hslot |]. split; [reflexivity |].
      split; [now apply find_in_slot |].
      destruct (isAdmin user); simpl in Hc;
        repeat (destruct Hc as [<- | Hc]; [try reflexivity; discriminate Hfn |]);
        destruct Hc.
    + exfalso.
      destruct canUpload; simpl in Hc; [| destruct Hc].
      destruct (truthy (selected (selectedFiles st) stage slot)); simpl in Hc;
        repeat (destruct Hc as [<- | Hc]; [discriminate Hfn |]);
        destruct Hc.
Qed.

End PatternSlots.

(* ================================================================== *)
(** ** How many patterns the buckets hold *)

(** X9: the three buckets together hold each pattern of the answer whose
    stage is 'initial', 'second' or 'approved' exactly once: their
    sizes add up to the number of such patterns, so none is shown
    twice and the only patterns dropped are those with another
    stage. *)
Theorem buckets_hold_each_staged_pattern_once (data : list Pattern) :
  let b := OrderDetail.patternsByStage data in
  let staged (p : Pattern) :=
    seq_str (stage p) "initial" || seq_str (stage p) "second"
    || seq_str (stage p) "approved" in
     (List.length (OrderDetail.initial b) + List.length (OrderDetail.second b)
      + List.length (OrderDetail.approved b)
      = List.length (filter staged data))%nat
  /\ (List.length (filter staged data)
      + List.length (filter (fun p => negb (staged p)) data)
      = List.length data)%nat.
Proof.
  cbv zeta. unfold OrderDetail.patternsByStage. simpl.
  induction data as [| p data [IH1 IH2]]; [split; reflexivity |].
  simpl.
  destruct (stage p) as [| | | | s |]; simpl; try (split; lia).
  destruct (String.eqb_spec s "initial") as [-> | _]; simpl; [split; lia |].
  destruct (String.eqb_spec s "second") as [-> | _]; simpl; [split; lia |].
  destruct (String.eqb_spec s "approved") as [-> | _]; simpl; split; lia.
Qed.

(* ================================================================== *)
(** ** Renders that complete *)

Lemma first_some_none {A : Type} (l : list (option A)) :
  Forall (fun o => o = None) l -> first_some l = None.
Proof.
  induction 1 as [| o l Ho _ IH]; simpl; [reflexivity |]. now rewrite Ho.
Qed.

Lemma bound_Txt (scope : list string) (v : value) :
  first_unbound scope (Txt v) = None.
Proof. reflexivity. Qed.

Lemma bound_Host (scope : list string) (tag : string) (ps : list prop)
  (children : list element) :
  Forall (fun e => first_unbound scope e = None) children ->
  first_unbound scope (Host tag ps children) = None.
Proof.
  intros H. rewrite first_unbound_Host. apply first_some_none.
  now apply Forall_map.
Qed.

Lemma bound_Comp (scope : list string) (ident : string) (ps : list prop)
  (children : list element) :
  existsb (String.eqb ident) scope = true ->
  Forall (fun e => first_unbound scope e = None) children ->
  first_unbound scope (Comp ident ps children) = None.
Proof.
  intros Hi H. rewrite first_unbound_Comp, Hi. apply first_some_none.
  now apply Forall_map.
Qed.

Lemma bound_js_and (scope : list string) (cond : value) (e : element) :
  first_unbound scope e = None -> first_unbound scope (js_and cond e) = None.
Proof. intros H. unfold js_and. now destruct (truthy cond). Qed.

Lemma bound_map (scope : list string) {A : Type} (f : A -> element)
  (l : list A) :
  (forall x, first_unbound scope (f x) = None) ->
  Forall (fun e => first_unbound scope e = None) (map f l).
Proof. intros H. apply Forall_map. apply Forall_forall. auto. Qed.

(** Checks a tree written out in full, [known] closing the parts that
    have a lemma of their own. *)
Ltac check_bound known :=
  repeat first
    [ known
    | apply bound_Txt
    | apply bound_js_and
    | apply bound_Host
    | apply bound_Comp; [reflexivity |]
    | apply Forall_cons
    | apply Forall_nil ].

Section CompleteRenders.

Variable user : option User.

Lemma order_card_bound_in_orders (o : Order) :
  first_unbound Orders.scope (order_card o) = None.
Proof. reflexivity. Qed.

Lemma orders_view_bound (st : Orders.state) :
  first_unbound Orders.scope (Orders.view user st) = None.
Proof.
  unfold Orders.view, when.
  destruct (Orders.loading st);
    [| destruct (Z.of_nat (List.length (Orders.filteredOrders st)) =? 0)];
    check_bound ltac:(idtac;
      match goal with
      | |- Forall _ (map order_card _) =>
          apply bound_map; exact order_card_bound_in_orders
      | |- first_unbound _ (create_order_dialog _ _) = None => reflexivity
      | |- Forall _ (map _ Orders.statusFilters) => now repeat constructor
      | |- Forall _ (map _ Orders.dateFilters) => now repeat constructor
      | |- Forall _ (map _ [1; 2; 3; 4; 5; 6]) => now repeat constructor
      end).
Qed.

Lemma user_row_bound (u : User) :
  first_unbound AdminPanel.scope (AdminPanel.user_row u) = None.
Proof.
  unfold AdminPanel.user_row, when.
  check_bound ltac:(idtac;
    match goal with
    | |- Forall _ (map _ role_labels) => now repeat constructor
    end).
Qed.

Lemma admin_view_bound (st : AdminPanel.state) :
  first_unbound AdminPanel.scope (AdminPanel.view st) = None.
Proof.
  unfold AdminPanel.view.
  destruct (AdminPanel.loading st);
    [| destruct (Z.of_nat (List.length (AdminPanel.users st)) =? 0)];
    check_bound ltac:(idtac;
      match goal with
      | |- Forall _ (map AdminPanel.user_row _) =>
          apply bound_map; exact user_row_bound
      | |- Forall _ (map _ AdminPanel.role_descriptions) =>
          now repeat constructor
      end).
Qed.

Lemma pattern_slot_bound (st : OrderDetail.state) (stage : string)
  (ps : list Pattern) (canUpload : bool) (slot : Z) :
  first_unbound OrderDetail.scope
    (OrderDetail.pattern_slot user st stage ps canUpload slot) = None.
Proof.
  unfold OrderDetail.pattern_slot, OrderDetail.fragment, when.
  destruct (find (OrderDetail.in_slot slot) ps); [| destruct canUpload];
    check_bound ltac:(idtac; fail).
Qed.

Lemma chat_bubble_bound (chat : Chat) :
  first_unbound OrderDetail.scope (OrderDetail.chat_bubble user chat) = None.
Proof. unfold OrderDetail.chat_bubble. check_bound ltac:(idtac; fail). Qed.

Ltac order_view_parts :=
  match goal with
  | |- first_unbound _ (OrderDetail.renderPatternSlots _ _ _ _ _) = None =>
      unfold OrderDetail.renderPatternSlots; apply bound_Host;
      apply bound_map; intros ?; apply pattern_slot_bound
  | |- Forall _ (map (OrderDetail.chat_bubble _) _) =>
      apply bound_map; exact chat_bubble_bound
  end.

Lemma order_view_bound (st : OrderDetail.state) :
  first_unbound OrderDetail.scope (OrderDetail.view user st) = None.
Proof.
  unfold OrderDetail.view.
  destruct (OrderDetail.loading st); [reflexivity |].
  unfold OrderDetail.header, OrderDetail.initial_card, OrderDetail.second_card,
    OrderDetail.approved_card, OrderDetail.chat_card, OrderDetail.chat_form,
    OrderDetail.initial_badges, OrderDetail.second_badges,
    OrderDetail.approved_badges, when.
  destruct (OrderDetail.quotedMessage st);
    check_bound ltac:(idtac; order_view_parts).
Qed.

(** X10: every component identifier the JSX of the Orders page, of the
    admin panel and of the order view names is bound by an import of
    its module: in every state and for every user these three
    renders complete, none stops at an unbound identifier. *)
Theorem other_pages_render_in_every_state :
     (forall st, Orders.render user st = Rendered (Orders.view user st))
  /\ (forall st, AdminPanel.render st = Rendered (AdminPanel.view st))
  /\ (forall st,
        OrderDetail.render user st = Rendered (OrderDetail.view user st)).
Proof.
  split; [| split]; intros st.
  - unfold Orders.render, evaluate. now rewrite orders_view_bound.
  - unfold AdminPanel.render, evaluate. now rewrite admin_view_bound.
  - unfold OrderDetail.render, evaluate. now rewrite order_view_bound.
Qed.

End CompleteRenders.

(** The state the Dashboard starts in renders: its loading grid names
    bound identifiers only. *)
Lemma dashboard_renders_while_loading :
  Dashboard.render (Some pending_user) Dashboard.initial
  = Rendered (Dashboard.view (Some pending_user) Dashboard.initial).
Proof.
  apply (@dashboard_renders_otherwise (Some pending_user) Dashboard.initial).
  left. reflexivity.
Defined.

(* ================================================================== *)
(** ** Who is offered the creation of orders *)

Section OrderCreation.

Variable user : option User.

Let offered (c : control) : bool :=
  let fn := l_fn (c_listener c) in
  if ((fn =? "createOrder") || (fn =? "setFormData")
      || (fn =? "setDialogOpen"))%string
  then role_is user "admin" || role_is user "order_uploader"
  else if (fn =? "navigate")%string then
    match l_args (c_listener c) with
    | [VStr path] =>
        if (path =? "/admin")%string then role_is user "admin" else true
    | _ => true
    end
  else true.

Let P (c : control) : Prop := offered c = true.

Ltac offered_listeners :=
  unfold P, offered; simpl;
  repeat match goal with
         | H : _ = true |- _ => rewrite H
         end;
  auto.

Lemma order_card_offered (o : Order) : every P (order_card o).
Proof. unfold order_card, order_card_statuses. walk; offered_listeners. Qed.

Lemma dialog_offered (dialogOpen : bool) (label : string) :
  role_is user "admin" || role_is user "order_uploader" = true ->
  every P (create_order_dialog dialogOpen label).
Proof. intros H. unfold create_order_dialog. walk; offered_listeners. Qed.

Ltac page_parts :=
  match goal with
  | |- Forall (every _) (map order_card _) =>
      apply every_map; exact order_card_offered
  | |- every _ (create_order_dialog _ _) => now apply dialog_offered
  | |- Forall (every _) (map _ Orders.statusFilters) =>
      apply every_map; intros ?; walk
  | |- Forall (every _) (map _ Orders.dateFilters) =>
      apply every_map; intros ?; walk
  | |- Forall (every _) (map _ [1; 2; 3; 4; 5; 6]) =>
      apply every_map; intros ?; walk
  end.

Lemma dashboard_offered (st : Dashboard.state) :
  every P (Dashboard.view user st).
Proof.
  unfold Dashboard.view, Dashboard.header, Dashboard.empty_card,
    Dashboard.canCreateOrder.
  destruct (Dashboard.loading st);
    [| destruct (Z.of_nat (List.length (Dashboard.orders st)) =? 0);
       [destruct (negb (truthy (opt_field is_approved user))
                  && negb (role_is user "admin")) |]];
    walk_with ltac:(idtac; page_parts); offered_listeners.
Qed.

Lemma orders_offered (st : Orders.state) : every P (Orders.view user st).
Proof.
  unfold Orders.view, Orders.canCreateOrder.
  destruct (Orders.loading st);
    [| destruct (Z.of_nat (List.length (Orders.filteredOrders st)) =? 0)];
    walk_with ltac:(idtac; page_parts); offered_listeners.
Qed.

Lemma offered_inv (c : control) :
  offered c = true ->
     (l_fn (c_listener c) = "createOrder"
      \/ l_fn (c_listener c) = "setFormData"
      \/ l_fn (c_listener c) = "setDialogOpen" ->
      role_is user "admin" = true \/ role_is user "order_uploader" = true)
  /\ (c_listener c = call "navigate" [VStr "/admin"] ->
      role_is user "admin" = true).
Proof.
  unfold offered. intros H. split.
  - intros [E | [E | E]]; rewrite E in H; simpl in H; now apply orb_true_or.
  - intros E. rewrite E in H. exact H.
Qed.

(** The dialogs of the two pages: the one that creates an order, for
    the roles that may, passed the [dialogOpen] of the state. *)
Lemma dialogs_cards (l : list Order) :
  flat_map dialogs (map order_card l) = [].
Proof.
  rewrite flat_map_concat_map, map_map, <- flat_map_concat_map.
  now apply flat_map_nil.
Qed.

Lemma dialogs_dashboard (st : Dashboard.state) :
  dialogs (Dashboard.view user st)
  = if role_is user "admin" || role_is user "order_uploader"
    then [create_order_dialog (Dashboard.dialogOpen st) "Google Sheet Link"]
    else [].
Proof.
  unfold Dashboard.view, Dashboard.header, Dashboard.empty_card,
    Dashboard.canCreateOrder, when, js_and.
  destruct (role_is user "admin"), (role_is user "order_uploader"),
    (Dashboard.loading st),
    (Z.of_nat (List.length (Dashboard.orders st)) =? 0),
    (truthy (opt_field is_approved user));
    cbn [dialogs flat_map truthy orb andb negb];
    rewrite ?dialogs_cards; reflexivity.
Qed.

Lemma dialogs_orders (st : Orders.state) :
  dialogs (Orders.view user st)
  = if role_is user "admin" || role_is user "order_uploader"
    then [create_order_dialog (Orders.dialogOpen st) "Order Sheet Link"]
    else [].
Proof.
  unfold Orders.view, Orders.canCreateOrder, when, js_and.
  destruct (role_is user "admin"), (role_is user "order_uploader"),
    (Orders.loading st),
    (Z.of_nat (List.length (Orders.filteredOrders st)) =? 0);
    cbn [dialogs flat_map truthy orb andb negb];
    rewrite ?dialogs_cards; reflexivity.
Qed.

(** The controls of the form of a new order lie in the dialog [d]. *)
Let in_dialog (d : element) (c : control) : Prop :=
  l_fn (c_listener c) = "createOrder" \/ l_fn (c_listener c) = "setFormData" ->
  In c (controls d).

Ltac other_listeners :=
  unfold in_dialog; simpl; intros [E | E]; discriminate E.

Lemma order_card_in_dialog (d : element) (o : Order) :
  every (in_dialog d) (order_card o).
Proof. unfold order_card, order_card_statuses. walk; other_listeners. Qed.

Ltac dialog_parts :=
  match goal with
  | |- Forall (every _) (map order_card _) =>
      apply every_map; apply order_card_in_dialog
  | |- every _ (create_order_dialog _ _) => intros ? ? _; assumption
  | |- Forall (every _) (map _ Orders.statusFilters) =>
      apply every_map; intros ?; walk
  | |- Forall (every _) (map _ Orders.dateFilters) =>
      apply every_map; intros ?; walk
  | |- Forall (every _) (map _ [1; 2; 3; 4; 5; 6]) =>
      apply every_map; intros ?; walk
  end.

Lemma dashboard_in_dialog (st : Dashboard.state) :
  every (in_dialog
           (create_order_dialog (Dashboard.dialogOpen st) "Google Sheet Link"))
    (Dashboard.view user st).
Proof.
  unfold Dashboard.view, Dashboard.header, Dashboard.empty_card.
  destruct (Dashboard.loading st);
    [| destruct (Z.of_nat (List.length (Dashboard.orders st)) =? 0);
       [destruct (negb (truthy (opt_field is_approved user))
                  && negb (role_is user "admin")) |]];
    walk_with ltac:(idtac; dialog_parts); other_listeners.
Qed.

Lemma orders_in_dialog (st : Orders.state) :
  every (in_dialog
           (create_order_dialog (Orders.dialogOpen st) "Order Sheet Link"))
    (Orders.view user st).
Proof.
  unfold Orders.view.
  destruct (Orders.loading st);
    [| destruct (Z.of_nat (List.length (Orders.filteredOrders st)) =? 0)];
    walk_with ltac:(idtac; dialog_parts); other_listeners.
Qed.

(** X12: on the Dashboard and on the Orders page the controls that
    create an order (the submit of the form, its inputs, the opening
    and closing of the dialog) are in the tree only for the roles
    'admin' and 'order_uploader', and the button to the admin panel
    only for 'admin'.  For the two roles the page holds one dialog,
    for any other role none.  The dialog is passed [open={dialogOpen}]
    from the state; the form is in its content and nowhere else in the
    tree, so it is the dialog that decides, by that prop, whether the
    form is on the page.  [dialogOpen] is false when the page starts
    and after an order was created. *)
Theorem order_creation_offered_to_uploaders_only :
     (forall (st : Dashboard.state) (c : control),
        In c (controls (Dashboard.view user st)) ->
           (l_fn (c_listener c) = "createOrder"
            \/ l_fn (c_listener c) = "setFormData"
            \/ l_fn (c_listener c) = "setDialogOpen" ->
            role_is user "admin" = true \/ role_is user "order_uploader" = true)
        /\ (c_listener c = call "navigate" [VStr "/admin"] ->
            role_is user "admin" = true))
  /\ (forall (st : Orders.state) (c : control),
        In c (controls (Orders.view user st)) ->
        l_fn (c_listener c) = "createOrder"
        \/ l_fn (c_listener c) = "setFormData"
        \/ l_fn (c_listener c) = "setDialogOpen" ->
        role_is user "admin" = true \/ role_is user "order_uploader" = true)
  /\ (forall st : Dashboard.state,
        dialogs (Dashboard.view user st)
        = if role_is user "admin" || role_is user "order_uploader"
          then [create_order_dialog (Dashboard.dialogOpen st)
                  "Google Sheet Link"]
          else [])
  /\ (forall st : Orders.state,
        dialogs (Orders.view user st)
        = if role_is user "admin" || role_is user "order_uploader"
          then [create_order_dialog (Orders.dialogOpen st) "Order Sheet Link"]
          else [])
  /\ (forall (dialogOpen : bool) (label : string),
        exists trigger content : list element,
          create_order_dialog dialogOpen label
          = Comp "Dialog"
              [ Attr "open" (VBool dialogOpen);
                On "onOpenChange" (call "setDialogOpen" []) ]
              [ Comp "DialogTrigger" [] trigger;
                Comp "DialogContent" [] content ]
          /\ flat_map controls trigger = []
          /\ In create_form (flat_map controls content))
  /\ (forall (st : Dashboard.state) (c : control),
        In c (controls (Dashboard.view user st)) ->
        l_fn (c_listener c) = "createOrder"
        \/ l_fn (c_listener c) = "setFormData" ->
        In c (flat_map controls (dialogs (Dashboard.view user st))))
  /\ (forall (st : Orders.state) (c : control),
        In c (controls (Orders.view user st)) ->
        l_fn (c_listener c) = "createOrder"
        \/ l_fn (c_listener c) = "setFormData" ->
        In c (flat_map controls (dialogs (Orders.view user st))))
  /\ Dashboard.dialogOpen Dashboard.initial = false
  /\ Orders.dialogOpen Orders.initial = false
  /\ (forall st : Dashboard.state,
        Dashboard.dialogOpen
          (state_after (Dashboard.createOrder (Resolved tt)) st) = false)
  /\ (forall st : Orders.state,
        Orders.dialogOpen
          (state_after (Orders.createOrder (Resolved tt)) st) = false).
Proof.
  assert (Hd : forall (st : Dashboard.state) (c : control),
            In c (controls (Dashboard.view user st)) ->
               (l_fn (c_listener c) = "createOrder"
                \/ l_fn (c_listener c) = "setFormData"
                \/ l_fn (c_listener c) = "setDialogOpen" ->
                role_is user "admin" = true
                \/ role_is user "order_uploader" = true)
            /\ (c_listener c = call "navigate" [VStr "/admin"] ->
                role_is user "admin" = true)).
  { intros st c Hin. apply offered_inv.
    eapply dashboard_offered. eassumption. }
  assert (Ho : forall (st : Orders.state) (c : control),
            In c (controls (Orders.view user st)) ->
            l_fn (c_listener c) = "createOrder"
            \/ l_fn (c_listener c) = "setFormData"
            \/ l_fn (c_listener c) = "setDialogOpen" ->
            role_is user "admin" = true
            \/ role_is user "order_uploader" = true).
  { intros st c Hin. apply offered_inv.
    eapply orders_offered. eassumption. }
  assert (Hor : role_is user "admin" = true
                \/ role_is user "order_uploader" = true ->
                role_is user "admin" || role_is user "order_uploader" = true)
    by (intros [-> | ->]; [reflexivity | apply orb_true_r]).
  split; [exact Hd |]. split; [exact Ho |].
  split; [exact dialogs_dashboard |]. split; [exact dialogs_orders |].
  split.
  { intros dialogOpen label. eexists. eexists.
    split; [reflexivity |]. split; [reflexivity |].
    simpl. tauto. }
  split.
  { intros st c Hin Hfn. rewrite dialogs_dashboard, Hor.
    - cbn [flat_map]. rewrite app_nil_r.
      exact (@dashboard_in_dialog st c Hin Hfn).
    - apply (Hd st c Hin). tauto. }
  split.
  { intros st c Hin Hfn. rewrite dialogs_orders, Hor.
    - cbn [flat_map]. rewrite app_nil_r.
      exact (@orders_in_dialog st c Hin Hfn).
    - apply (Ho st c Hin). tauto. }
  repeat split.
Qed.

End OrderCreation.

(* ================================================================== *)
(** ** The chat poll across a change of order *)

Lemma cleanup_polling (orderId : value) (t0 id0 : Z)
  (sent : list (http_method * url)) (n : nat) :
  OrderDetail.cleanup id0 (polling_window orderId t0 id0 sent n)
  = {| Browser.clock := t0 + Z.of_nat n;
       Browser.next_id := id0 + 1;
       Browser.timers := [];
       Browser.in_flight :=
         Browser.in_flight (polling_window orderId t0 id0 sent n) |}.
Proof.
  unfold OrderDetail.cleanup, Browser.clearInterval, polling_window.
  cbn [Browser.clock Browser.next_id Browser.timers Browser.in_flight
       filter Browser.timer_id].
  now rewrite Z.eqb_refl.
Qed.

(** X13: when the order id changes after [n] ms, the effect's cleanup and
    new run leave exactly one timer, a new one: the polls of the old
    order stop, the three requests of [fetchOrderData] leave for the
    new order, and from then on one chat request for the new order
    leaves every 3000 ms.  Timers do not pile up. *)
Theorem remount_keeps_one_timer
  (orderId orderId' : value) (t0 id0 : Z) (sent : list (http_method * url))
  (n k : nat) :
  let mounted :=
    OrderDetail.mount orderId
      {| Browser.clock := t0; Browser.next_id := id0; Browser.timers := [];
         Browser.in_flight := sent |} in
  let w :=
    Browser.advance (OrderDetail.run_callback orderId) n (snd mounted) in
  let again := OrderDetail.remount orderId' (fst mounted) w in
     Browser.timers (snd again)
     = [ {| Browser.timer_id := fst again; Browser.callback := "fetchChats";
            Browser.delay := 3000; Browser.due := Browser.clock w + 3000 |} ]
  /\ fst again <> fst mounted
  /\ Browser.in_flight
       (Browser.advance (OrderDetail.run_callback orderId') k (snd again))
     = Browser.in_flight w
       ++ [ (GET, [VStr "/orders/"; orderId']);
            (GET, [VStr "/orders/"; orderId'; VStr "/patterns"]);
            (GET, [VStr "/orders/"; orderId'; VStr "/chat"]) ]
       ++ repeat (GET, [VStr "/orders/"; orderId'; VStr "/chat"])
            (Z.to_nat (Z.of_nat k / 3000)).
Proof.
  cbv zeta. rewrite mount_polling. cbn [fst snd].
  rewrite (advance_polling orderId t0 id0 sent n 0). cbn [Nat.add].
  unfold OrderDetail.remount. rewrite cleanup_polling, mount_polling.
  cbn [fst snd].
  rewrite (advance_polling orderId' _ _ _ k 0). cbn [Nat.add].
  split; [| split; [lia |]].
  - unfold polling_window at 1. cbn [Browser.timers].
    change (Z.of_nat 0 / 3000) with 0.
    unfold polling_window. cbn [Browser.clock]. reflexivity.
  - unfold polling_window at 1. cbn [Browser.in_flight]. reflexivity.
Qed.

(* ================================================================== *)
(** ** The admin panel's list of users *)

Section AdminUsers.
Import AdminPanel.

(** The listeners of a tree that call [fn]. *)
Let calls (fn : string) (e : element) : list listener :=
  map c_listener
    (filter (fun c => (l_fn (c_listener c) =? fn)%string) (controls e)).

Lemma calls_user_row (u : User) :
  calls "approveUser" (user_row u)
  = (if truthy (is_approved u) then []
     else [call "approveUser" [user_id u]])
  /\ calls "updateRole" (user_row u) = [call "updateRole" [user_id u]].
Proof.
  unfold calls, user_row, when, js_and.
  destruct (truthy (is_approved u)); split; reflexivity.
Qed.

Lemma calls_rows (fn : string) (us : list User) :
  map c_listener
    (filter (fun c => (l_fn (c_listener c) =? fn)%string)
       (flat_map controls (map user_row us)))
  = flat_map (fun u => calls fn (user_row u)) us.
Proof.
  induction us as [| u us IH]; [reflexivity |].
  cbn [map flat_map]. rewrite filter_app, map_app, IH. reflexivity.
Qed.

Lemma controls_admin_view (st : state) :
  controls (view st)
  = {| c_testid := Some [VStr "back-to-dashboard"]; c_event := "onClick";
       c_listener := call "navigate" [VStr "/"]; c_disabled := false |}
    :: (if loading st then []
        else flat_map controls (map user_row (users st))).
Proof.
  unfold view. destruct (loading st); [reflexivity |].
  destruct (users st) as [| u us]; [reflexivity |].
  cbn -[user_row]. now rewrite !app_nil_r.
Qed.

(** X14: once the users are loaded, the admin panel offers the approval of
    exactly the users that are not approved yet, one button each in
    the order of the list, and a role selector for every user; while
    loading it offers neither. *)
Theorem approval_offered_for_unapproved_users (st : state) :
     map c_listener
       (filter (fun c => (l_fn (c_listener c) =? "approveUser")%string)
          (controls (view st)))
     = (if loading st then []
        else map (fun u => call "approveUser" [user_id u])
               (filter (fun u => negb (truthy (is_approved u))) (users st)))
  /\ map c_listener
       (filter (fun c => (l_fn (c_listener c) =? "updateRole")%string)
          (controls (view st)))
     = (if loading st then []
        else map (fun u => call "updateRole" [user_id u]) (users st)).
Proof.
  rewrite controls_admin_view. cbn [filter l_fn c_listener call String.eqb
                                    Ascii.eqb Bool.eqb].
  destruct (loading st); [split; reflexivity |].
  rewrite !calls_rows. split.
  - induction (users st) as [| u us IH]; [reflexivity |].
    cbn [flat_map filter map].
    rewrite (proj1 (calls_user_row u)), IH.
    destruct (truthy (is_approved u)); reflexivity.
  - induction (users st) as [| u us IH]; [reflexivity |].
    cbn [flat_map filter map].
    rewrite (proj2 (calls_user_row u)), IH. reflexivity.
Qed.

End AdminUsers.

(* ================================================================== *)
(** ** The tabs of the Orders page *)

Section OrdersTabs.

Variable h : host.
Variable now : Z.

(** The orders shown once a status tab is chosen and the filters have
    run. *)
Let under (tab : string) (st : Orders.state) : list Order :=
  Orders.filteredOrders
    (state_after (Orders.applyFilters h now)
       (state_after (Orders.setStatusFilter tab) st)).

(** The orders shown once a period is chosen and the filters have
    run. *)
Let within (days : Z) (st : Orders.state) : list Order :=
  Orders.filteredOrders
    (state_after (Orders.applyFilters h now)
       (state_after (Orders.setDateFilter days) st)).

(** X15: whatever the period, every status tab shows a part of what 'All
    Orders' shows; no order is shown under 'No Action' and also under
    'Approved' or 'Rejected'; and an order whose final status is
    'approved' while an earlier stage was 'rejected' is shown under
    both 'Approved' and 'Rejected'. *)
Theorem status_tabs_share_no_order_with_no_action
  (st : Orders.state) (tab : string) (o : Order) :
     (In o (Orders.filteredOrders
              (state_after (Orders.applyFilters h now)
                 (state_after (Orders.setStatusFilter tab) st))) ->
      In o (Orders.filteredOrders
              (state_after (Orders.applyFilters h now)
                 (state_after (Orders.setStatusFilter "all") st))))
  /\ ~ (In o (Orders.filteredOrders
                (state_after (Orders.applyFilters h now)
                   (state_after (Orders.setStatusFilter "no_action") st)))
        /\ In o (Orders.filteredOrders
                   (state_after (Orders.applyFilters h now)
                      (state_after (Orders.setStatusFilter "approved") st))))
  /\ ~ (In o (Orders.filteredOrders
                (state_after (Orders.applyFilters h now)
                   (state_after (Orders.setStatusFilter "no_action") st)))
        /\ In o (Orders.filteredOrders
                   (state_after (Orders.applyFilters h now)
                      (state_after (Orders.setStatusFilter "rejected") st))))
  /\ (In o (Orders.filteredOrders
              (state_after (Orders.applyFilters h now)
                 (state_after (Orders.setStatusFilter "all") st))) ->
      approved_pattern_status o = VStr "approved" ->
      initial_pattern_status o = VStr "rejected"
      \/ second_pattern_status o = VStr "rejected" ->
         In o (Orders.filteredOrders
                 (state_after (Orders.applyFilters h now)
                    (state_after (Orders.setStatusFilter "approved") st)))
      /\ In o (Orders.filteredOrders
                 (state_after (Orders.applyFilters h now)
                    (state_after (Orders.setStatusFilter "rejected") st)))).
Proof.
  fold (under tab st) (under "all" st) (under "no_action" st)
    (under "approved" st) (under "rejected" st).
  assert (Hin : forall t,
            In o (under t st) <->
               In o (Orders.allOrders st)
            /\ JsDate.ge (JsDate.of_value h (created_at o))
                 (Orders.cutoffDate h now (Orders.dateFilter st)) = true
            /\ (t = "approved" -> approved_pattern_status o = VStr "approved")
            /\ (t = "rejected" ->
                   initial_pattern_status o = VStr "rejected"
                \/ second_pattern_status o = VStr "rejected"
                \/ approved_pattern_status o = VStr "rejected")
            /\ (t = "no_action" ->
                   truthy (initial_pattern_status o) = false
                /\ truthy (second_pattern_status o) = false
                /\ truthy (approved_pattern_status o) = false)).
  { intros t. unfold under. rewrite filtered_In. reflexivity. }
  rewrite !Hin. clear Hin.
  split; [| split; [| split]].
  - intros (Ha & Hd & _). repeat split; auto; discriminate.
  - intros [(_ & _ & _ & _ & Hn) (_ & _ & Hap & _)].
    destruct (Hn eq_refl) as (_ & _ & Hf).
    rewrite (Hap eq_refl) in Hf. discriminate Hf.
  - intros [(_ & _ & _ & _ & Hn) (_ & _ & _ & Hr & _)].
    destruct (Hn eq_refl) as (H1 & H2 & H3).
    destruct (Hr eq_refl) as [E | [E | E]];
      rewrite E in *; discriminate.
  - intros (Ha & Hd & _) Hap Hrj.
    split; repeat split; auto; try discriminate; tauto.
Qed.

(** X16: where the zone's offset from UTC is constant, choosing a longer
    period never hides an order: whatever is shown for [days1] days is
    shown for any [days2 >= days1] whose cutoff is a valid date. *)
Theorem longer_period_shows_no_less
  (c days1 days2 : Z) (st : Orders.state) (o : Order) :
  (forall t b, local_tza h t b = c) ->
  days1 <= days2 ->
  Z.abs (now - days2 * JsDate.msPerDay) <= 8640000000000000 ->
  In o (Orders.filteredOrders
          (state_after (Orders.applyFilters h now)
             (state_after (Orders.setDateFilter days1) st))) ->
  In o (Orders.filteredOrders
          (state_after (Orders.applyFilters h now)
             (state_after (Orders.setDateFilter days2) st))).
Proof.
  intros Hc Hle Hv. rewrite !filtered_In.
  change (Orders.dateFilter (state_after (Orders.setDateFilter days1) st))
    with days1.
  change (Orders.dateFilter (state_after (Orders.setDateFilter days2) st))
    with days2.
  rewrite !(cutoffDate_constant_offset _ _ _ Hc).
  intros (Ha & Hd & Hs). split; [exact Ha |]. split; [| exact Hs].
  unfold JsDate.TimeClip in *.
  destruct (JsDate.of_value h (created_at o)) as [d |]; [| discriminate Hd].
  destruct (Z.ltb_spec 8640000000000000
              (Z.abs (now - days1 * JsDate.msPerDay))); [discriminate Hd |].
  destruct (Z.ltb_spec 8640000000000000
              (Z.abs (now - days2 * JsDate.msPerDay))); [lia |].
  simpl in *. apply Z.leb_le in Hd. apply Z.leb_le.
  unfold JsDate.msPerDay in *. lia.
Qed.

End OrdersTabs.

Lemma longer_period_witness :
  In rejected_order
    (Orders.filteredOrders
       (state_after (Orders.applyFilters sample_host sample_now)
          (state_after (Orders.setDateFilter 30)
             (state_after (Orders.fetchOrders (Resolved [rejected_order]))
                Orders.initial)))).
Proof.
  apply (@longer_period_shows_no_less sample_host sample_now 0 7 30
           (state_after (Orders.fetchOrders (Resolved [rejected_order]))
              Orders.initial)
           rejected_order).
  - reflexivity.
  - lia.
  - vm_compute. discriminate.
  - vm_compute. left. reflexivity.
Defined.
